(** * EMS protocol navigator: relevance matching, category filters and the
      medication calculator

    A shallow embedding of the TypeScript sources:
    - [Js]: the ECMAScript built-ins the code calls (strings, arrays, numbers);
    - [Chat]: [findRelevantProtocols] of the chat route (keyword-overlap
      scorer), and [ChatSpec]: its score as the specification words it;
    - [Fuse]: the options and results of the fuzzy-search library;
    - [CategoryFilter], [SearchPage], [Home], [QuizRoute]: the search handlers
      and the two category filters;
    - [Calculator]: [handleCalculate] of MedicationCalculator.tsx.
    - [Json], [QuizPage], [ChatRoute]: the values [JSON.parse] gives, the quiz
      page with its handlers and screens, and [POST] of the chat route.

    Strings are sequences of 8-bit code units read as the code points
    U+0000..U+00FF; numbers are IEEE 754 binary64 values ([spec_float] with
    precision 53 and maximal exponent 1024); scores, which the code keeps in
    numbers but which are small sums of 1 and 2, are natural numbers. *)

From Stdlib Require Import List String Ascii Bool Arith ZArith Lia.
From Stdlib Require Import Permutation Sorted QArith SpecFloat DecimalString.
Import ListNotations.

Local Open Scope list_scope.
Local Open Scope nat_scope.

(* ================================================================== *)
(** ** ECMAScript built-ins used by the sources *)

Module Js.

(** WhiteSpace and LineTerminator code points below U+0100: TAB, LF, VT, FF,
    CR, SP and NBSP.  They are what [String.prototype.trim] strips and what
    the regular expression class [\s] matches. *)
Definition isWhiteSpace (c : ascii) : bool :=
  let n := nat_of_ascii c in
  (n =? 9) || (n =? 10) || (n =? 11) || (n =? 12) || (n =? 13)
  || (n =? 32) || (n =? 160).

(** Lower-casing of one code point below U+0100: A-Z, and the Latin-1 capitals
    U+00C0..U+00DE except the multiplication sign U+00D7. *)
Definition lowerChar (c : ascii) : ascii :=
  let n := nat_of_ascii c in
  if ((65 <=? n) && (n <=? 90))
     || ((192 <=? n) && (n <=? 222) && negb (n =? 215))
  then ascii_of_nat (n + 32) else c.

(** [String.prototype.toLowerCase]. *)
Fixpoint toLowerCase (s : string) : string :=
  match s with
  | EmptyString => EmptyString
  | String c r => String (lowerChar c) (toLowerCase r)
  end.

(** [s.split(/\s+/)]: the pieces between maximal runs of white space.  A run
    at either end of [s] leaves an empty piece there, and the empty string
    splits into one empty piece. *)
Fixpoint split_ws (s : string) : list string :=
  match s with
  | EmptyString => [EmptyString]
  | String c r =>
      let rest := split_ws r in
      if isWhiteSpace c then
        match r with
        | String c' _ => if isWhiteSpace c' then rest else EmptyString :: rest
        | EmptyString => EmptyString :: rest
        end
      else
        match rest with
        | t :: ts => String c t :: ts
        | [] => [String c EmptyString]
        end
  end.

(** [s.includes(sub)]: [sub] occurs in [s] as a contiguous substring. *)
Fixpoint includes (s sub : string) : bool :=
  String.prefix sub s
  || match s with
     | EmptyString => false
     | String _ r => includes r sub
     end.

(** [arr.includes(x)] on an array of strings. *)
Definition arrayIncludes (arr : list string) (x : string) : bool :=
  existsb (String.eqb x) arr.

(** [String.prototype.trim], as [trimEnd] after [trimStart]. *)
Fixpoint trimStart (s : string) : string :=
  match s with
  | EmptyString => EmptyString
  | String c r => if isWhiteSpace c then trimStart r else s
  end.

Fixpoint trimEnd (s : string) : string :=
  match s with
  | EmptyString => EmptyString
  | String c r =>
      match trimEnd r with
      | EmptyString => if isWhiteSpace c then EmptyString else String c EmptyString
      | t => String c t
      end
  end.

Definition trim (s : string) : string := trimEnd (trimStart s).

(** Truthiness of a string: only the empty string is falsy. *)
Definition truthy (s : string) : bool :=
  match s with EmptyString => false | String _ _ => true end.

(** A string of white space only (the empty string is one). *)
Fixpoint allWhiteSpace (s : string) : bool :=
  match s with
  | EmptyString => true
  | String c r => isWhiteSpace c && allWhiteSpace r
  end.

(** [Array.prototype.sort(comparefn)].  The language requires the sort to be
    stable; this is the stable insertion sort: an element goes before the
    first element of the sorted rest that [comparefn] does not put before
    it. *)
Section Sort.
Context {A : Type}.
Variable comparefn : A -> A -> Z.

Fixpoint insert (x : A) (l : list A) : list A :=
  match l with
  | [] => [x]
  | y :: t => if (comparefn x y <=? 0)%Z then x :: l else y :: insert x t
  end.

Definition sort (l : list A) : list A := fold_right insert [] l.
End Sort.

(** *** Numbers *)

Definition prec : Z := 53.
Definition emax : Z := 1024.

(** A Number value. *)
Definition number : Type := spec_float.

Definition mul : number -> number -> number := SFmul prec emax.
Definition div : number -> number -> number := SFdiv prec emax.

(** [x === y] and [x < y] on numbers; both are false when either is NaN, and
    the two zeros are equal. *)
Definition strictEq (x y : number) : bool := SFeqb x y.
Definition lt (x y : number) : bool := SFltb x y.

Definition isNaN (x : number) : bool :=
  match x with S754_nan => true | _ => false end.

(** [Number.isFinite]. *)
Definition isFinite (x : number) : bool :=
  match x with
  | S754_zero _ | S754_finite _ _ _ => true
  | _ => false
  end.

Definition zero : number := S754_zero false.
Definition Infinity : number := S754_infinity false.

(** The Number value of the integer [z]. *)
Definition ofZ (z : Z) : number := binary_normalize prec emax z 0 false.

(** The Number value of the decimal [m * 10^k], [m] not negative: the nearest
    binary64 value, ties to even. *)
Definition ofDecimal (neg : bool) (m : Z) (k : Z) : number :=
  match m with
  | Zpos p =>
      if (0 <=? k)%Z then binary_round prec emax neg (p * Z.to_pos (10 ^ k))%positive 0
      else div (S754_finite neg p 0) (S754_finite false (Z.to_pos (10 ^ (- k))) 0)
  | _ => S754_zero neg
  end.

Definition digitValue (c : ascii) : option Z :=
  let n := nat_of_ascii c in
  if (48 <=? n) && (n <=? 57) then Some (Z.of_nat (n - 48)) else None.

(** The longest run of decimal digits at the start of [s]: the value of [acc]
    followed by those digits, how many there are, and what follows them. *)
Fixpoint spanDigits (s : string) (acc : Z) (n : nat) : Z * nat * string :=
  match s with
  | EmptyString => (acc, n, s)
  | String c r =>
      match digitValue c with
      | Some d => spanDigits r (acc * 10 + d)%Z (S n)
      | None => (acc, n, s)
      end
  end.

Definition spanSign (s : string) : bool * string :=
  match s with
  | String "-"%char r => (true, r)
  | String "+"%char r => (false, r)
  | _ => (false, s)
  end.

(** [parseFloat]: leading white space is skipped, then the longest prefix that
    is a decimal literal (sign, [Infinity] or digits with an optional fraction
    and exponent) is read; NaN when there is none. *)
Definition parseFloat (s : string) : number :=
  let '(neg, t1) := spanSign (trimStart s) in
  if String.prefix "Infinity" t1 then S754_infinity neg
  else
    let '(ip, ni, t2) := spanDigits t1 0 0 in
    let '(m, nf, t3) :=
      match t2 with
      | String "."%char r => spanDigits r ip 0
      | _ => (ip, 0, t2)
      end in
    if ni + nf =? 0 then S754_nan
    else
      let ex :=
        match t3 with
        | String c r =>
            if Ascii.eqb c "e" || Ascii.eqb c "E" then
              let '(eneg, r1) := spanSign r in
              let '(ev, ne, _) := spanDigits r1 0 0 in
              if ne =? 0 then 0%Z else if eneg then (- ev)%Z else ev
            else 0%Z
        | EmptyString => 0%Z
        end in
      ofDecimal neg m (ex - Z.of_nat nf).

(** The decimal digits of [n], at least [fractionDigits + 1] of them, with a
    point before the last [fractionDigits] when there are any. *)
Definition fixedDigits (n : N) (fractionDigits : nat) : string :=
  let m := NilZero.string_of_uint (N.to_uint n) in
  if fractionDigits =? 0 then m
  else
    let k := String.length m in
    let m := if k <=? fractionDigits
             then String.append (string_of_list_ascii (repeat "0"%char (fractionDigits + 1 - k))) m
             else m in
    let k := String.length m in
    String.append (substring 0 (k - fractionDigits) m)
                  (String "." (substring (k - fractionDigits) fractionDigits m)).

Definition hexDigitValue (c : ascii) : option Z :=
  let n := nat_of_ascii c in
  if (48 <=? n) && (n <=? 57) then Some (Z.of_nat (n - 48))
  else if (97 <=? n) && (n <=? 102) then Some (Z.of_nat (n - 87))
  else if (65 <=? n) && (n <=? 70) then Some (Z.of_nat (n - 55))
  else None.

Fixpoint spanHexDigits (s : string) (acc : Z) (n : nat) : Z * nat :=
  match s with
  | EmptyString => (acc, n)
  | String c r =>
      match hexDigitValue c with
      | Some d => spanHexDigits r (acc * 16 + d)%Z (S n)
      | None => (acc, n)
      end
  end.

(** [parseInt(s)] with no radix: the integer written at the start of [s]
    after white space and a sign, in base 16 after [0x] or [0X] and in base
    10 otherwise; [None] is NaN.  The integer is given as it is written, before
    it is rounded to a Number. *)
Definition parseInt (s : string) : option Z :=
  let '(neg, t) := spanSign (trimStart s) in
  let '(v, n) :=
    match t with
    | String "0"%char (String x r) =>
        if Ascii.eqb x "x" || Ascii.eqb x "X" then spanHexDigits r 0 0
        else let '(v, n, _) := spanDigits t 0 0 in (v, n)
    | _ => let '(v, n, _) := spanDigits t 0 0 in (v, n)
    end in
  if n =? 0 then None else Some (if neg then (- v)%Z else v).

Section ToFixed.
(** [Number::toString] of a finite value of magnitude at least 10^21, which
    [toFixed] falls back to. *)
Variable toStringLarge : number -> string.

(** [x.toFixed(fractionDigits)]: the integer [n] nearest to [x * 10^f], the
    larger one on a tie, written with [f] digits after the point. *)
Definition toFixed (x : number) (fractionDigits : nat) : string :=
  match x with
  | S754_nan => "NaN"
  | S754_infinity s => if s then "-Infinity" else "Infinity"
  | S754_zero _ => fixedDigits 0 fractionDigits
  | S754_finite s m e =>
      let large :=
        if (0 <=? e)%Z then (10 ^ 21 <=? Zpos m * 2 ^ e)%Z
        else (10 ^ 21 * 2 ^ (- e) <=? Zpos m)%Z in
      if large then toStringLarge x
      else
        let p10 := (10 ^ Z.of_nat fractionDigits)%Z in
        let n :=
          if (0 <=? e)%Z then (Zpos m * 2 ^ e * p10)%Z
          else ((2 * Zpos m * p10 + 2 ^ (- e)) / 2 ^ (- e + 1))%Z in
        String.append (if s then "-" else "") (fixedDigits (Z.to_N n) fractionDigits)
  end.
End ToFixed.

End Js.

(* ================================================================== *)
(** ** The keyword-overlap context scorer (chat route) *)

Module Chat.

Record Protocol := {
  name : string;
  content : string;
  source_file : string
}.

(** The [{ protocol, score }] objects built by the scorer. *)
Record Scored := {
  protocol : Protocol;
  score : nat
}.

Definition stopWords : list string :=
  ["is"; "the"; "for"; "and"; "a"; "of"; "to"; "in"]%string.

(** [queryKeywords]: the tokens of the lower-cased query that are longer than
    two code units and are not stop words. *)
Definition queryKeywords (query : string) : list string :=
  let lowerCaseQuery := Js.toLowerCase query in
  filter (fun kw => (2 <? String.length kw) && negb (Js.arrayIncludes stopWords kw))
         (Js.split_ws lowerCaseQuery).

(** The callback mapped over the protocols: the [forEach] accumulation, then
    the two bonus steps. *)
Definition scoreProtocol (queryKeywords : list string) (protocol : Protocol) : Scored :=
  let protocolNameLower := Js.toLowerCase (name protocol) in
  let protocolContentLower := Js.toLowerCase (content protocol) in
  let score :=
    fold_left
      (fun score kw =>
         let score := if Js.includes protocolNameLower kw then score + 2 else score in
         if Js.includes protocolContentLower kw then score + 1 else score)
      queryKeywords 0 in
  let nameMatchCount :=
    List.length (filter (fun kw => Js.includes protocolNameLower kw) queryKeywords) in
  let contentMatchCount :=
    List.length (filter (fun kw => Js.includes protocolContentLower kw) queryKeywords) in
  let score := if 1 <? nameMatchCount then score + nameMatchCount * 2 else score in
  let score := if 1 <? contentMatchCount then score + contentMatchCount else score in
  {| protocol := protocol; score := score |}.

(** The comparator [(a, b) => b.score - a.score]. *)
Definition byScoreDesc (a b : Scored) : Z :=
  (Z.of_nat (score b) - Z.of_nat (score a))%Z.

(** One run of [findRelevantProtocols]: [scoredProtocols] is the array of
    scored items the run built (none when it returns before the [map]),
    [relevant] the value returned. *)
Record Run := {
  scoredProtocols : list Scored;
  relevant : list Protocol
}.

(** [protocols] stands for [Object.values(protocols)], the corpus in the order
    of the static mapping. *)
Definition findRelevantProtocols_run (protocols : list Protocol) (query : string) : Run :=
  let queryKeywords := queryKeywords query in
  if List.length queryKeywords =? 0 then {| scoredProtocols := []; relevant := [] |}
  else
    let scoredProtocols := map (scoreProtocol queryKeywords) protocols in
    let sortedResults :=
      Js.sort byScoreDesc (filter (fun item => 0 <? score item) scoredProtocols) in
    {| scoredProtocols := scoredProtocols;
       relevant := map protocol (firstn 5 sortedResults) |}.

Definition findRelevantProtocols (protocols : list Protocol) (query : string)
  : list Protocol :=
  relevant (findRelevantProtocols_run protocols query).

(** The score the scorer gives a protocol for a query. *)
Definition scoreOf (query : string) (p : Protocol) : nat :=
  score (scoreProtocol (queryKeywords query) p).

(** What the language guarantees of [sort] under [byScoreDesc], whatever
    algorithm the engine runs: the result is in non-increasing score order and
    the items of each score keep the order they had. *)
Definition StableSortedDesc (l l' : list Scored) : Prop :=
  StronglySorted (fun a b => score b <= score a) l'
  /\ forall k, filter (fun it => score it =? k) l' = filter (fun it => score it =? k) l.

(** [findRelevantProtocols] over any conforming [sort]. *)
Inductive FindRelevantProtocols (protocols : list Protocol) (query : string)
  : list Protocol -> Prop :=
| Find_no_keywords :
    queryKeywords query = [] ->
    FindRelevantProtocols protocols query []
| Find_ranked (sortedResults : list Scored) :
    queryKeywords query <> [] ->
    StableSortedDesc
      (filter (fun item => 0 <? score item)
              (map (scoreProtocol (queryKeywords query)) protocols))
      sortedResults ->
    FindRelevantProtocols protocols query (map protocol (firstn 5 sortedResults)).

End Chat.

(** *** The scorer as the specification words it *)

Module ChatSpec.

(** Tokens: the lower-cased query split on white space, without the tokens of
    length at most 2 and without the stop words. *)
Definition tokens (query : string) : list string :=
  filter (fun t => negb (String.length t <=? 2))
         (filter (fun t => negb (Js.arrayIncludes Chat.stopWords t))
                 (Js.split_ws (Js.toLowerCase query))).

Definition points (p : Chat.Protocol) (t : string) : nat :=
  (if Js.includes (Js.toLowerCase (Chat.name p)) t then 2 else 0)
  + (if Js.includes (Js.toLowerCase (Chat.content p)) t then 1 else 0).

Definition bonus (nameMatchCount contentMatchCount : nat) : nat :=
  (if 1 <? nameMatchCount then nameMatchCount * 2 else 0)
  + (if 1 <? contentMatchCount then contentMatchCount else 0).

(** The score with the match counts taken over the distinct tokens. *)
Definition score_distinct (query : string) (p : Chat.Protocol) : nat :=
  let ts := tokens query in
  let nameMatchCount :=
    List.length (nodup string_dec
              (filter (fun t => Js.includes (Js.toLowerCase (Chat.name p)) t) ts)) in
  let contentMatchCount :=
    List.length (nodup string_dec
              (filter (fun t => Js.includes (Js.toLowerCase (Chat.content p)) t) ts)) in
  list_sum (map (points p) ts) + bonus nameMatchCount contentMatchCount.

(** The score with the match counts taken over the tokens as they occur, a
    repeated token counted each time. *)
Definition score_occurrences (query : string) (p : Chat.Protocol) : nat :=
  let ts := tokens query in
  let nameMatchCount :=
    List.length (filter (fun t => Js.includes (Js.toLowerCase (Chat.name p)) t) ts) in
  let contentMatchCount :=
    List.length (filter (fun t => Js.includes (Js.toLowerCase (Chat.content p)) t) ts) in
  list_sum (map (points p) ts) + bonus nameMatchCount contentMatchCount.

End ChatSpec.

(* ================================================================== *)
(** ** Fuse.js, the fuzzy-search library of the two search pages

    The library is a dependency of the pages, not part of them: its [search]
    enters the handlers below as a function of the options, the indexed
    collection and the pattern. *)

Module Fuse.

Record Key := { keyName : string; weight : Q }.

Record Options := {
  includeScore : bool;
  threshold : Q;
  keys : list Key
}.

(** A result object of [search]; the handlers read its [item] only. *)
Record Result (T : Type) := {
  item : T;
  refIndex : nat;
  score : Q
}.
Arguments item {T} _.
Arguments refIndex {T} _.
Arguments score {T} _.

(** [fuseOptions], written the same in both pages. *)
Definition fuseOptions : Options :=
  {| includeScore := true;
     threshold := 4 # 10;
     keys := [ {| keyName := "name"; weight := 6 # 10 |};
               {| keyName := "id"; weight := 5 # 10 |};
               {| keyName := "content"; weight := 2 # 10 |} ] |}.

End Fuse.

(* ================================================================== *)
(** ** The two category filters *)

Module CategoryFilter.

Section Filters.
Context {T : Type}.
(** [p.categories], an optional array of tags. *)
Variable categories : T -> option (list string).

(** [protocol.categories?.includes(filter)]: [undefined], hence falsy, when
    the protocol has no [categories]. *)
Definition hasCategory (protocol : T) (filter : string) : bool :=
  match categories protocol with
  | Some cs => Js.arrayIncludes cs filter
  | None => false
  end.

(** The search page: every active filter is among the protocol's tags. *)
Definition filterAll (activeFilters : list string) (protocolsList : list T) : list T :=
  if 0 <? List.length activeFilters then
    filter (fun protocol => forallb (fun f => hasCategory protocol f) activeFilters)
           protocolsList
  else protocolsList.

(** The quiz route: some tag of the protocol is among the requested ones. *)
Definition filterAny (selected : list string) (allProtocols : list T) : list T :=
  if negb (List.length selected =? 0) then
    filter (fun p => match categories p with
                     | Some cs => existsb (fun c => Js.arrayIncludes selected c) cs
                     | None => false
                     end)
           allProtocols
  else allProtocols.
End Filters.

(** The updater of the filter buttons and of the category check boxes,
    [prev => prev.includes(id) ? prev.filter(i => i !== id) : [...prev, id]]. *)
Definition toggle (id : string) (prev : list string) : list string :=
  if Js.arrayIncludes prev id then filter (fun i => negb (String.eqb i id)) prev
  else prev ++ [id].

End CategoryFilter.

(* ================================================================== *)
(** ** The search-only page: [handleSearch] *)

Module SearchPage.

Record Protocol := {
  name : string;
  content : string;
  source_file : string;
  id : string
}.

Record State := {
  searchTerm : string;
  searchResults : list Protocol;
  isSearching : bool;
  isChatMode : bool
}.

Definition setSearchResults (v : list Protocol) (st : State) : State :=
  {| searchTerm := searchTerm st; searchResults := v;
     isSearching := isSearching st; isChatMode := isChatMode st |}.
Definition setIsSearching (v : bool) (st : State) : State :=
  {| searchTerm := searchTerm st; searchResults := searchResults st;
     isSearching := v; isChatMode := isChatMode st |}.
Definition setIsChatMode (v : bool) (st : State) : State :=
  {| searchTerm := searchTerm st; searchResults := searchResults st;
     isSearching := isSearching st; isChatMode := v |}.

Section Handlers.
(** The corpus the module-level [fuse] instance indexes, and the library's
    [search]. *)
Variable protocolsList : list Protocol.
Variable search : Fuse.Options -> list Protocol -> string -> list (Fuse.Result Protocol).

(** The state after the handler, with the patterns it passed to
    [fuse.search], in call order. *)
Definition handleSearch (st : State) : State * list string :=
  if negb (Js.truthy (Js.trim (searchTerm st))) then
    (setSearchResults [] st, [])
  else
    let st1 := setIsSearching true st in
    let results := search Fuse.fuseOptions protocolsList (searchTerm st) in
    let filteredResults := map Fuse.item results in
    let st2 := setSearchResults filteredResults st1 in
    let st3 := setIsSearching false st2 in
    (setIsChatMode false st3, [searchTerm st]).
End Handlers.

End SearchPage.

(* ================================================================== *)
(** ** The page with category filters: [applyFiltersAndSearch] *)

Module Home.

Record Protocol := {
  name : string;
  content : string;
  source_file : string;
  id : string;
  categories : option (list string)
}.

Record State := {
  searchTerm : string;
  searchResults : list Protocol;
  isSearching : bool;
  isChatMode : bool;
  activeFilters : list string;
  isCalculatorOpen : bool
}.

Definition setSearchResults (v : list Protocol) (st : State) : State :=
  {| searchTerm := searchTerm st; searchResults := v;
     isSearching := isSearching st; isChatMode := isChatMode st;
     activeFilters := activeFilters st; isCalculatorOpen := isCalculatorOpen st |}.
Definition setIsSearching (v : bool) (st : State) : State :=
  {| searchTerm := searchTerm st; searchResults := searchResults st;
     isSearching := v; isChatMode := isChatMode st;
     activeFilters := activeFilters st; isCalculatorOpen := isCalculatorOpen st |}.

Section Handlers.
Variable protocolsList : list Protocol.
Variable search : Fuse.Options -> list Protocol -> string -> list (Fuse.Result Protocol).

(** The state after the handler, with the [search] calls it made: the
    collection given to [new Fuse] and the pattern. *)
Definition applyFiltersAndSearch (st : State)
  : State * list (list Protocol * string) :=
  let filteredByCategories :=
    CategoryFilter.filterAll categories (activeFilters st) protocolsList in
  if negb (Js.truthy (Js.trim (searchTerm st))) then
    (setSearchResults filteredByCategories st, [])
  else
    let st1 := setIsSearching true st in
    let results := search Fuse.fuseOptions filteredByCategories (searchTerm st) in
    let finalResults := map Fuse.item results in
    let st2 := setSearchResults finalResults st1 in
    (setIsSearching false st2, [(filteredByCategories, searchTerm st)]).
End Handlers.

Definition setSearchTerm (v : string) (st : State) : State :=
  {| searchTerm := v; searchResults := searchResults st;
     isSearching := isSearching st; isChatMode := isChatMode st;
     activeFilters := activeFilters st; isCalculatorOpen := isCalculatorOpen st |}.
Definition setIsChatMode (v : bool) (st : State) : State :=
  {| searchTerm := searchTerm st; searchResults := searchResults st;
     isSearching := isSearching st; isChatMode := v;
     activeFilters := activeFilters st; isCalculatorOpen := isCalculatorOpen st |}.
Definition setActiveFilters (v : list string) (st : State) : State :=
  {| searchTerm := searchTerm st; searchResults := searchResults st;
     isSearching := isSearching st; isChatMode := isChatMode st;
     activeFilters := v; isCalculatorOpen := isCalculatorOpen st |}.
Definition setIsCalculatorOpen (v : bool) (st : State) : State :=
  {| searchTerm := searchTerm st; searchResults := searchResults st;
     isSearching := isSearching st; isChatMode := isChatMode st;
     activeFilters := activeFilters st; isCalculatorOpen := v |}.

Definition toggleFilter (filterId : string) (st : State) : State :=
  setActiveFilters (CategoryFilter.toggle filterId (activeFilters st)) st.

Definition clearAllFilters (st : State) : State := setActiveFilters [] st.

(** The state the component starts from. *)
Definition initialState : State :=
  {| searchTerm := ""; searchResults := []; isSearching := false;
     isChatMode := false; activeFilters := []; isCalculatorOpen := false |}.

(** What the user can do on the page. *)
Inductive Event :=
| TypeSearchTerm (value : string)
| ToggleFilter (filterId : string)
| ClearAllFilters
| ToggleChatMode
| OpenCalculator
| CloseCalculator.

Section Page.
Variable protocolsList : list Protocol.
Variable search : Fuse.Options -> list Protocol -> string -> list (Fuse.Result Protocol).

(** The effect on [searchTerm] and [activeFilters]: it runs
    [applyFiltersAndSearch] when the component mounts and after an update
    that changes either of the two. *)
Definition runEffect (st : State) : State :=
  fst (applyFiltersAndSearch protocolsList search st).

Definition mounted : State := runEffect initialState.

(** One event: the handler's update, then the effect when its dependencies
    changed. *)
Definition step (st : State) (ev : Event) : State :=
  match ev with
  | TypeSearchTerm value =>
      if String.eqb value (searchTerm st) then st
      else runEffect (setSearchTerm value st)
  | ToggleFilter filterId => runEffect (toggleFilter filterId st)
  | ClearAllFilters => runEffect (clearAllFilters st)
  | ToggleChatMode => setIsChatMode (negb (isChatMode st)) st
  | OpenCalculator => setIsCalculatorOpen true st
  | CloseCalculator => setIsCalculatorOpen false st
  end.

Definition run (events : list Event) : State := fold_left step events mounted.
End Page.

End Home.

(* ================================================================== *)
(** ** JSON values, as the routes receive and send them *)

Module Json.

(** A value [JSON.parse] can give; the fields of an object are in insertion
    order and a key occurs once. *)
#[local] Unset Elimination Schemes.
Inductive value :=
| Null
| Bool (b : bool)
| Num (n : Js.number)
| Str (s : string)
| Arr (items : list value)
| Obj (fields : list (string * value)).
#[local] Set Elimination Schemes.

(** [obj[key]], [None] standing for [undefined]. *)
Fixpoint get (key : string) (fields : list (string * value)) : option value :=
  match fields with
  | [] => None
  | (k, v) :: rest => if String.eqb k key then Some v else get key rest
  end.

(** Truthiness: [null], [false], [0], [NaN] and the empty string are falsy. *)
Definition truthy (v : value) : bool :=
  match v with
  | Null => false
  | Bool b => b
  | Num n => negb (Js.isNaN n || Js.strictEq n Js.zero)
  | Str s => Js.truthy s
  | Arr _ | Obj _ => true
  end.

(** The strings of an array, when all its items are strings. *)
Fixpoint strings (items : list value) : option (list string) :=
  match items with
  | [] => Some []
  | Str s :: rest =>
      match strings rest with
      | Some ss => Some (s :: ss)
      | None => None
      end
  | _ :: _ => None
  end.

End Json.

(* ================================================================== *)
(** ** The quiz route: the pool of protocols for the requested categories *)

Module QuizRoute.

Record Protocol := {
  id : string;
  title : string;
  content : string;
  categories : option (list string)
}.

Inductive Response (A : Type) :=
| Proceed (pool : A)
| BadRequest (error : string).
Arguments Proceed {A} _.
Arguments BadRequest {A} _.

(** The part of [POST] before the shuffle: [selected] is the validated
    [categories] of the request, [[]] when the request has none. *)
Definition selectPool (allProtocols : list Protocol) (selected : list string)
  : Response (list Protocol) :=
  let pool := CategoryFilter.filterAny categories selected allProtocols in
  if List.length pool =? 0 then BadRequest "No protocols found for selected categories."
  else Proceed pool.

(** [requestSchema.safeParse(body)], for
    [{ categories: z.array(z.string()).optional(), length: z.number().min(1).max(20) }]:
    the parsed [categories] ([None] when the key is absent) and [length], or
    [None] when the body does not fit the schema. *)
Definition safeParse (body : Json.value) : option (option (list string) * Js.number) :=
  match body with
  | Json.Obj fields =>
      let categories :=
        match Json.get "categories" fields with
        | None => Some None
        | Some (Json.Arr items) =>
            match Json.strings items with
            | Some ss => Some (Some ss)
            | None => None
            end
        | Some _ => None
        end in
      let length :=
        match Json.get "length" fields with
        | Some (Json.Num n) =>
            if Js.isNaN n || Js.lt n (Js.ofZ 1) || Js.lt (Js.ofZ 20) n then None
            else Some n
        | _ => None
        end in
      match categories, length with
      | Some c, Some n => Some (c, n)
      | _, _ => None
      end
  | _ => None
  end.

(** [ToIntegerOrInfinity] of a finite number that is not negative, as
    [slice] takes its end index: the integer part. *)
Definition toInteger (n : Js.number) : nat :=
  match n with
  | S754_finite false m e =>
      if (0 <=? e)%Z then Z.to_nat (Zpos m * 2 ^ e) else Z.to_nat (Zpos m / 2 ^ (- e))
  | _ => 0
  end.

(** The double quote of the question text. *)
Definition quote : string := String (ascii_of_nat 34) EmptyString.

Definition option4 (a b c d : string) : Json.value :=
  Json.Arr
    [ Json.Obj [("id", Json.Str "1"); ("text", Json.Str a)]%string;
      Json.Obj [("id", Json.Str "2"); ("text", Json.Str b)]%string;
      Json.Obj [("id", Json.Str "3"); ("text", Json.Str c)]%string;
      Json.Obj [("id", Json.Str "4"); ("text", Json.Str d)]%string ].

(** The fallback stub for a protocol, [now] being [Date.now()]. *)
Definition fallbackQuestion (now : Z) (proto : Protocol) : Json.value :=
  Json.Obj
    [ ("id", Json.Str (String.append "fallback-"
                         (String.append (id proto)
                            (String.append "-" (NilZero.string_of_int (Z.to_int now))))));
      ("questionText",
       Json.Str (String.append "According to protocol "
                   (String.append quote
                      (String.append (title proto)
                         (String.append quote ", what is the first step?")))));
      ("questionType", Json.Str "multiple-choice");
      ("options", option4 "Step A" "Step B" "Step C" "Step D");
      ("correctAnswerId", Json.Str "1");
      ("explanation", Json.Str "Fallback: review the protocol for correct first step.")
    ]%string.

(** The answers of the route. *)
Inductive Answer :=
| Questions (questions : list Json.value)
| Invalid
| NoProtocols (error : string).

Section Post.
(** The corpus, in the order of the static mapping. *)
Variable allProtocols : list Protocol.
(** [pool.sort(() => Math.random() - 0.5)]: the order the engine leaves the
    pool in. *)
Variable shuffle : list Protocol -> list Protocol.
(** The OpenAI client when the API key is set: what [JSON.parse] gives for the
    answer to the call of the i-th iteration, [None] when the call or the
    parse throws. *)
Variable openai : option (nat -> Protocol -> option Json.value).
(** [Date.now()] at the i-th iteration. *)
Variable now : nat -> Z.

(** One iteration of the loop over [selected]. *)
Definition questionFor (i : nat) (proto : Protocol) : Json.value :=
  let question :=
    match openai with
    | Some create => create i proto
    | None => None
    end in
  match question with
  | Some q => if Json.truthy q then q else fallbackQuestion (now i) proto
  | None => fallbackQuestion (now i) proto
  end.

Fixpoint questionsFrom (i : nat) (selected : list Protocol) : list Json.value :=
  match selected with
  | [] => []
  | proto :: rest => questionFor i proto :: questionsFrom (S i) rest
  end.

(** [POST], from the parsed body of the request. *)
Definition POST (body : Json.value) : Answer :=
  match safeParse body with
  | None => Invalid
  | Some (categories, length) =>
      let categories := match categories with Some c => c | None => [] end in
      match selectPool allProtocols categories with
      | BadRequest error => NoProtocols error
      | Proceed pool =>
          let pool := shuffle pool in
          let selected := firstn (toInteger length) pool in
          Questions (questionsFrom 0 selected)
      end
  end.
End Post.

End QuizRoute.

(* ================================================================== *)
(** ** The chat route: [POST] around [findRelevantProtocols] *)

Module ChatRoute.

Local Open Scope string_scope.

(** The line feed of the template literals. *)
Definition newline : string := String (ascii_of_nat 10) EmptyString.

(** [items.join(sep)] on an array of strings. *)
Fixpoint join (sep : string) (items : list string) : string :=
  match items with
  | [] => ""
  | s :: rest =>
      match rest with
      | [] => s
      | _ :: _ => s ++ sep ++ join sep rest
      end
  end.

Definition protocolBlock (p : Chat.Protocol) : string :=
  "Protocol " ++ Chat.name p ++ " (Source: " ++ Chat.source_file p ++ "):"
  ++ newline ++ Chat.content p.

Definition separator : string := newline ++ newline ++ "---" ++ newline ++ newline.

Definition protocolContext (relevantProtocols : list Chat.Protocol) : string :=
  join separator (map protocolBlock relevantProtocols).

Definition instructions : string :=
  "You are an AI assistant specialized in the Oakland County EMS protocols. Your knowledge base consists ONLY of the following protocols provided below. Your primary goal is to help the user find the most relevant protocol based on their query."
  ++ newline ++ newline ++
  "Understand the user's intent even if their wording doesn't exactly match the protocol titles or content. Consider synonyms, related medical concepts, and the overall context."
  ++ newline ++ newline ++
  "Based *strictly* on the provided protocols, answer the user's question or identify the most relevant protocol(s). If an exact match isn't found, identify and present the protocol(s) that are semantically closest or most likely related to the user's query. If no relevant protocols can be found even considering related concepts, state that clearly. Do not invent information or use external knowledge. Be concise and helpful."
  ++ newline ++ newline ++ "Relevant Protocols:" ++ newline.

Definition noProtocols : string := "No specific protocols found matching the query.".

Definition systemPrompt (relevantProtocols : list Chat.Protocol) : string :=
  let protocolContext := protocolContext relevantProtocols in
  instructions ++ (if Js.truthy protocolContext then protocolContext else noProtocols).

(** [messages.slice(-5)]. *)
Definition lastFive {A : Type} (messages : list A) : list A :=
  skipn (List.length messages - 5) messages.

(** [messages[messages.length - 1]?.content], [None] standing for
    [undefined]: only an object has a [content]. *)
Definition lastContent (messages : list Json.value) : option Json.value :=
  match nth_error messages (List.length messages - 1) with
  | Some (Json.Obj fields) => Json.get "content" fields
  | _ => None
  end.

(** What [POST] does with a request: it answers with an error, or goes on to
    call [streamText] with a system prompt and messages.  [Caught] is the
    answer of the [catch] block, status 500 with the message of the error
    thrown. *)
Inductive Answer :=
| Error (status : nat) (error : string)
| Caught
| StreamText (system : string) (messages : list Json.value).

Section Post.
(** [Object.values(protocols)]. *)
Variable protocols : list Chat.Protocol.
(** Whether [createMistral] returned a client when the module was loaded. *)
Variable mistral : bool.

(** [POST], from the parsed body of the request and up to the call of
    [streamText]. *)
Definition POST (body : Json.value) : Answer :=
  if negb mistral then Error 500 "AI service initialization failed"
  else
    match body with
    | Json.Obj fields =>
        match Json.get "messages" fields with
        | Some (Json.Arr messages) =>
            if (List.length messages =? 0)%nat then
              Error 400 "Invalid request body: messages array is empty"
            else
              match lastContent messages with
              | None => Error 400 "No user query found"
              | Some userQuery =>
                  if negb (Json.truthy userQuery) then Error 400 "No user query found"
                  else
                    match userQuery with
                    | Json.Str query =>
                        let relevantProtocols :=
                          Chat.findRelevantProtocols protocols query in
                        StreamText (systemPrompt relevantProtocols) (lastFive messages)
                    | _ => Caught
                    end
              end
        | _ => Error 400 "Invalid request body: 'messages' array not found or invalid"
        end
    | _ => Error 400 "Invalid request body: 'messages' array not found or invalid"
    end.
End Post.

End ChatRoute.

(* ================================================================== *)
(** ** The quiz page: setup, questions, completion *)

(** The component of [quiz/page.tsx].  The file holds the page twice, with the
    same state and the same [startQuiz], [handleAnswerSubmit],
    [handleNextQuestion] and [resetQuiz]: the setup screen with its category
    boxes and its length input is that of the first text, which stops at the
    Submit button of the question screen; the Next button and the completion
    screen are those of the second text. *)

Module QuizPage.

Inductive QuizState := Setup | InProgress | Completed.

(** A question as the page declares it; the answer of the route is taken to
    hold questions of this shape. *)
Record Question := {
  id : string;
  questionText : string;
  options : list (string * string);
  correctAnswerId : string;
  explanation : string
}.

Record UserAnswer := {
  questionId : string;
  selectedAnswerId : option string;
  isCorrect : bool
}.

Record State := {
  quizState : QuizState;
  selectedCategories : list string;
  selectedLength : Z;
  questions : list Question;
  currentQuestionIndex : nat;
  selectedOption : option string;
  showFeedback : bool;
  userAnswers : list UserAnswer;
  score : nat;
  isLoading : bool;
  error : option string
}.

Definition initialState : State :=
  {| quizState := Setup; selectedCategories := []; selectedLength := 5;
     questions := []; currentQuestionIndex := 0; selectedOption := None;
     showFeedback := false; userAnswers := []; score := 0; isLoading := false;
     error := None |}.

(** [!selectedOption]: [undefined] and the empty string are falsy. *)
Definition noOption (o : option string) : bool :=
  match o with
  | Some v => negb (Js.truthy v)
  | None => true
  end.

Definition toggleCategory (catId : string) (st : State) : State :=
  {| quizState := quizState st;
     selectedCategories := CategoryFilter.toggle catId (selectedCategories st);
     selectedLength := selectedLength st; questions := questions st;
     currentQuestionIndex := currentQuestionIndex st;
     selectedOption := selectedOption st; showFeedback := showFeedback st;
     userAnswers := userAnswers st; score := score st; isLoading := isLoading st;
     error := error st |}.

(** The change handler of the length input:
    [Math.max(1, Math.min(20, parseInt(e.target.value) || 1))]. *)
Definition clampLength (value : string) : Z :=
  let parsed :=
    match Js.parseInt value with
    | Some v => if (v =? 0)%Z then 1%Z else v
    | None => 1%Z
    end in
  Z.max 1 (Z.min 20 parsed).

Definition changeLength (value : string) (st : State) : State :=
  {| quizState := quizState st; selectedCategories := selectedCategories st;
     selectedLength := clampLength value; questions := questions st;
     currentQuestionIndex := currentQuestionIndex st;
     selectedOption := selectedOption st; showFeedback := showFeedback st;
     userAnswers := userAnswers st; score := score st; isLoading := isLoading st;
     error := error st |}.

Definition selectOption (v : string) (st : State) : State :=
  {| quizState := quizState st; selectedCategories := selectedCategories st;
     selectedLength := selectedLength st; questions := questions st;
     currentQuestionIndex := currentQuestionIndex st;
     selectedOption := Some v; showFeedback := showFeedback st;
     userAnswers := userAnswers st; score := score st; isLoading := isLoading st;
     error := error st |}.

(** The body [startQuiz] sends, as the route parses it. *)
Definition requestBody (st : State) : Json.value :=
  Json.Obj [("categories", Json.Arr (map Json.Str (selectedCategories st)));
            ("length", Json.Num (Js.ofZ (selectedLength st)))]%string.

(** [startQuiz] up to the [fetch]: the state, and the request sent if any. *)
Definition startQuiz (st : State) : State * option Json.value :=
  if List.length (selectedCategories st) =? 0 then
    ({| quizState := quizState st; selectedCategories := selectedCategories st;
        selectedLength := selectedLength st; questions := questions st;
        currentQuestionIndex := currentQuestionIndex st;
        selectedOption := selectedOption st; showFeedback := showFeedback st;
        userAnswers := userAnswers st; score := score st; isLoading := isLoading st;
        error := Some "Please select at least one category."%string |}, None)
  else
    ({| quizState := quizState st; selectedCategories := selectedCategories st;
        selectedLength := selectedLength st; questions := questions st;
        currentQuestionIndex := currentQuestionIndex st;
        selectedOption := selectedOption st; showFeedback := showFeedback st;
        userAnswers := userAnswers st; score := score st; isLoading := true;
        error := None |}, Some (requestBody st)).

(** How the [fetch] of [startQuiz] ends: [data.questions] is truthy, it is
    not, or the [fetch] or [res.json()] throws. *)
Inductive Fetched :=
| GotQuestions (questions : list Question)
| GotNoQuestions
| FetchFailed.

(** The rest of [startQuiz], when the [fetch] has ended. *)
Definition finishStart (r : Fetched) (st : State) : State :=
  match r with
  | GotQuestions qs =>
      {| quizState := InProgress; selectedCategories := selectedCategories st;
         selectedLength := selectedLength st; questions := qs;
         currentQuestionIndex := currentQuestionIndex st;
         selectedOption := selectedOption st; showFeedback := showFeedback st;
         userAnswers := userAnswers st; score := score st; isLoading := false;
         error := error st |}
  | GotNoQuestions =>
      {| quizState := quizState st; selectedCategories := selectedCategories st;
         selectedLength := selectedLength st; questions := questions st;
         currentQuestionIndex := currentQuestionIndex st;
         selectedOption := selectedOption st; showFeedback := showFeedback st;
         userAnswers := userAnswers st; score := score st; isLoading := false;
         error := Some "Failed to load questions"%string |}
  | FetchFailed =>
      {| quizState := quizState st; selectedCategories := selectedCategories st;
         selectedLength := selectedLength st; questions := questions st;
         currentQuestionIndex := currentQuestionIndex st;
         selectedOption := selectedOption st; showFeedback := showFeedback st;
         userAnswers := userAnswers st; score := score st; isLoading := false;
         error := Some "An error occurred generating the quiz."%string |}
  end.

(** [handleAnswerSubmit]; [None] is the [TypeError] of reading
    [correctAnswerId] of an undefined question. *)
Definition handleAnswerSubmit (st : State) : option State :=
  let currentQuestion := nth_error (questions st) (currentQuestionIndex st) in
  match selectedOption st with
  | None => Some st
  | Some selected =>
      if negb (Js.truthy selected) then Some st
      else
        match currentQuestion with
        | None => None
        | Some currentQuestion =>
            let isCorrect := String.eqb selected (correctAnswerId currentQuestion) in
            Some {| quizState := quizState st;
                    selectedCategories := selectedCategories st;
                    selectedLength := selectedLength st; questions := questions st;
                    currentQuestionIndex := currentQuestionIndex st;
                    selectedOption := selectedOption st; showFeedback := true;
                    userAnswers :=
                      userAnswers st
                      ++ [{| questionId := id currentQuestion;
                             selectedAnswerId := Some selected;
                             isCorrect := isCorrect |}];
                    score := if isCorrect then score st + 1 else score st;
                    isLoading := isLoading st; error := error st |}
        end
  end.

Definition handleNextQuestion (st : State) : State :=
  if currentQuestionIndex st + 1 <? List.length (questions st) then
    {| quizState := quizState st; selectedCategories := selectedCategories st;
       selectedLength := selectedLength st; questions := questions st;
       currentQuestionIndex := currentQuestionIndex st + 1;
       selectedOption := None; showFeedback := false;
       userAnswers := userAnswers st; score := score st; isLoading := isLoading st;
       error := error st |}
  else
    {| quizState := Completed; selectedCategories := selectedCategories st;
       selectedLength := selectedLength st; questions := questions st;
       currentQuestionIndex := currentQuestionIndex st;
       selectedOption := None; showFeedback := false;
       userAnswers := userAnswers st; score := score st; isLoading := isLoading st;
       error := error st |}.

Definition resetQuiz (st : State) : State :=
  {| quizState := Setup; selectedCategories := selectedCategories st;
     selectedLength := selectedLength st; questions := [];
     currentQuestionIndex := 0; selectedOption := None; showFeedback := false;
     userAnswers := []; score := 0; isLoading := isLoading st; error := None |}.

(** The screen the component renders. *)
Inductive Screen := SetupScreen | QuestionScreen (q : Question) | CompletionScreen.

Definition screen (st : State) : Screen :=
  match quizState st with
  | Setup => SetupScreen
  | InProgress =>
      match nth_error (questions st) (currentQuestionIndex st) with
      | Some q => QuestionScreen q
      | None => CompletionScreen
      end
  | Completed => CompletionScreen
  end.

(** What can happen: a control of the rendered screen is used, or the pending
    [fetch] ends. *)
Inductive Event :=
| ToggleCategory (catId : string)
| ChangeLength (value : string)
| StartQuiz
| FetchEnds (r : Fetched)
| SelectOption (v : string)
| Submit
| Next
| Reset.

(** The controls the screen offers and does not disable. *)
Definition enabled (st : State) (ev : Event) : bool :=
  match ev, screen st with
  | ToggleCategory _, SetupScreen => true
  | ChangeLength _, SetupScreen => true
  | StartQuiz, SetupScreen => negb (isLoading st)
  | FetchEnds _, _ => isLoading st
  | SelectOption _, QuestionScreen _ => negb (showFeedback st)
  | Submit, QuestionScreen _ => negb (showFeedback st) && negb (noOption (selectedOption st))
  | Next, QuestionScreen _ => showFeedback st
  | Reset, CompletionScreen => true
  | _, _ => false
  end.

Definition handle (st : State) (ev : Event) : option State :=
  match ev with
  | ToggleCategory catId => Some (toggleCategory catId st)
  | ChangeLength value => Some (changeLength value st)
  | StartQuiz => Some (fst (startQuiz st))
  | FetchEnds r => Some (finishStart r st)
  | SelectOption v => Some (selectOption v st)
  | Submit => handleAnswerSubmit st
  | Next => Some (handleNextQuestion st)
  | Reset => Some (resetQuiz st)
  end.

(** The states the page can be in. *)
Inductive Reachable : State -> Prop :=
| Reachable_initial : Reachable initialState
| Reachable_step (st st' : State) (ev : Event) :
    Reachable st -> enabled st ev = true -> handle st ev = Some st' ->
    Reachable st'.

End QuizPage.

(* ================================================================== *)
(** ** The medication calculator: [handleCalculate] *)

Module Calculator.

Definition WEIGHT_DOSE : string := "WEIGHT_DOSE".
Definition DRIP_RATE : string := "DRIP_RATE".
Definition CONVERSION_LBS_KG : string := "CONVERSION_LBS_KG".
Definition CONVERSION_KG_LBS : string := "CONVERSION_KG_LBS".

(** The component's state: the text of every input, the three result lines
    and the error line ([null] is [None]). *)
Record State := {
  calculationType : string;
  patientWeight : string;
  weightUnit : string;
  concMgPerMl : string;
  concMl : string;
  doseRequired : string;
  doseUnit : string;
  weightDoseResult : option string;
  totalVolume : string;
  totalTime : string;
  dripSet : string;
  dripRateResult : option string;
  inputValue : string;
  conversionResult : option string;
  error : option string
}.

Definition setWeightDoseResult (v : option string) (st : State) : State :=
  {| calculationType := calculationType st; patientWeight := patientWeight st;
     weightUnit := weightUnit st; concMgPerMl := concMgPerMl st;
     concMl := concMl st; doseRequired := doseRequired st;
     doseUnit := doseUnit st; weightDoseResult := v;
     totalVolume := totalVolume st; totalTime := totalTime st;
     dripSet := dripSet st; dripRateResult := dripRateResult st;
     inputValue := inputValue st; conversionResult := conversionResult st;
     error := error st |}.
Definition setDripRateResult (v : option string) (st : State) : State :=
  {| calculationType := calculationType st; patientWeight := patientWeight st;
     weightUnit := weightUnit st; concMgPerMl := concMgPerMl st;
     concMl := concMl st; doseRequired := doseRequired st;
     doseUnit := doseUnit st; weightDoseResult := weightDoseResult st;
     totalVolume := totalVolume st; totalTime := totalTime st;
     dripSet := dripSet st; dripRateResult := v;
     inputValue := inputValue st; conversionResult := conversionResult st;
     error := error st |}.
Definition setConversionResult (v : option string) (st : State) : State :=
  {| calculationType := calculationType st; patientWeight := patientWeight st;
     weightUnit := weightUnit st; concMgPerMl := concMgPerMl st;
     concMl := concMl st; doseRequired := doseRequired st;
     doseUnit := doseUnit st; weightDoseResult := weightDoseResult st;
     totalVolume := totalVolume st; totalTime := totalTime st;
     dripSet := dripSet st; dripRateResult := dripRateResult st;
     inputValue := inputValue st; conversionResult := v;
     error := error st |}.
Definition setError (v : option string) (st : State) : State :=
  {| calculationType := calculationType st; patientWeight := patientWeight st;
     weightUnit := weightUnit st; concMgPerMl := concMgPerMl st;
     concMl := concMl st; doseRequired := doseRequired st;
     doseUnit := doseUnit st; weightDoseResult := weightDoseResult st;
     totalVolume := totalVolume st; totalTime := totalTime st;
     dripSet := dripSet st; dripRateResult := dripRateResult st;
     inputValue := inputValue st; conversionResult := conversionResult st;
     error := v |}.

(** The first four statements of [handleCalculate]. *)
Definition clearResults (st : State) : State :=
  setConversionResult None
    (setDripRateResult None (setWeightDoseResult None (setError None st))).

(** The outcome of code that may throw [new Error(message)]. *)
Inductive Exc (A : Type) :=
| Ok (a : A)
| Throw (message : string).
Arguments Ok {A} _.
Arguments Throw {A} _.

Definition bind {A B : Type} (m : Exc A) (k : A -> Exc B) : Exc B :=
  match m with
  | Ok a => k a
  | Throw msg => Throw msg
  end.

Notation "x <- m ;; k" := (bind m (fun x => k))
  (at level 61, m at next level, right associativity).

Definition invalidInput : string :=
  "Invalid input: All numerical inputs must be positive numbers.".
Definition concVolumeZero : string :=
  "Concentration volume (mL) cannot be zero.".
Definition drugConcZero : string :=
  "Drug concentration (mg) cannot be zero if dose is required.".
Definition cannotCalculate : string :=
  "Cannot calculate volume: Drug concentration is zero but dose is required.".
Definition timeZero : string := "Time cannot be zero.".

Definition parseNum (val : string) : Exc Js.number :=
  let num := Js.parseFloat val in
  if Js.isNaN num || Js.lt num Js.zero then Throw invalidInput else Ok num.

(** The literal [2.20462]. *)
Definition lbsPerKg : Js.number := Js.ofDecimal false 220462 (-5).

Definition finalWeightKg (weightUnit : string) (weight : Js.number) : Js.number :=
  if String.eqb weightUnit "lbs" then Js.div weight lbsPerKg else weight.

Definition totalDoseNeeded (doseUnit : string) (finalWeightKg doseReq : Js.number)
  : Js.number :=
  if String.eqb doseUnit "mg_kg" then Js.mul finalWeightKg doseReq
  else if String.eqb doseUnit "mcg_kg" then
    Js.div (Js.mul finalWeightKg doseReq) (Js.ofZ 1000)
  else Js.zero.

Definition volumeToAdminister (drugConcPerMl totalDoseNeeded : Js.number) : Js.number :=
  if Js.strictEq drugConcPerMl Js.zero then
    (if Js.strictEq totalDoseNeeded Js.zero then Js.zero else Js.Infinity)
  else Js.div totalDoseNeeded drugConcPerMl.

Section Handler.
Variable toStringLarge : Js.number -> string.

Definition toFixed : Js.number -> nat -> string := Js.toFixed toStringLarge.

Definition weightDoseText (totalDoseNeeded volumeToAdminister : Js.number) : string :=
  String.append "Total Dose: "
    (String.append (toFixed totalDoseNeeded 2)
       (String.append " mg. Volume to Administer: "
          (String.append (toFixed volumeToAdminister 2) " mL."))).

(** The weight-based dose case of the [switch], from the text of its inputs:
    the result line it sets, or the error it throws. *)
Definition weightDose (patientWeight weightUnit concMgPerMl concMl doseRequired
                       doseUnit : string) : Exc string :=
  weight <- parseNum patientWeight ;;
  let finalWeightKg := finalWeightKg weightUnit weight in
  concMg <- parseNum concMgPerMl ;;
  concInMl <- parseNum concMl ;;
  if Js.strictEq concInMl Js.zero then Throw concVolumeZero
  else
    let drugConcPerMl := Js.div concMg concInMl in
    doseReq <- parseNum doseRequired ;;
    let totalDoseNeeded := totalDoseNeeded doseUnit finalWeightKg doseReq in
    if Js.strictEq drugConcPerMl Js.zero && negb (Js.strictEq totalDoseNeeded Js.zero)
    then Throw drugConcZero
    else
      let volumeToAdminister := volumeToAdminister drugConcPerMl totalDoseNeeded in
      if Js.strictEq volumeToAdminister Js.Infinity then Ok cannotCalculate
      else Ok (weightDoseText totalDoseNeeded volumeToAdminister).

(** The drip-rate case. *)
Definition dripRate (totalVolume totalTime dripSet : string) : Exc string :=
  vol <- parseNum totalVolume ;;
  time <- parseNum totalTime ;;
  set <- parseNum dripSet ;;
  if Js.strictEq time Js.zero then Throw timeZero
  else
    let rate := Js.div (Js.mul vol set) time in
    Ok (String.append "Drip Rate: " (String.append (toFixed rate 0) " gtts/min.")).

(** The two conversion cases. *)
Definition lbsToKg (inputValue : string) : Exc string :=
  lbs <- parseNum inputValue ;;
  let kg := Js.div lbs lbsPerKg in
  Ok (String.append (toFixed lbs 2)
        (String.append " lbs = " (String.append (toFixed kg 2) " kg."))).

Definition kgToLbs (inputValue : string) : Exc string :=
  kgs <- parseNum inputValue ;;
  let pounds := Js.mul kgs lbsPerKg in
  Ok (String.append (toFixed kgs 2)
        (String.append " kg = " (String.append (toFixed pounds 2) " lbs."))).

(** The body of the [try] block: the state after it, or the error thrown. *)
Definition calculate (st : State) : Exc State :=
  if String.eqb (calculationType st) WEIGHT_DOSE then
    text <- weightDose (patientWeight st) (weightUnit st) (concMgPerMl st)
                       (concMl st) (doseRequired st) (doseUnit st) ;;
    Ok (setWeightDoseResult (Some text) st)
  else if String.eqb (calculationType st) DRIP_RATE then
    text <- dripRate (totalVolume st) (totalTime st) (dripSet st) ;;
    Ok (setDripRateResult (Some text) st)
  else if String.eqb (calculationType st) CONVERSION_LBS_KG then
    text <- lbsToKg (inputValue st) ;;
    Ok (setConversionResult (Some text) st)
  else if String.eqb (calculationType st) CONVERSION_KG_LBS then
    text <- kgToLbs (inputValue st) ;;
    Ok (setConversionResult (Some text) st)
  else Ok st.

(** [handleCalculate]: the error and the results are cleared, the [try] block
    runs, and an error thrown in it ends in the error line. *)
Definition handleCalculate (st : State) : State :=
  let st0 := clearResults st in
  match calculate st0 with
  | Ok st' => st'
  | Throw message =>
      setError
        (Some (if Js.truthy message then message
               else "An unexpected error occurred."%string))
        st0
  end.
End Handler.

(** [clearInputs]: every text input is emptied (the concentration volume goes
    back to "1"), the results and the error are cleared; the units, the drip
    set and the calculation type stay. *)
Definition clearInputs (st : State) : State :=
  {| calculationType := calculationType st; patientWeight := "";
     weightUnit := weightUnit st; concMgPerMl := ""; concMl := "1";
     doseRequired := ""; doseUnit := doseUnit st; weightDoseResult := None;
     totalVolume := ""; totalTime := ""; dripSet := dripSet st;
     dripRateResult := None; inputValue := ""; conversionResult := None;
     error := None |}.

Definition setCalculationType (v : string) (st : State) : State :=
  {| calculationType := v; patientWeight := patientWeight st;
     weightUnit := weightUnit st; concMgPerMl := concMgPerMl st;
     concMl := concMl st; doseRequired := doseRequired st;
     doseUnit := doseUnit st; weightDoseResult := weightDoseResult st;
     totalVolume := totalVolume st; totalTime := totalTime st;
     dripSet := dripSet st; dripRateResult := dripRateResult st;
     inputValue := inputValue st; conversionResult := conversionResult st;
     error := error st |}.

(** A choice in the calculation-type select: the state is set and, when the
    type changed, the effect on [calculationType] runs [clearInputs]. *)
Definition selectCalculationType (v : string) (st : State) : State :=
  if String.eqb v (calculationType st) then st
  else clearInputs (setCalculationType v st).

(** The state with the four lines the handler writes replaced. *)
Definition withLines (weightDose dripRate conversion error' : option string)
           (st : State) : State :=
  {| calculationType := calculationType st; patientWeight := patientWeight st;
     weightUnit := weightUnit st; concMgPerMl := concMgPerMl st;
     concMl := concMl st; doseRequired := doseRequired st;
     doseUnit := doseUnit st; weightDoseResult := weightDose;
     totalVolume := totalVolume st; totalTime := totalTime st;
     dripSet := dripSet st; dripRateResult := dripRate;
     inputValue := inputValue st; conversionResult := conversion;
     error := error' |}.

(** The state of the weight-based form with the given inputs, as the
    component starts it otherwise. *)
Definition weightDoseForm (patientWeight weightUnit concMgPerMl concMl doseRequired
                           doseUnit : string) : State :=
  {| calculationType := WEIGHT_DOSE; patientWeight := patientWeight;
     weightUnit := weightUnit; concMgPerMl := concMgPerMl; concMl := concMl;
     doseRequired := doseRequired; doseUnit := doseUnit;
     weightDoseResult := None; totalVolume := ""; totalTime := "";
     dripSet := "60"; dripRateResult := None; inputValue := "";
     conversionResult := None; error := None |}.

End Calculator.

(* ================================================================== *)
(** ** Notions and sample data for the statements *)

Definition cardiacArrest : Chat.Protocol :=
  {| Chat.name := "Cardiac Arrest";
     Chat.content := "epinephrine every 3-5 minutes";
     Chat.source_file := "cardiac.pdf" |}.

(** Non-increasing score order, and the items of one score. *)
Definition scoreDesc (a b : Chat.Scored) : Prop := Chat.score b <= Chat.score a.

Definition hasScore (k : nat) (it : Chat.Scored) : bool := Chat.score it =? k.

(** An item is scored when it is what [scoreProtocol] gives its protocol. *)
Definition scoredBy (kws : list string) (it : Chat.Scored) : Prop :=
  it = Chat.scoreProtocol kws (Chat.protocol it).

Definition pediatricAirway : Home.Protocol :=
  {| Home.name := "Pediatric Airway";
     Home.content := "position, suction, oxygen";
     Home.source_file := "peds.pdf";
     Home.id := "peds-airway";
     Home.categories := Some ["adult"; "pediatric"]%string |}.

Definition crushInjury : Home.Protocol :=
  {| Home.name := "Crush Injury";
     Home.content := "fluids before release";
     Home.source_file := "trauma.pdf";
     Home.id := "crush";
     Home.categories := Some ["trauma"%string] |}.

Definition chestPain : SearchPage.Protocol :=
  {| SearchPage.name := "Chest Pain";
     SearchPage.content := "aspirin 324 mg";
     SearchPage.source_file := "cardiac.pdf";
     SearchPage.id := "chest-pain" |}.

(** A library [search] that finds nothing, for the concrete runs below. *)
Definition noMatch {T : Type} (_ : Fuse.Options) (_ : list T) (_ : string)
  : list (Fuse.Result T) := [].

Definition blankSearch (q : string) : SearchPage.State :=
  {| SearchPage.searchTerm := q; SearchPage.searchResults := [chestPain];
     SearchPage.isSearching := false; SearchPage.isChatMode := true |}.

Definition blankHome (q : string) (activeFilters : list string) : Home.State :=
  {| Home.searchTerm := q; Home.searchResults := [];
     Home.isSearching := false; Home.isChatMode := false;
     Home.activeFilters := activeFilters; Home.isCalculatorOpen := false |}.

(** The protocol carries the tag [c]. *)
Definition tagged {T : Type} (categories : T -> option (list string)) (c : string)
           (p : T) : bool :=
  match categories p with
  | Some cs => if in_dec string_dec c cs then true else false
  | None => false
  end.

(** The result line of a zero dose. *)
Definition zeroDoseText : string :=
  "Total Dose: 0.00 mg. Volume to Administer: 0.00 mL.".

(** The claim of C6 read on the final state: an error line, or the
    "cannot calculate" result line. *)
Definition reportsDomainMessage (st : Calculator.State) : Prop :=
  Calculator.error st <> None
  \/ Calculator.weightDoseResult st = Some Calculator.cannotCalculate.

(** A stand-in for [Number::toString] of large values in the concrete runs
    below, none of which reaches it. *)
Definition largeOmitted (_ : Js.number) : string := "".

(** What the page with category filters shows for a search term and a list
    of active filters. *)
Definition shown (protocolsList : list Home.Protocol)
           (search : Fuse.Options -> list Home.Protocol -> string
                     -> list (Fuse.Result Home.Protocol))
           (searchTerm : string) (activeFilters : list string) : list Home.Protocol :=
  let filteredByCategories :=
    CategoryFilter.filterAll Home.categories activeFilters protocolsList in
  if Js.allWhiteSpace searchTerm then filteredByCategories
  else map Fuse.item (search Fuse.fuseOptions filteredByCategories searchTerm).

(** An input text that [parseNum] accepts. *)
Definition accepted (val : string) : Prop :=
  Js.isNaN (Js.parseFloat val) = false /\ Js.lt (Js.parseFloat val) Js.zero = false.

(** ** Notions and sample data for the further properties *)

(** The state of the page agrees with its search term and active filters. *)
Definition inSync (protocolsList : list Home.Protocol)
           (search : Fuse.Options -> list Home.Protocol -> string
                     -> list (Fuse.Result Home.Protocol))
           (st : Home.State) : Prop :=
  NoDup (Home.activeFilters st)
  /\ Home.isSearching st = false
  /\ Home.searchResults st
     = shown protocolsList search (Home.searchTerm st) (Home.activeFilters st).

Definition shownMessage (message : string) : string :=
  if Js.truthy message then message else "An unexpected error occurred."%string.

(** The routine cases of an outcome analysis. *)
Ltac outcome :=
  repeat match goal with
         | |- _ /\ _ => split
         | |- _ <-> _ => split
         end;
  try solve [ tauto | congruence | intros; congruence
            | let H := fresh in
              intro H;
              unfold Calculator.invalidInput, Calculator.concVolumeZero,
                Calculator.drugConcZero, Calculator.timeZero in H;
              discriminate H
            | intros [? ?]; congruence | intros [? ?]; tauto
            | eexists; reflexivity
            | intros [?|[? ?]]; [tauto | congruence] ].

(** The cases an outcome analysis leaves: a premise that contradicts what is
    known of the inputs. *)
Ltac zc :=
  try solve [ intros; tauto
            | intros [_ [_ [H _]]]; discriminate H
            | intros [[_ [_ [H _]]] _]; discriminate H
            | intros [_ H]; discriminate H
            | intros [_ [_ H]]; discriminate H
            | intros [[_ [_ [_ H]]] _]; tauto
            | intros [H|[H|[H _]]]; [tauto | tauto | discriminate H]
            | intros [H|[H|[_ H]]]; tauto
            | let H := fresh in
              intro H;
              unfold Calculator.invalidInput, Calculator.concVolumeZero,
                Calculator.drugConcZero, zeroDoseText in H;
              discriminate H ].

(** The keyword occurs in the name or in the content of the protocol. *)
Definition mentions (p : Chat.Protocol) (kw : string) : bool :=
  Js.includes (Js.toLowerCase (Chat.name p)) kw
  || Js.includes (Js.toLowerCase (Chat.content p)) kw.

Definition stroke : Chat.Protocol :=
  {| Chat.name := "Stroke";
     Chat.content := "cardiac monitor";
     Chat.source_file := "stroke.pdf" |}.

Definition syncope : Chat.Protocol :=
  {| Chat.name := "Syncope";
     Chat.content := "rule out cardiac causes";
     Chat.source_file := "syncope.pdf" |}.

(** A number as [JSON.parse] gives it: a value of the binary64 format. *)
Definition validNumber (n : Js.number) : Prop := valid_binary Js.prec Js.emax n = true.

(** The requested categories, [[]] when the request names none. *)
Definition requested (categories : option (list string)) : list string :=
  match categories with Some c => c | None => [] end.

Definition airway : QuizRoute.Protocol :=
  {| QuizRoute.id := "airway"; QuizRoute.title := "Airway";
     QuizRoute.content := "position, suction, oxygen";
     QuizRoute.categories := Some ["adult"; "pediatric"]%string |}.

Definition burns : QuizRoute.Protocol :=
  {| QuizRoute.id := "burns"; QuizRoute.title := "Burns";
     QuizRoute.content := "cool, cover, fluids";
     QuizRoute.categories := Some ["trauma"%string] |}.

Definition seizure : QuizRoute.Protocol :=
  {| QuizRoute.id := "seizure"; QuizRoute.title := "Seizure";
     QuizRoute.content := "protect, benzodiazepine";
     QuizRoute.categories := None |}.

(** A request for 2.5 questions in the category "trauma" or "adult". *)
Definition sampleRequest : Json.value :=
  Json.Obj [("categories", Json.Arr [Json.Str "trauma"; Json.Str "adult"]);
            ("length", Json.Num (Js.parseFloat "2.5"))]%string.

Definition sampleClock (_ : nat) : Z := 1700000000000.

(** The question at each place is the one of the protocol at that place. *)
Definition questionsOf (openai : option (nat -> QuizRoute.Protocol -> option Json.value))
           (now : nat -> Z) (selected : list QuizRoute.Protocol)
           (questions : list Json.value) : Prop :=
  List.length questions = List.length selected
  /\ forall i proto, nth_error selected i = Some proto ->
       nth_error questions i = Some (QuizRoute.questionFor openai now i proto).

(** The questions answered so far: those before the current one, and the
    current one once its feedback shows. *)
Definition answered (st : QuizPage.State) : nat :=
  match QuizPage.quizState st with
  | QuizPage.Setup => 0
  | QuizPage.InProgress =>
      QuizPage.currentQuestionIndex st + (if QuizPage.showFeedback st then 1 else 0)
  | QuizPage.Completed => List.length (QuizPage.questions st)
  end.

(** The recorded answer is an answer to this question: it carries the id of
    the question and an option that was selected, and is marked correct when
    that option is the correct one of the question and only then. *)
Definition graded (q : QuizPage.Question) (a : QuizPage.UserAnswer) : Prop :=
  QuizPage.questionId a = QuizPage.id q
  /\ exists v, QuizPage.selectedAnswerId a = Some v
               /\ Js.truthy v = true
               /\ QuizPage.isCorrect a = String.eqb v (QuizPage.correctAnswerId q).

(** What the handlers of the quiz page keep true. *)
Definition quizInv (st : QuizPage.State) : Prop :=
  Forall2 graded (firstn (answered st) (QuizPage.questions st)) (QuizPage.userAnswers st)
  /\ QuizPage.score st = List.length (filter QuizPage.isCorrect (QuizPage.userAnswers st))
  /\ (1 <= QuizPage.selectedLength st <= 20)%Z
  /\ NoDup (QuizPage.selectedCategories st)
  /\ (QuizPage.isLoading st = true -> QuizPage.quizState st = QuizPage.Setup)
  /\ match QuizPage.quizState st with
     | QuizPage.Setup =>
         QuizPage.currentQuestionIndex st = 0 /\ QuizPage.showFeedback st = false
     | QuizPage.InProgress =>
         QuizPage.currentQuestionIndex st < List.length (QuizPage.questions st)
         \/ (QuizPage.questions st = [] /\ QuizPage.currentQuestionIndex st = 0
             /\ QuizPage.showFeedback st = false)
     | QuizPage.Completed => QuizPage.showFeedback st = false
     end.

(** The events offered one after the other from a state of the quiz page;
    [None] when one of them is not offered or a handler throws. *)
Fixpoint play (evs : list QuizPage.Event) (st : QuizPage.State) : option QuizPage.State :=
  match evs with
  | [] => Some st
  | ev :: rest =>
      if QuizPage.enabled st ev then
        match QuizPage.handle st ev with
        | Some st' => play rest st'
        | None => None
        end
      else None
  end.

Definition firstStep : QuizPage.Question :=
  {| QuizPage.id := "q1"; QuizPage.questionText := "What is the first step?";
     QuizPage.options := [("1", "Step A"); ("2", "Step B")]%string;
     QuizPage.correctAnswerId := "1"; QuizPage.explanation := "Step A comes first." |}.

Definition secondStep : QuizPage.Question :=
  {| QuizPage.id := "q2"; QuizPage.questionText := "What is the second step?";
     QuizPage.options := [("1", "Step A"); ("2", "Step B")]%string;
     QuizPage.correctAnswerId := "2"; QuizPage.explanation := "Step B comes second." |}.

(** A quiz of two questions, the first answered right and the second wrong. *)
Definition sampleQuiz : list QuizPage.Event :=
  [ QuizPage.ToggleCategory "adult"; QuizPage.ChangeLength "2"; QuizPage.StartQuiz;
    QuizPage.FetchEnds (QuizPage.GotQuestions [firstStep; secondStep]);
    QuizPage.SelectOption "1"; QuizPage.Submit; QuizPage.Next;
    QuizPage.SelectOption "1"; QuizPage.Submit; QuizPage.Next ]%string.

Definition played (evs : list QuizPage.Event) : QuizPage.State :=
  match play evs QuizPage.initialState with
  | Some st => st
  | None => QuizPage.initialState
  end.

(** The category "adult" selected and 50 typed as the length. *)
Definition sampleSetup : list QuizPage.Event :=
  [ QuizPage.ToggleCategory "adult"; QuizPage.ChangeLength "50" ]%string.

(** The body of the request is a conversation, and its last message carries
    the text [query], which is not empty. *)
Definition asks (body : Json.value) (messages : list Json.value) (query : string) : Prop :=
  (exists fields, body = Json.Obj fields
                  /\ Json.get "messages" fields = Some (Json.Arr messages))
  /\ ChatRoute.lastContent messages = Some (Json.Str query)
  /\ query <> EmptyString.

(** A conversation of six messages, the last one a question. *)
Definition turn (role content : string) : Json.value :=
  Json.Obj [("role", Json.Str role); ("content", Json.Str content)]%string.

Definition sampleTurns : list Json.value :=
  [ turn "user" "hello"; turn "assistant" "How can I help?";
    turn "user" "chest pain"; turn "assistant" "See the chest pain protocol.";
    turn "user" "thanks"; turn "user" "is it in" ]%string.

Definition sampleChat : Json.value := Json.Obj [("messages", Json.Arr sampleTurns)]%string.

(* ================================================================== *)
(** * Properties *)

(** ** Strings *)

Lemma trimStart_allWhiteSpace (s : string) :
  Js.allWhiteSpace (Js.trimStart s) = Js.allWhiteSpace s.
Proof.
  induction s as [|c r IH]; simpl; [reflexivity|].
  destruct (Js.isWhiteSpace c) eqn:Hc; simpl.
  - exact IH.
  - now rewrite Hc.
Qed.

Lemma trimEnd_empty (s : string) :
  Js.trimEnd s = EmptyString <-> Js.allWhiteSpace s = true.
Proof.
  induction s as [|c r IH]; simpl.
  - now split.
  - destruct (Js.trimEnd r) eqn:Hr.
    + destruct (Js.isWhiteSpace c); simpl.
      * split; intros _; [now apply IH | reflexivity].
      * split; discriminate.
    + split; [discriminate|].
      intros H. apply andb_true_iff in H as [_ H].
      apply IH in H. discriminate.
Qed.

(** A query is blank for [trim] exactly when it is white space only. *)
Lemma trim_blank (s : string) :
  Js.truthy (Js.trim s) = false <-> Js.allWhiteSpace s = true.
Proof.
  unfold Js.trim. rewrite <- trimStart_allWhiteSpace, <- trimEnd_empty.
  destruct (Js.trimEnd (Js.trimStart s)); simpl; split; congruence.
Qed.

(** ** The score of one protocol *)

Lemma filter_filter {A : Type} (f g : A -> bool) (l : list A) :
  filter f (filter g l) = filter (fun x => g x && f x) l.
Proof.
  induction l as [|a l IH]; simpl; [reflexivity|].
  destruct (g a); simpl; [destruct (f a)|]; congruence.
Qed.

Lemma tokens_queryKeywords (query : string) :
  ChatSpec.tokens query = Chat.queryKeywords query.
Proof.
  unfold ChatSpec.tokens, Chat.queryKeywords.
  rewrite filter_filter. apply filter_ext. intros t.
  rewrite Nat.ltb_antisym. apply andb_comm.
Qed.

(** The [forEach] loop adds up the points of the keywords. *)
Lemma forEach_points (p : Chat.Protocol) (kws : list string) (acc : nat) :
  fold_left
    (fun score kw =>
       let score :=
         if Js.includes (Js.toLowerCase (Chat.name p)) kw then score + 2 else score in
       if Js.includes (Js.toLowerCase (Chat.content p)) kw then score + 1 else score)
    kws acc
  = acc + list_sum (map (ChatSpec.points p) kws).
Proof.
  revert acc. induction kws as [|kw kws IH]; intros acc; simpl.
  - lia.
  - rewrite IH. unfold ChatSpec.points.
    destruct (Js.includes (Js.toLowerCase (Chat.name p)) kw),
             (Js.includes (Js.toLowerCase (Chat.content p)) kw); lia.
Qed.

Lemma nodup_NoDup_id (l : list string) : NoDup l -> nodup string_dec l = l.
Proof.
  induction 1 as [|x l Hx Hl IH]; simpl; [reflexivity|].
  destruct (in_dec string_dec x l); [contradiction | now rewrite IH].
Qed.

Lemma NoDup_filter {A : Type} (f : A -> bool) (l : list A) :
  NoDup l -> NoDup (filter f l).
Proof.
  induction 1 as [|x l Hx Hl IH]; simpl; [constructor|].
  destruct (f x); [constructor|]; auto.
  intros Hin. apply filter_In in Hin. tauto.
Qed.

(** C1 (as amended).  For every protocol and every query, the score the
    scorer assigns is: the lower-cased query split on white space, without the
    tokens of length at most 2 and the stop words; +2 for each surviving token
    that is a substring of the lower-cased name and +1 for each one that is a
    substring of the lower-cased content; then [nameMatchCount * 2] more when
    [nameMatchCount > 1] and [contentMatchCount] more when
    [contentMatchCount > 1], where the two counts are the numbers of surviving
    tokens matching the name and the content, a repeated token counted each
    time it occurs. *)
Theorem scoreOf_occurrences (query : string) (p : Chat.Protocol) :
  Chat.scoreOf query p = ChatSpec.score_occurrences query p.
Proof.
  unfold Chat.scoreOf, Chat.scoreProtocol, ChatSpec.score_occurrences.
  rewrite tokens_queryKeywords. cbv zeta. simpl Chat.score.
  rewrite forEach_points. unfold ChatSpec.bonus. simpl.
  destruct (1 <? _), (1 <? _); lia.
Qed.

(** The counts over distinct tokens give the same score whenever no token
    occurs twice in the query. *)
Lemma score_distinct_NoDup (query : string) (p : Chat.Protocol) :
  NoDup (ChatSpec.tokens query) ->
  ChatSpec.score_distinct query p = ChatSpec.score_occurrences query p.
Proof.
  intros Hnd. unfold ChatSpec.score_occurrences, ChatSpec.score_distinct.
  cbv zeta. rewrite !nodup_NoDup_id by now apply NoDup_filter.
  reflexivity.
Qed.

(** C1 (as stated) fails: with the keyword "cardiac" twice in the query the
    scorer counts two name matches and gives "Cardiac Arrest" 8, while the
    count over distinct tokens gives 4. *)
Lemma scoreOf_distinct_counterexample :
  ~ (forall (query : string) (p : Chat.Protocol),
        Chat.scoreOf query p = ChatSpec.score_distinct query p).
Proof.
  intros H. specialize (H "cardiac cardiac"%string cardiacArrest).
  vm_compute in H. discriminate.
Qed.

(** ** The stable sort *)

Lemma insert_perm {A : Type} (comparefn : A -> A -> Z) (x : A) (l : list A) :
  Permutation (x :: l) (Js.insert comparefn x l).
Proof.
  induction l as [|y t IH]; simpl; [reflexivity|].
  destruct (comparefn x y <=? 0)%Z; [reflexivity|].
  rewrite perm_swap. now apply perm_skip.
Qed.

(** Whatever the comparator, the sort rearranges its input. *)
Lemma sort_perm {A : Type} (comparefn : A -> A -> Z) (l : list A) :
  Permutation l (Js.sort comparefn l).
Proof.
  induction l as [|x l IH]; simpl; [constructor|].
  rewrite <- insert_perm. now apply perm_skip.
Qed.

(** *** Under [byScoreDesc] *)

Lemma hasScore_refl (x : Chat.Scored) : hasScore (Chat.score x) x = true.
Proof. apply Nat.eqb_refl. Qed.

Lemma byScoreDesc_le (x y : Chat.Scored) :
  (Chat.byScoreDesc x y <=? 0)%Z = (Chat.score y <=? Chat.score x).
Proof.
  unfold Chat.byScoreDesc.
  destruct (Nat.leb_spec (Chat.score y) (Chat.score x)).
  - apply Z.leb_le. lia.
  - apply Z.leb_gt. lia.
Qed.

Lemma insert_hasScore (k : nat) (x : Chat.Scored) (l : list Chat.Scored) :
  filter (hasScore k) (Js.insert Chat.byScoreDesc x l)
  = if hasScore k x then x :: filter (hasScore k) l else filter (hasScore k) l.
Proof.
  induction l as [|y t IH]; simpl; [reflexivity|].
  rewrite byScoreDesc_le.
  destruct (Nat.leb_spec (Chat.score y) (Chat.score x)) as [Hle|Hgt]; simpl.
  - reflexivity.
  - rewrite IH. unfold hasScore.
    destruct (Nat.eqb_spec (Chat.score x) k), (Nat.eqb_spec (Chat.score y) k);
      try reflexivity; lia.
Qed.

(** Stability: the items of each score keep their order. *)
Lemma sort_hasScore (k : nat) (l : list Chat.Scored) :
  filter (hasScore k) (Js.sort Chat.byScoreDesc l) = filter (hasScore k) l.
Proof.
  induction l as [|x l IH]; simpl; [reflexivity|].
  rewrite insert_hasScore, IH. reflexivity.
Qed.

Lemma hasScore_In (l : list Chat.Scored) (x : Chat.Scored) :
  In x l <-> In x (filter (hasScore (Chat.score x)) l).
Proof.
  rewrite filter_In, hasScore_refl. tauto.
Qed.

Lemma sort_In (l : list Chat.Scored) (x : Chat.Scored) :
  In x (Js.sort Chat.byScoreDesc l) <-> In x l.
Proof.
  rewrite (hasScore_In (Js.sort _ _)), sort_hasScore, <- hasScore_In. reflexivity.
Qed.

Lemma insert_Forall (P : Chat.Scored -> Prop) (x : Chat.Scored) (l : list Chat.Scored) :
  P x -> Forall P l -> Forall P (Js.insert Chat.byScoreDesc x l).
Proof.
  intros Hx Hl. induction Hl as [|y t Hy Ht IH]; simpl.
  - auto.
  - destruct (_ <=? _)%Z; auto.
Qed.

Lemma insert_sorted (x : Chat.Scored) (l : list Chat.Scored) :
  StronglySorted scoreDesc l ->
  StronglySorted scoreDesc (Js.insert Chat.byScoreDesc x l).
Proof.
  induction 1 as [|y t Ht IH Hy]; simpl.
  - repeat constructor.
  - rewrite byScoreDesc_le.
    destruct (Nat.leb_spec (Chat.score y) (Chat.score x)) as [Hle|Hgt].
    + constructor; [now constructor|].
      constructor; [exact Hle|].
      eapply Forall_impl; [|exact Hy]. unfold scoreDesc. intros z Hz. lia.
    + constructor; [exact IH|].
      apply insert_Forall; [unfold scoreDesc; lia | exact Hy].
Qed.

Lemma sort_sorted (l : list Chat.Scored) :
  StronglySorted scoreDesc (Js.sort Chat.byScoreDesc l).
Proof.
  induction l as [|x l IH]; simpl; [constructor | now apply insert_sorted].
Qed.

(** The insertion sort is one of the sorts the language allows. *)
Lemma sort_conforms (l : list Chat.Scored) :
  Chat.StableSortedDesc l (Js.sort Chat.byScoreDesc l).
Proof.
  split; [apply sort_sorted | intros k; apply (sort_hasScore k)].
Qed.

(** Two lists in non-increasing score order with the same items of each score,
    in the same order, are the same list. *)
Lemma sorted_classes_unique (l1 l2 : list Chat.Scored) :
  StronglySorted scoreDesc l1 ->
  StronglySorted scoreDesc l2 ->
  (forall k, filter (hasScore k) l1 = filter (hasScore k) l2) ->
  l1 = l2.
Proof.
  intros S1. revert l2.
  induction S1 as [|x t1 St1 IH Hx]; intros l2 S2 Hcls.
  - destruct l2 as [|y t2]; [reflexivity|].
    specialize (Hcls (Chat.score y)). simpl in Hcls.
    rewrite hasScore_refl in Hcls. discriminate.
  - destruct S2 as [|y t2 St2 Hy].
    + specialize (Hcls (Chat.score x)). simpl in Hcls.
      rewrite hasScore_refl in Hcls. discriminate.
    + assert (Hsc : Chat.score y = Chat.score x).
      { destruct (Nat.eq_dec (Chat.score y) (Chat.score x)) as [|Hne]; [assumption|].
        assert (Hy1 : In y t1).
        { assert (Hin : In y (x :: t1)).
          { apply <- hasScore_In. rewrite Hcls. apply -> hasScore_In. now left. }
          simpl in Hin. destruct Hin as [Heq|Hin]; [congruence | assumption]. }
        assert (Hx2 : In x t2).
        { assert (Hin : In x (y :: t2)).
          { apply <- hasScore_In. rewrite <- Hcls. apply -> hasScore_In. now left. }
          simpl in Hin. destruct Hin as [Heq|Hin]; [congruence | assumption]. }
        rewrite Forall_forall in Hx, Hy.
        specialize (Hx _ Hy1). specialize (Hy _ Hx2). unfold scoreDesc in *. lia. }
      assert (Hxy : x = y).
      { specialize (Hcls (Chat.score x)). simpl in Hcls.
        rewrite hasScore_refl in Hcls. rewrite <- Hsc in Hcls.
        rewrite hasScore_refl in Hcls. congruence. }
      subst y. f_equal. apply IH; [assumption|].
      intros k. specialize (Hcls k). simpl in Hcls.
      destruct (hasScore k x); congruence.
Qed.

Lemma conforming_sort_unique (l l1 l2 : list Chat.Scored) :
  Chat.StableSortedDesc l l1 -> Chat.StableSortedDesc l l2 -> l1 = l2.
Proof.
  intros [S1 C1] [S2 C2]. apply sorted_classes_unique; try assumption.
  intros k. unfold hasScore. now rewrite C1, C2.
Qed.

(** ** The ranked result of [findRelevantProtocols] *)

(** The result when some keyword survives. *)
Lemma ranked_result_eq (protocols : list Chat.Protocol) (query : string) :
  Chat.queryKeywords query <> [] ->
  Chat.findRelevantProtocols protocols query
  = map Chat.protocol
      (firstn 5
         (Js.sort Chat.byScoreDesc
            (filter (fun item => 0 <? Chat.score item)
                    (map (Chat.scoreProtocol (Chat.queryKeywords query)) protocols)))).
Proof.
  intros Hk. unfold Chat.findRelevantProtocols, Chat.findRelevantProtocols_run.
  destruct (Chat.queryKeywords query); [congruence | reflexivity].
Qed.

Lemma no_keyword_run_eq (protocols : list Chat.Protocol) (query : string) :
  Chat.queryKeywords query = [] ->
  Chat.findRelevantProtocols_run protocols query
  = {| Chat.scoredProtocols := []; Chat.relevant := [] |}.
Proof.
  intros Hk. unfold Chat.findRelevantProtocols_run. now rewrite Hk.
Qed.

Lemma scoredBy_map (kws : list string) (l : list Chat.Scored) :
  Forall (scoredBy kws) l -> l = map (Chat.scoreProtocol kws) (map Chat.protocol l).
Proof.
  induction 1 as [|it l Hit Hl IH]; simpl; [reflexivity|].
  now rewrite <- Hit, <- IH.
Qed.

Lemma scoredBy_scoreProtocol (kws : list string) (protocols : list Chat.Protocol) :
  Forall (scoredBy kws) (map (Chat.scoreProtocol kws) protocols).
Proof.
  apply Forall_forall. intros it Hin. apply in_map_iff in Hin as [p [<- _]].
  reflexivity.
Qed.

Lemma filter_map_scoreProtocol (kws : list string) (f : Chat.Scored -> bool)
      (protocols : list Chat.Protocol) :
  map Chat.protocol (filter f (map (Chat.scoreProtocol kws) protocols))
  = filter (fun p => f (Chat.scoreProtocol kws p)) protocols.
Proof.
  induction protocols as [|p ps IH]; simpl; [reflexivity|].
  destruct (f (Chat.scoreProtocol kws p)); simpl; now rewrite IH.
Qed.

Lemma filter_firstn_prefix {A : Type} (f : A -> bool) (n : nat) (l : list A) :
  exists rest, filter f l = filter f (firstn n l) ++ rest.
Proof.
  exists (filter f (skipn n l)).
  rewrite <- filter_app, firstn_skipn. reflexivity.
Qed.

Lemma StronglySorted_firstn {A : Type} (R : A -> A -> Prop) (n : nat) (l : list A) :
  StronglySorted R l -> StronglySorted R (firstn n l).
Proof.
  intros Hs. revert n. induction Hs as [|x l Hl IH Hx]; intros [|n]; simpl;
    try constructor.
  - apply IH.
  - apply Forall_forall. intros y Hy.
    rewrite Forall_forall in Hx. apply Hx.
    rewrite <- (firstn_skipn n l). apply in_or_app. now left.
Qed.

Lemma StronglySorted_map {A B : Type} (R : B -> B -> Prop) (f : A -> B) (l : list A) :
  StronglySorted R (map f l) -> StronglySorted (fun a b => R (f a) (f b)) l.
Proof.
  induction l as [|x l IH]; simpl; intros Hs; [constructor|].
  inversion Hs as [|? ? Hl Hx]; subst. constructor; [now apply IH|].
  rewrite Forall_map in Hx. exact Hx.
Qed.

Lemma Forall_firstn {A : Type} (P : A -> Prop) (n : nat) (l : list A) :
  Forall P l -> Forall P (firstn n l).
Proof.
  intros H. rewrite Forall_forall in *. intros x Hx. apply H.
  rewrite <- (firstn_skipn n l). apply in_or_app. now left.
Qed.

Lemma filter_zero_of_positive {A : Type} (f : A -> nat) (l : list A) :
  Forall (fun a => 0 < f a) l -> filter (fun a => f a =? 0) l = [].
Proof.
  induction 1 as [|a l Ha Hl IH]; simpl; [reflexivity|].
  destruct (Nat.eqb_spec (f a) 0); [lia | exact IH].
Qed.

(** C4.  For every query, the output of the keyword-overlap scorer has no
    protocol of score 0, is in non-increasing score order, keeps protocols of
    equal score in input order (the returned protocols of each score are the
    first ones of that score in the corpus, in corpus order), and has at most
    5 protocols. *)
Theorem findRelevantProtocols_ranked (protocols : list Chat.Protocol) (query : string) :
  let out := Chat.findRelevantProtocols protocols query in
  Forall (fun p => 0 < Chat.scoreOf query p) out
  /\ StronglySorted (fun p p' => Chat.scoreOf query p' <= Chat.scoreOf query p) out
  /\ (forall k, exists rest,
         filter (fun p => Chat.scoreOf query p =? k) protocols
         = filter (fun p => Chat.scoreOf query p =? k) out ++ rest)
  /\ List.length out <= 5.
Proof.
  cbv zeta.
  destruct (Chat.queryKeywords query) as [|kw0 kws0] eqn:Hk.
  { unfold Chat.findRelevantProtocols.
    rewrite (no_keyword_run_eq _ _ Hk). simpl.
    split; [constructor|]. split; [constructor|].
    split; [intros k; exists (filter (fun p => Chat.scoreOf query p =? k) protocols);
            reflexivity | apply Nat.le_0_l]. }
  assert (Hne : Chat.queryKeywords query <> []) by (rewrite Hk; discriminate).
  rewrite (ranked_result_eq _ _ Hne).
  unfold Chat.scoreOf.
  set (kws := Chat.queryKeywords query).
  set (pos := fun item => 0 <? Chat.score item).
  set (scored := map (Chat.scoreProtocol kws) protocols).
  set (sorted := Js.sort Chat.byScoreDesc (filter pos scored)).
  assert (Hin : forall it, In it sorted -> In it (filter pos scored))
    by (intros it; apply sort_In).
  assert (Hby : Forall (scoredBy kws) sorted).
  { apply Forall_forall. intros it Hit. apply Hin, filter_In in Hit as [Hit _].
    pose proof (scoredBy_scoreProtocol kws protocols) as Hall.
    rewrite Forall_forall in Hall. now apply Hall. }
  assert (Hpos : Forall (fun it => 0 < Chat.score it) sorted).
  { apply Forall_forall. intros it Hit. apply Hin, filter_In in Hit as [_ Hit].
    now apply Nat.ltb_lt. }
  assert (Htop : firstn 5 sorted
                 = map (Chat.scoreProtocol kws) (map Chat.protocol (firstn 5 sorted)))
    by (apply scoredBy_map, Forall_firstn, Hby).
  set (out := map Chat.protocol (firstn 5 sorted)) in *.
  repeat split.
  - apply (Forall_firstn _ 5) in Hpos. rewrite Htop, Forall_map in Hpos. exact Hpos.
  - pose proof (StronglySorted_firstn _ 5 _ (sort_sorted (filter pos scored))) as Hs.
    fold sorted in Hs. rewrite Htop in Hs.
    apply StronglySorted_map in Hs. exact Hs.
  - intros k.
    destruct (filter_firstn_prefix (hasScore k) 5 sorted) as [rest Hrest].
    unfold sorted in Hrest at 1. rewrite sort_hasScore, filter_filter in Hrest.
    apply (f_equal (map Chat.protocol)) in Hrest.
    unfold scored in Hrest. rewrite filter_map_scoreProtocol, map_app in Hrest.
    rewrite Htop, filter_map_scoreProtocol in Hrest.
    destruct k as [|k].
    + exists (filter (fun p => Chat.score (Chat.scoreProtocol kws p) =? 0) protocols).
      apply (Forall_firstn _ 5) in Hpos.
      rewrite Htop, Forall_map in Hpos.
      rewrite (filter_zero_of_positive _ _ Hpos). reflexivity.
    + exists (map Chat.protocol rest).
      etransitivity; [|exact Hrest].
      apply filter_ext. intros p. unfold pos, hasScore.
      destruct (Nat.eqb_spec (Chat.score (Chat.scoreProtocol kws p)) (S k)) as [->|];
        [reflexivity | symmetry; apply andb_false_r].
  - unfold out. rewrite length_map. apply firstn_le_length.
Qed.

(** C5.  For every query in which no token survives the filtering, the scorer
    returns the empty sequence and scores no protocol. *)
Theorem findRelevantProtocols_no_keywords (protocols : list Chat.Protocol) (query : string) :
  Chat.queryKeywords query = [] ->
  Chat.findRelevantProtocols protocols query = []
  /\ Chat.scoredProtocols (Chat.findRelevantProtocols_run protocols query) = [].
Proof.
  intros Hk. unfold Chat.findRelevantProtocols.
  rewrite (no_keyword_run_eq _ _ Hk). split; reflexivity.
Qed.

Lemma findRelevantProtocols_no_keywords_witness :
  Chat.queryKeywords "is the a to in" = []
  /\ Chat.findRelevantProtocols [cardiacArrest] "is the a to in" = []
  /\ Chat.scoredProtocols
       (Chat.findRelevantProtocols_run [cardiacArrest] "is the a to in") = [].
Proof.
  split; [reflexivity|].
  apply (findRelevantProtocols_no_keywords [cardiacArrest] "is the a to in").
  reflexivity.
Defined.

(** The function is one run of the scorer over a conforming sort. *)
Lemma findRelevantProtocols_conforms (protocols : list Chat.Protocol) (query : string) :
  Chat.FindRelevantProtocols protocols query (Chat.findRelevantProtocols protocols query).
Proof.
  destruct (Chat.queryKeywords query) as [|kw0 kws0] eqn:Hk.
  - unfold Chat.findRelevantProtocols.
    rewrite (no_keyword_run_eq _ _ Hk). now constructor.
  - assert (Hne : Chat.queryKeywords query <> []) by (rewrite Hk; discriminate).
    rewrite (ranked_result_eq _ _ Hne).
    constructor; [exact Hne | apply sort_conforms].
Qed.

Lemma FindRelevantProtocols_unique (protocols : list Chat.Protocol) (query : string)
      (r1 r2 : list Chat.Protocol) :
  Chat.FindRelevantProtocols protocols query r1 ->
  Chat.FindRelevantProtocols protocols query r2 ->
  r1 = r2.
Proof.
  intros H1 H2.
  destruct H1 as [Hk1|s1 Hk1 Hs1]; destruct H2 as [Hk2|s2 Hk2 Hs2];
    try reflexivity; try contradiction.
  now rewrite (conforming_sort_unique _ _ _ Hs1 Hs2).
Qed.

(** ** The search handlers on a blank query *)

Lemma arrayIncludes_In (arr : list string) (x : string) :
  Js.arrayIncludes arr x = true <-> In x arr.
Proof.
  unfold Js.arrayIncludes. rewrite existsb_exists. split.
  - intros [y [Hy Heq]]. apply String.eqb_eq in Heq. now subst.
  - intros Hin. exists x. split; [assumption | apply String.eqb_refl].
Qed.

Lemma hasCategory_tagged {T : Type} (categories : T -> option (list string))
      (p : T) (c : string) :
  CategoryFilter.hasCategory categories p c = tagged categories c p.
Proof.
  unfold CategoryFilter.hasCategory, tagged.
  destruct (categories p) as [cs|]; [|reflexivity].
  destruct (in_dec string_dec c cs) as [Hin|Hout].
  - now apply arrayIncludes_In.
  - destruct (Js.arrayIncludes cs c) eqn:E; [|reflexivity].
    apply arrayIncludes_In in E. contradiction.
Qed.

Lemma forallb_pointwise {A : Type} (f g : A -> bool) (l : list A) :
  (forall x, f x = g x) -> forallb f l = forallb g l.
Proof.
  intros H. induction l as [|x l IH]; simpl; [reflexivity|]. now rewrite H, IH.
Qed.

(** C2 (as amended).  On an empty or white-space-only query no search handler
    calls the scorer: [handleSearch] of the search-only page sets the results
    to the empty sequence, and [applyFiltersAndSearch] of the page with
    category filters, when at least one filter is active, sets them to the
    protocols of the corpus that carry every active filter, in corpus
    order. *)
Theorem blank_query_results (q : string) :
  Js.allWhiteSpace q = true ->
  (forall protocolsList search st,
      SearchPage.searchTerm st = q ->
      SearchPage.handleSearch protocolsList search st
      = (SearchPage.setSearchResults [] st, []))
  /\ (forall protocolsList search st,
         Home.searchTerm st = q ->
         snd (Home.applyFiltersAndSearch protocolsList search st) = []
         /\ (Home.activeFilters st <> [] ->
             Home.applyFiltersAndSearch protocolsList search st
             = (Home.setSearchResults
                  (filter (fun p => forallb (fun f => tagged Home.categories f p)
                                            (Home.activeFilters st))
                          protocolsList) st, []))).
Proof.
  intros Hq. apply trim_blank in Hq. split.
  - intros protocolsList search st <-.
    unfold SearchPage.handleSearch. now rewrite Hq.
  - intros protocolsList search st <-.
    unfold Home.applyFiltersAndSearch. rewrite Hq. simpl. split; [reflexivity|].
    intros Hne. unfold CategoryFilter.filterAll.
    destruct (Home.activeFilters st) as [|f fs]; [congruence|]. simpl Nat.ltb.
    cbv iota. do 2 f_equal. apply filter_ext. intros p.
    apply forallb_pointwise. intros g. apply hasCategory_tagged.
Qed.

Lemma blank_query_results_witness :
  Js.allWhiteSpace "   " = true
  /\ SearchPage.handleSearch [chestPain] noMatch (blankSearch "   ")
     = (SearchPage.setSearchResults [] (blankSearch "   "), [])
  /\ Home.applyFiltersAndSearch [pediatricAirway; crushInjury] noMatch
       (blankHome "   " ["trauma"%string])
     = (Home.setSearchResults [crushInjury] (blankHome "   " ["trauma"%string]), []).
Proof.
  split; [reflexivity|].
  destruct (blank_query_results "   " eq_refl) as [Hs Hh]. split.
  - apply Hs. reflexivity.
  - destruct (Hh [pediatricAirway; crushInjury] noMatch
                 (blankHome "   " ["trauma"%string]) eq_refl) as [_ Hf].
    rewrite Hf; [reflexivity | discriminate].
Defined.

(** C2 (as stated) fails on the page with category filters: with the filter
    "trauma" active and an empty query, [applyFiltersAndSearch] shows the
    protocols tagged "trauma", not the empty sequence. *)
Lemma blank_query_home_counterexample :
  ~ (forall (protocolsList : list Home.Protocol)
            (search : Fuse.Options -> list Home.Protocol -> string
                      -> list (Fuse.Result Home.Protocol))
            (st : Home.State),
        protocolsList <> [] ->
        Js.allWhiteSpace (Home.searchTerm st) = true ->
        Home.searchResults (fst (Home.applyFiltersAndSearch protocolsList search st)) = []).
Proof.
  intros H.
  specialize (H [pediatricAirway; crushInjury] noMatch (blankHome "" ["trauma"%string])).
  simpl in H. discriminate H; [discriminate | reflexivity].
Qed.

(** ** The category filters *)

Lemma tagged_spec {T : Type} (categories : T -> option (list string))
      (c : string) (p : T) :
  tagged categories c p = true <-> exists cs, categories p = Some cs /\ In c cs.
Proof.
  unfold tagged. destruct (categories p) as [cs|].
  - destruct (in_dec string_dec c cs) as [Hin|Hout]; split; try discriminate.
    + intros _. now exists cs.
    + reflexivity.
    + intros [cs' [Heq Hin']]. injection Heq as Heq. subst cs'. contradiction.
  - split; [discriminate | intros [cs [Heq _]]; discriminate].
Qed.

(** C3.  With no category selected both filters return the corpus unchanged;
    with one category [c] selected the ANY-match filter of the quiz route and
    the ALL-match filter of the search page return the same protocols, those
    of the corpus that carry [c], in corpus order. *)
Theorem category_filters_agree {T : Type} (categories : T -> option (list string))
        (corpus : list T) :
  CategoryFilter.filterAny categories [] corpus = corpus
  /\ CategoryFilter.filterAll categories [] corpus = corpus
  /\ forall c,
       CategoryFilter.filterAny categories [c] corpus = filter (tagged categories c) corpus
       /\ CategoryFilter.filterAll categories [c] corpus = filter (tagged categories c) corpus.
Proof.
  split; [reflexivity|]. split; [reflexivity|].
  intros c. unfold CategoryFilter.filterAny, CategoryFilter.filterAll. simpl.
  split; apply filter_ext; intros p.
  - rewrite <- hasCategory_tagged. unfold CategoryFilter.hasCategory.
    destruct (categories p) as [cs|]; [|reflexivity].
    unfold Js.arrayIncludes. simpl.
    induction cs as [|c' cs IH]; simpl; [reflexivity|].
    rewrite IH, orb_false_r, String.eqb_sym. reflexivity.
  - rewrite andb_true_r. apply hasCategory_tagged.
Qed.

(** The two filters on the corpus of the example: only the protocol tagged
    "pediatric" is kept. *)
Example pediatric_filter_example :
  CategoryFilter.filterAll Home.categories ["pediatric"%string]
                           [pediatricAirway; crushInjury] = [pediatricAirway]
  /\ CategoryFilter.filterAny Home.categories ["pediatric"%string]
                              [pediatricAirway; crushInjury] = [pediatricAirway].
Proof. split; reflexivity. Qed.

(** ** The medication calculator *)

Lemma strictEq_zero (x : Js.number) :
  Js.strictEq x Js.zero = true -> exists s, x = S754_zero s.
Proof.
  destruct x as [s|s| |s m e]; simpl; try discriminate.
  - intros _. now exists s.
  - destruct s; discriminate.
  - destruct s; discriminate.
Qed.

Lemma strictEq_zero_zero (s : bool) : Js.strictEq (S754_zero s) Js.zero = true.
Proof. reflexivity. Qed.

(** [parseNum] rejects exactly the texts that parse to NaN or to a number
    below zero, and passes the parsed number on otherwise. *)
Lemma parseNum_cases (val : string) :
  (Calculator.parseNum val = Calculator.Ok (Js.parseFloat val)
   /\ Js.isNaN (Js.parseFloat val) = false
   /\ Js.lt (Js.parseFloat val) Js.zero = false)
  \/ (Calculator.parseNum val = Calculator.Throw Calculator.invalidInput
      /\ (Js.isNaN (Js.parseFloat val) = true \/ Js.lt (Js.parseFloat val) Js.zero = true)).
Proof.
  unfold Calculator.parseNum.
  destruct (Js.isNaN (Js.parseFloat val)) eqn:Hn; simpl.
  - right. auto.
  - destruct (Js.lt (Js.parseFloat val) Js.zero) eqn:Hl; [right | left]; auto.
Qed.

Lemma parseNum_Ok (val : string) (n : Js.number) :
  Calculator.parseNum val = Calculator.Ok n ->
  n = Js.parseFloat val /\ Js.isNaN n = false /\ Js.lt n Js.zero = false.
Proof.
  destruct (parseNum_cases val) as [[-> [Hn Hl]]|[-> _]]; [|discriminate].
  intros [= <-]. auto.
Qed.

Lemma parseNum_Throw (val message : string) :
  Calculator.parseNum val = Calculator.Throw message ->
  message = Calculator.invalidInput.
Proof.
  destruct (parseNum_cases val) as [[-> _]|[-> _]]; [discriminate|].
  now intros [= <-].
Qed.

Lemma parseNum_zero (val : string) :
  Js.strictEq (Js.parseFloat val) Js.zero = true ->
  Calculator.parseNum val = Calculator.Ok (Js.parseFloat val).
Proof.
  intros Hz. apply strictEq_zero in Hz as [s Hs].
  unfold Calculator.parseNum. rewrite Hs. reflexivity.
Qed.

Lemma accepted_dec (val : string) : {accepted val} + {~ accepted val}.
Proof.
  unfold accepted.
  destruct (Js.isNaN (Js.parseFloat val)); [right; intros [H _]; discriminate|].
  destruct (Js.lt (Js.parseFloat val) Js.zero);
    [right; intros [_ H]; discriminate | left; split; reflexivity].
Qed.

Lemma parseNum_accepted (val : string) :
  accepted val -> Calculator.parseNum val = Calculator.Ok (Js.parseFloat val).
Proof.
  intros [Hn Hl]. unfold Calculator.parseNum. now rewrite Hn, Hl.
Qed.

Lemma parseNum_rejected (val : string) :
  ~ accepted val -> Calculator.parseNum val = Calculator.Throw Calculator.invalidInput.
Proof.
  intros Hr. destruct (parseNum_cases val) as [[_ [Hn Hl]]|[H _]]; [|exact H].
  exfalso. apply Hr. now split.
Qed.

(** Zero divided by an accepted, nonzero number is zero. *)
Lemma div_zero_accepted (s : bool) (v : Js.number) :
  Js.isNaN v = false -> Js.lt v Js.zero = false -> Js.strictEq v Js.zero = false ->
  exists s', Js.div (S754_zero s) v = S754_zero s'.
Proof.
  destruct v as [sv|sv| |sv m e]; simpl; try discriminate; intros _ Hl Hz.
  - now exists (xorb s sv).
  - now exists (xorb s sv).
Qed.

Lemma mul_finite_zero (x : Js.number) (s : bool) :
  Js.isFinite x = true -> exists s', Js.mul x (S754_zero s) = S754_zero s'.
Proof.
  destruct x as [sx|sx| |sx m e]; simpl; try discriminate; intros _.
  - now exists (xorb sx s).
  - now exists (xorb sx s).
Qed.

Lemma div_zero_1000 (s : bool) : Js.div (S754_zero s) (Js.ofZ 1000) = S754_zero s.
Proof. destruct s; reflexivity. Qed.

Lemma toFixed_zero (toStringLarge : Js.number -> string) (s : bool) :
  Calculator.toFixed toStringLarge (S754_zero s) 2 = "0.00"%string.
Proof. reflexivity. Qed.

Lemma weightDoseText_zero (toStringLarge : Js.number -> string) (s s' : bool) :
  Calculator.weightDoseText toStringLarge (S754_zero s) (S754_zero s') = zeroDoseText.
Proof. reflexivity. Qed.

(** [handleCalculate] in the weight-based mode: the result line of
    [weightDose], or its error in the error line. *)
Lemma handleCalculate_weight_dose (toStringLarge : Js.number -> string)
      (st : Calculator.State) :
  Calculator.calculationType st = Calculator.WEIGHT_DOSE ->
  Calculator.handleCalculate toStringLarge st
  = match Calculator.weightDose toStringLarge
            (Calculator.patientWeight st) (Calculator.weightUnit st)
            (Calculator.concMgPerMl st) (Calculator.concMl st)
            (Calculator.doseRequired st) (Calculator.doseUnit st) with
    | Calculator.Ok text =>
        Calculator.setWeightDoseResult (Some text) (Calculator.clearResults st)
    | Calculator.Throw message =>
        Calculator.setError
          (Some (if Js.truthy message then message
                 else "An unexpected error occurred."%string))
          (Calculator.clearResults st)
    end.
Proof.
  intros Ht. unfold Calculator.handleCalculate, Calculator.calculate.
  change (Calculator.calculationType (Calculator.clearResults st))
    with (Calculator.calculationType st).
  rewrite Ht, String.eqb_refl.
  change (Calculator.patientWeight (Calculator.clearResults st))
    with (Calculator.patientWeight st).
  change (Calculator.weightUnit (Calculator.clearResults st))
    with (Calculator.weightUnit st).
  change (Calculator.concMgPerMl (Calculator.clearResults st))
    with (Calculator.concMgPerMl st).
  change (Calculator.concMl (Calculator.clearResults st))
    with (Calculator.concMl st).
  change (Calculator.doseRequired (Calculator.clearResults st))
    with (Calculator.doseRequired st).
  change (Calculator.doseUnit (Calculator.clearResults st))
    with (Calculator.doseUnit st).
  destruct (Calculator.weightDose _ _ _ _ _ _ _); reflexivity.
Qed.

(** With a concentration of 0 mg and the other inputs accepted, the outcome
    turns on the total dose needed. *)
Lemma weightDose_zero_conc_accepted (toStringLarge : Js.number -> string)
      (pw wu cmg cml dr du : string) (w v d : Js.number) :
  Js.strictEq (Js.parseFloat cmg) Js.zero = true ->
  Calculator.parseNum pw = Calculator.Ok w ->
  Calculator.parseNum cml = Calculator.Ok v ->
  Js.strictEq v Js.zero = false ->
  Calculator.parseNum dr = Calculator.Ok d ->
  Calculator.weightDose toStringLarge pw wu cmg cml dr du
  = if Js.strictEq (Calculator.totalDoseNeeded du (Calculator.finalWeightKg wu w) d)
                   Js.zero
    then Calculator.Ok zeroDoseText
    else Calculator.Throw Calculator.drugConcZero.
Proof.
  intros Hc Hw Hv Hvz Hd. pose proof (parseNum_zero _ Hc) as Hcmg.
  apply strictEq_zero in Hc as [sc Hsc]. rewrite Hsc in Hcmg.
  unfold Calculator.weightDose, Calculator.bind.
  rewrite Hw, Hcmg, Hv, Hvz, Hd.
  apply parseNum_Ok in Hv as [_ [Hvn Hvl]].
  destruct (div_zero_accepted sc v Hvn Hvl Hvz) as [s' ->].
  rewrite strictEq_zero_zero. simpl andb.
  destruct (Js.strictEq (Calculator.totalDoseNeeded _ _ _) Js.zero) eqn:Htot; simpl.
  - apply strictEq_zero in Htot as [st ->]. reflexivity.
  - reflexivity.
Qed.

(** With a concentration of 0 mg, [weightDose] throws one of three errors or
    gives the line of a zero dose. *)
Lemma weightDose_zero_conc (toStringLarge : Js.number -> string)
      (pw wu cmg cml dr du : string) :
  Js.strictEq (Js.parseFloat cmg) Js.zero = true ->
  (exists message,
      In message [Calculator.invalidInput; Calculator.concVolumeZero;
                  Calculator.drugConcZero]
      /\ Calculator.weightDose toStringLarge pw wu cmg cml dr du
         = Calculator.Throw message)
  \/ Calculator.weightDose toStringLarge pw wu cmg cml dr du
     = Calculator.Ok zeroDoseText.
Proof.
  intros Hc.
  destruct (Calculator.parseNum pw) as [w|m] eqn:Hw.
  2:{ left. exists Calculator.invalidInput. split; [now left|].
      unfold Calculator.weightDose, Calculator.bind. rewrite Hw.
      now rewrite (parseNum_Throw _ _ Hw). }
  destruct (Calculator.parseNum cml) as [v|m] eqn:Hv.
  2:{ left. exists Calculator.invalidInput. split; [now left|].
      unfold Calculator.weightDose, Calculator.bind.
      rewrite Hw, (parseNum_zero _ Hc), Hv.
      now rewrite (parseNum_Throw _ _ Hv). }
  destruct (Js.strictEq v Js.zero) eqn:Hvz.
  { left. exists Calculator.concVolumeZero. split; [right; now left|].
    unfold Calculator.weightDose, Calculator.bind.
    now rewrite Hw, (parseNum_zero _ Hc), Hv, Hvz. }
  destruct (Calculator.parseNum dr) as [d|m] eqn:Hd.
  2:{ left. exists Calculator.invalidInput. split; [now left|].
      unfold Calculator.weightDose, Calculator.bind.
      rewrite Hw, (parseNum_zero _ Hc), Hv, Hvz, Hd.
      now rewrite (parseNum_Throw _ _ Hd). }
  rewrite (weightDose_zero_conc_accepted _ _ _ _ _ _ _ _ _ _ Hc Hw Hv Hvz Hd).
  destruct (Js.strictEq (Calculator.totalDoseNeeded du (Calculator.finalWeightKg wu w) d)
                        Js.zero).
  - now right.
  - left. exists Calculator.drugConcZero. split; [right; right; now left | reflexivity].
Qed.

(** With a concentration of 0 mg, which inputs give which outcome of
    [weightDose]. *)
Lemma weightDose_zero_conc_outcome (toStringLarge : Js.number -> string)
      (pw wu cmg cml dr du : string) :
  Js.strictEq (Js.parseFloat cmg) Js.zero = true ->
  let r := Calculator.weightDose toStringLarge pw wu cmg cml dr du in
  let pass := accepted pw /\ accepted cml
              /\ Js.strictEq (Js.parseFloat cml) Js.zero = false /\ accepted dr in
  let total := Calculator.totalDoseNeeded du
                 (Calculator.finalWeightKg wu (Js.parseFloat pw)) (Js.parseFloat dr) in
  (r = Calculator.Throw Calculator.drugConcZero
   <-> pass /\ Js.strictEq total Js.zero = false)
  /\ (r = Calculator.Ok zeroDoseText <-> pass /\ Js.strictEq total Js.zero = true)
  /\ (r = Calculator.Throw Calculator.concVolumeZero
      <-> accepted pw /\ accepted cml /\ Js.strictEq (Js.parseFloat cml) Js.zero = true)
  /\ (r = Calculator.Throw Calculator.invalidInput
      <-> ~ accepted pw \/ ~ accepted cml
          \/ (Js.strictEq (Js.parseFloat cml) Js.zero = false /\ ~ accepted dr)).
Proof.
  intros Hc. cbv zeta.
  destruct (accepted_dec pw) as [Hw|Hw].
  2:{ assert (E : Calculator.weightDose toStringLarge pw wu cmg cml dr du
                  = Calculator.Throw Calculator.invalidInput).
      { unfold Calculator.weightDose, Calculator.bind.
        now rewrite (parseNum_rejected _ Hw). }
      rewrite E. outcome. all: zc. }
  destruct (accepted_dec cml) as [Hv|Hv].
  2:{ assert (E : Calculator.weightDose toStringLarge pw wu cmg cml dr du
                  = Calculator.Throw Calculator.invalidInput).
      { unfold Calculator.weightDose, Calculator.bind.
        now rewrite (parseNum_accepted _ Hw), (parseNum_zero _ Hc),
          (parseNum_rejected _ Hv). }
      rewrite E. outcome. all: zc. }
  destruct (Js.strictEq (Js.parseFloat cml) Js.zero) eqn:Hvz.
  { assert (E : Calculator.weightDose toStringLarge pw wu cmg cml dr du
                = Calculator.Throw Calculator.concVolumeZero).
    { unfold Calculator.weightDose, Calculator.bind.
      now rewrite (parseNum_accepted _ Hw), (parseNum_zero _ Hc),
        (parseNum_accepted _ Hv), Hvz. }
    rewrite E. outcome. all: zc. }
  destruct (accepted_dec dr) as [Hd|Hd].
  2:{ assert (E : Calculator.weightDose toStringLarge pw wu cmg cml dr du
                  = Calculator.Throw Calculator.invalidInput).
      { unfold Calculator.weightDose, Calculator.bind.
        now rewrite (parseNum_accepted _ Hw), (parseNum_zero _ Hc),
          (parseNum_accepted _ Hv), Hvz, (parseNum_rejected _ Hd). }
      rewrite E. outcome. all: zc. }
  rewrite (weightDose_zero_conc_accepted toStringLarge pw wu cmg cml dr du _ _ _ Hc
             (parseNum_accepted _ Hw) (parseNum_accepted _ Hv) Hvz
             (parseNum_accepted _ Hd)).
  destruct (Js.strictEq
              (Calculator.totalDoseNeeded du
                 (Calculator.finalWeightKg wu (Js.parseFloat pw)) (Js.parseFloat dr))
              Js.zero) eqn:Ht; outcome; zc.
Qed.

(** In the weight-based mode with a concentration of 0 mg, the state the
    handler leaves tells the outcome of [weightDose], and the outcome the
    state. *)
Lemma handleCalculate_zero_conc (toStringLarge : Js.number -> string)
      (st : Calculator.State) :
  Calculator.calculationType st = Calculator.WEIGHT_DOSE ->
  Js.strictEq (Js.parseFloat (Calculator.concMgPerMl st)) Js.zero = true ->
  let r := Calculator.weightDose toStringLarge
             (Calculator.patientWeight st) (Calculator.weightUnit st)
             (Calculator.concMgPerMl st) (Calculator.concMl st)
             (Calculator.doseRequired st) (Calculator.doseUnit st) in
  let st' := Calculator.handleCalculate toStringLarge st in
  (forall message,
      In message [Calculator.invalidInput; Calculator.concVolumeZero;
                  Calculator.drugConcZero] ->
      (st' = Calculator.setError (Some message) (Calculator.clearResults st)
       <-> r = Calculator.Throw message))
  /\ (forall text,
         st' = Calculator.setWeightDoseResult (Some text) (Calculator.clearResults st)
         <-> r = Calculator.Ok text).
Proof.
  intros Ht Hc. cbv zeta. rewrite (handleCalculate_weight_dose _ _ Ht).
  destruct (weightDose_zero_conc toStringLarge
              (Calculator.patientWeight st) (Calculator.weightUnit st)
              (Calculator.concMgPerMl st) (Calculator.concMl st)
              (Calculator.doseRequired st) (Calculator.doseUnit st) Hc)
    as [[m [Hin ->]] | ->].
  - assert (Hm : (if Js.truthy m then m else "An unexpected error occurred."%string) = m).
    { simpl in Hin. destruct Hin as [ <- | [ <- | [ <- | [] ] ] ]; reflexivity. }
    rewrite Hm. split.
    + intros message _. split.
      * intros H. apply (f_equal Calculator.error) in H. simpl in H.
        now injection H as ->.
      * now intros [= ->].
    + intros text. split; [|discriminate].
      intros H. apply (f_equal Calculator.error) in H. discriminate H.
  - split.
    + intros message _. split; [|discriminate].
      intros H. apply (f_equal Calculator.error) in H. discriminate H.
    + intros text. split.
      * intros H. apply (f_equal Calculator.weightDoseResult) in H. simpl in H.
        now injection H as <-.
      * now intros [= <-].
Qed.

(** C6 (as amended).  In the weight-based dose calculation with an entered
    concentration of 0 mg the handler returns a state that shows one line.
    It is the error "Drug concentration (mg) cannot be zero if dose is
    required.", with no result, exactly when the weight, the concentration
    volume and the required dose are accepted, the volume is not zero and
    the total dose needed (the weight in kg times the required dose, scaled by
    the dose unit) is not zero; the result line of a zero dose, with no
    error, exactly when those inputs are accepted, the volume is not zero and
    the total dose needed is zero; the error "Concentration volume (mL)
    cannot be zero." exactly when the weight and the volume are accepted and
    the volume is zero; and the error "Invalid input" exactly when the weight
    or the volume is rejected, or the dose is rejected next to a volume that
    is not zero.  No shown result contains [Infinity] or [NaN]. *)
Theorem zero_concentration (toStringLarge : Js.number -> string) (st : Calculator.State) :
  Calculator.calculationType st = Calculator.WEIGHT_DOSE ->
  Js.strictEq (Js.parseFloat (Calculator.concMgPerMl st)) Js.zero = true ->
  let st' := Calculator.handleCalculate toStringLarge st in
  let volumeZero := Js.strictEq (Js.parseFloat (Calculator.concMl st)) Js.zero in
  let pass := accepted (Calculator.patientWeight st) /\ accepted (Calculator.concMl st)
              /\ volumeZero = false /\ accepted (Calculator.doseRequired st) in
  let total := Calculator.totalDoseNeeded (Calculator.doseUnit st)
                 (Calculator.finalWeightKg (Calculator.weightUnit st)
                    (Js.parseFloat (Calculator.patientWeight st)))
                 (Js.parseFloat (Calculator.doseRequired st)) in
  (st' = Calculator.setError (Some Calculator.drugConcZero) (Calculator.clearResults st)
   <-> pass /\ Js.strictEq total Js.zero = false)
  /\ (st' = Calculator.setWeightDoseResult (Some zeroDoseText) (Calculator.clearResults st)
      <-> pass /\ Js.strictEq total Js.zero = true)
  /\ (st' = Calculator.setError (Some Calculator.concVolumeZero)
              (Calculator.clearResults st)
      <-> accepted (Calculator.patientWeight st) /\ accepted (Calculator.concMl st)
          /\ volumeZero = true)
  /\ (st' = Calculator.setError (Some Calculator.invalidInput) (Calculator.clearResults st)
      <-> ~ accepted (Calculator.patientWeight st) \/ ~ accepted (Calculator.concMl st)
          \/ (volumeZero = false /\ ~ accepted (Calculator.doseRequired st)))
  /\ ((exists message,
          In message [Calculator.invalidInput; Calculator.concVolumeZero;
                      Calculator.drugConcZero]
          /\ st' = Calculator.setError (Some message) (Calculator.clearResults st))
      \/ st' = Calculator.setWeightDoseResult (Some zeroDoseText)
                                              (Calculator.clearResults st))
  /\ (forall r,
         In (Some r) [Calculator.weightDoseResult st'; Calculator.dripRateResult st';
                      Calculator.conversionResult st'] ->
         Js.includes r "Infinity" = false /\ Js.includes r "NaN" = false).
Proof.
  intros Ht Hc. cbv zeta.
  destruct (handleCalculate_zero_conc toStringLarge st Ht Hc) as [He Hr].
  destruct (weightDose_zero_conc_outcome toStringLarge
              (Calculator.patientWeight st) (Calculator.weightUnit st)
              (Calculator.concMgPerMl st) (Calculator.concMl st)
              (Calculator.doseRequired st) (Calculator.doseUnit st) Hc)
    as (Hd & Hz & Hv & Hi).
  assert (Hshape :
            (exists message,
                In message [Calculator.invalidInput; Calculator.concVolumeZero;
                            Calculator.drugConcZero]
                /\ Calculator.handleCalculate toStringLarge st
                   = Calculator.setError (Some message) (Calculator.clearResults st))
            \/ Calculator.handleCalculate toStringLarge st
               = Calculator.setWeightDoseResult (Some zeroDoseText)
                                                (Calculator.clearResults st)).
  { destruct (weightDose_zero_conc toStringLarge
                (Calculator.patientWeight st) (Calculator.weightUnit st)
                (Calculator.concMgPerMl st) (Calculator.concMl st)
                (Calculator.doseRequired st) (Calculator.doseUnit st) Hc)
      as [[message [Hin E]] | E].
    - left. exists message. split; [exact Hin|]. now apply He.
    - right. now apply Hr. }
  split; [|split; [|split; [|split; [|split]]]].
  - rewrite <- Hd. apply He. right. right. now left.
  - rewrite <- Hz. apply Hr.
  - rewrite <- Hv. apply He. right. now left.
  - rewrite <- Hi. apply He. now left.
  - exact Hshape.
  - destruct Hshape as [[message [_ Hs]]|Hs]; rewrite Hs; intros r Hin; simpl in Hin.
    + destruct Hin as [Hin|[Hin|[Hin|[]]]]; discriminate.
    + destruct Hin as [Hin|[Hin|[Hin|[]]]]; try discriminate.
      injection Hin as <-. split; reflexivity.
Qed.

Lemma zero_concentration_witness :
  Calculator.handleCalculate largeOmitted
    (Calculator.weightDoseForm "70" "kg" "0" "1" "0.5" "mg_kg")
  = Calculator.setError (Some Calculator.drugConcZero)
      (Calculator.clearResults
         (Calculator.weightDoseForm "70" "kg" "0" "1" "0.5" "mg_kg"))
  /\ Calculator.handleCalculate largeOmitted
       (Calculator.weightDoseForm "0" "kg" "0" "1" "0.5" "mg_kg")
     = Calculator.setWeightDoseResult (Some zeroDoseText)
         (Calculator.clearResults
            (Calculator.weightDoseForm "0" "kg" "0" "1" "0.5" "mg_kg"))
  /\ Calculator.handleCalculate largeOmitted
       (Calculator.weightDoseForm "abc" "kg" "0" "1" "0.5" "mg_kg")
     = Calculator.setError (Some Calculator.invalidInput)
         (Calculator.clearResults
            (Calculator.weightDoseForm "abc" "kg" "0" "1" "0.5" "mg_kg")).
Proof.
  split; [|split].
  - apply (proj1 (zero_concentration largeOmitted
                    (Calculator.weightDoseForm "70" "kg" "0" "1" "0.5" "mg_kg")
                    eq_refl eq_refl)).
    repeat split; reflexivity.
  - apply (proj1 (proj2 (zero_concentration largeOmitted
                           (Calculator.weightDoseForm "0" "kg" "0" "1" "0.5" "mg_kg")
                           eq_refl eq_refl))).
    repeat split; reflexivity.
  - apply (proj1 (proj2 (proj2 (proj2
             (zero_concentration largeOmitted
                (Calculator.weightDoseForm "abc" "kg" "0" "1" "0.5" "mg_kg")
                eq_refl eq_refl))))).
    left. intros [H _]. discriminate H.
Defined.

(** C6 (as stated) fails: with a weight of 0, which the validation accepts, a
    concentration of 0 mg and a required dose of 0.5 mg/kg, the total dose
    needed is 0 and the handler shows "Total Dose: 0.00 mg. Volume to
    Administer: 0.00 mL." with no message. *)
Lemma zero_weight_counterexample :
  ~ (forall (toStringLarge : Js.number -> string) (st : Calculator.State)
            (d : Js.number),
        Calculator.calculationType st = Calculator.WEIGHT_DOSE ->
        Js.strictEq (Js.parseFloat (Calculator.concMgPerMl st)) Js.zero = true ->
        Calculator.parseNum (Calculator.doseRequired st) = Calculator.Ok d ->
        Js.strictEq d Js.zero = false ->
        reportsDomainMessage (Calculator.handleCalculate toStringLarge st)).
Proof.
  intros H.
  specialize (H largeOmitted
                (Calculator.weightDoseForm "0" "kg" "0" "1" "0.5" "mg_kg")
                (Js.parseFloat "0.5") eq_refl eq_refl eq_refl eq_refl).
  destruct H as [H|H]; vm_compute in H; [now apply H | discriminate].
Qed.

(** C7.  With a weight of 70 kg, a concentration of 100 mg per 1 mL and a
    required dose of 0.5 mg/kg the result line reports a total dose of
    35.00 mg and a volume to administer of 0.35 mL. *)
Theorem weight_dose_example (toStringLarge : Js.number -> string) (st : Calculator.State) :
  Calculator.calculationType st = Calculator.WEIGHT_DOSE ->
  Calculator.patientWeight st = "70"%string ->
  Calculator.weightUnit st = "kg"%string ->
  Calculator.concMgPerMl st = "100"%string ->
  Calculator.concMl st = "1"%string ->
  Calculator.doseRequired st = "0.5"%string ->
  Calculator.doseUnit st = "mg_kg"%string ->
  Calculator.handleCalculate toStringLarge st
  = Calculator.setWeightDoseResult
      (Some "Total Dose: 35.00 mg. Volume to Administer: 0.35 mL."%string)
      (Calculator.clearResults st).
Proof.
  intros Ht Hw Hu Hc Hm Hd Hdu.
  rewrite (handleCalculate_weight_dose _ _ Ht), Hw, Hu, Hc, Hm, Hd, Hdu.
  reflexivity.
Qed.

Lemma weight_dose_example_witness :
  Calculator.weightDoseResult
    (Calculator.handleCalculate largeOmitted
       (Calculator.weightDoseForm "70" "kg" "100" "1" "0.5" "mg_kg"))
  = Some "Total Dose: 35.00 mg. Volume to Administer: 0.35 mL."%string.
Proof.
  rewrite (weight_dose_example largeOmitted
             (Calculator.weightDoseForm "70" "kg" "100" "1" "0.5" "mg_kg")
             eq_refl eq_refl eq_refl eq_refl eq_refl eq_refl eq_refl).
  reflexivity.
Defined.

Lemma totalDoseNeeded_zero_dose (du : string) (fw : Js.number) (s : bool) :
  Js.isFinite fw = true ->
  Js.strictEq (Calculator.totalDoseNeeded du fw (S754_zero s)) Js.zero = true.
Proof.
  intros Hf. destruct (mul_finite_zero fw s Hf) as [s' Hm].
  unfold Calculator.totalDoseNeeded. rewrite Hm.
  destruct (String.eqb du "mg_kg"); [reflexivity|].
  destruct (String.eqb du "mcg_kg"); [|reflexivity].
  now rewrite div_zero_1000.
Qed.

Lemma zero_accepted (val : string) :
  Js.strictEq (Js.parseFloat val) Js.zero = true -> accepted val.
Proof.
  intros H. apply strictEq_zero in H as [s Hs]. unfold accepted. rewrite Hs.
  split; reflexivity.
Qed.

(** C10 (as amended).  An input of exactly 0 passes the validation, which
    rejects only NaN and numbers below zero.  When the concentration (mg) and
    the required dose are both 0, the calculation succeeds with total dose
    0.00 mg and volume to administer 0.00 mL and no error exactly when the
    weight and the concentration volume are accepted, the volume is not zero
    and the total dose computed is zero, which it is for every finite weight;
    with an accepted weight and a volume of zero the handler reports
    "Concentration volume (mL) cannot be zero." instead, with a rejected
    weight or volume "Invalid input", and with a weight for which the total
    dose is not zero "Drug concentration (mg) cannot be zero if dose is
    required.". *)
Theorem zero_inputs_accepted :
  (forall val,
      Js.strictEq (Js.parseFloat val) Js.zero = true ->
      Calculator.parseNum val = Calculator.Ok (Js.parseFloat val))
  /\ (forall val,
         (Calculator.parseNum val = Calculator.Throw Calculator.invalidInput
          <-> Js.isNaN (Js.parseFloat val) = true
              \/ Js.lt (Js.parseFloat val) Js.zero = true)
         /\ (Calculator.parseNum val = Calculator.Ok (Js.parseFloat val)
             \/ Calculator.parseNum val = Calculator.Throw Calculator.invalidInput))
  /\ (forall toStringLarge st,
         Calculator.calculationType st = Calculator.WEIGHT_DOSE ->
         Js.strictEq (Js.parseFloat (Calculator.concMgPerMl st)) Js.zero = true ->
         Js.strictEq (Js.parseFloat (Calculator.doseRequired st)) Js.zero = true ->
         let st' := Calculator.handleCalculate toStringLarge st in
         let volumeZero := Js.strictEq (Js.parseFloat (Calculator.concMl st)) Js.zero in
         let finalWeightKg :=
           Calculator.finalWeightKg (Calculator.weightUnit st)
             (Js.parseFloat (Calculator.patientWeight st)) in
         let total := Calculator.totalDoseNeeded (Calculator.doseUnit st) finalWeightKg
                        (Js.parseFloat (Calculator.doseRequired st)) in
         (st' = Calculator.setWeightDoseResult (Some zeroDoseText)
                  (Calculator.clearResults st)
          <-> accepted (Calculator.patientWeight st) /\ accepted (Calculator.concMl st)
              /\ volumeZero = false /\ Js.strictEq total Js.zero = true)
         /\ (Js.isFinite finalWeightKg = true -> Js.strictEq total Js.zero = true)
         /\ (st' = Calculator.setError (Some Calculator.concVolumeZero)
                     (Calculator.clearResults st)
             <-> accepted (Calculator.patientWeight st)
                 /\ accepted (Calculator.concMl st) /\ volumeZero = true)
         /\ (st' = Calculator.setError (Some Calculator.invalidInput)
                     (Calculator.clearResults st)
             <-> ~ accepted (Calculator.patientWeight st)
                 \/ ~ accepted (Calculator.concMl st))
         /\ (st' = Calculator.setError (Some Calculator.drugConcZero)
                     (Calculator.clearResults st)
             <-> accepted (Calculator.patientWeight st)
                 /\ accepted (Calculator.concMl st)
                 /\ volumeZero = false /\ Js.strictEq total Js.zero = false)).
Proof.
  split; [exact parseNum_zero|]. split.
  - intros val. destruct (parseNum_cases val) as [[Hok [Hn Hl]]|[Hth Hor]].
    + split; [|now left]. rewrite Hok, Hn, Hl. split; [discriminate|].
      intros [?|?]; discriminate.
    + split; [|now right]. rewrite Hth. tauto.
  - intros toStringLarge st Ht Hc Hd. cbv zeta.
    destruct (handleCalculate_zero_conc toStringLarge st Ht Hc) as [He Hr].
    destruct (weightDose_zero_conc_outcome toStringLarge
                (Calculator.patientWeight st) (Calculator.weightUnit st)
                (Calculator.concMgPerMl st) (Calculator.concMl st)
                (Calculator.doseRequired st) (Calculator.doseUnit st) Hc)
      as (Hdz & Hz & Hv & Hi).
    pose proof (zero_accepted _ Hd) as Hacc.
    split; [|split; [|split; [|split]]].
    + rewrite Hr, Hz. tauto.
    + intros Hfin. apply strictEq_zero in Hd as [s ->].
      now apply totalDoseNeeded_zero_dose.
    + rewrite <- Hv. apply He. right. now left.
    + rewrite (He Calculator.invalidInput (or_introl eq_refl)), Hi. tauto.
    + rewrite (He Calculator.drugConcZero (or_intror (or_intror (or_introl eq_refl)))), Hdz.
      tauto.
Qed.

Lemma zero_inputs_accepted_witness :
  Calculator.parseNum "0" = Calculator.Ok Js.zero
  /\ Calculator.handleCalculate largeOmitted
       (Calculator.weightDoseForm "70" "lbs" "0" "1" "0" "mcg_kg")
     = Calculator.setWeightDoseResult (Some zeroDoseText)
         (Calculator.clearResults
            (Calculator.weightDoseForm "70" "lbs" "0" "1" "0" "mcg_kg")).
Proof.
  split.
  - apply (proj1 zero_inputs_accepted "0"%string). reflexivity.
  - apply (proj1 (proj2 (proj2 zero_inputs_accepted) largeOmitted
                    (Calculator.weightDoseForm "70" "lbs" "0" "1" "0" "mcg_kg")
                    eq_refl eq_refl eq_refl)).
    repeat split; reflexivity.
Defined.

(** C10 (as stated) fails: with a weight of 70 kg, a concentration of 0 mg in
    a volume of 0 mL, which the validation accepts, and a required dose of 0
    the handler reports "Concentration volume (mL) cannot be zero." and shows
    no result. *)
Lemma zero_volume_counterexample :
  ~ (forall (toStringLarge : Js.number -> string) (st : Calculator.State),
        Calculator.calculationType st = Calculator.WEIGHT_DOSE ->
        Js.strictEq (Js.parseFloat (Calculator.concMgPerMl st)) Js.zero = true ->
        Js.strictEq (Js.parseFloat (Calculator.doseRequired st)) Js.zero = true ->
        Calculator.weightDoseResult (Calculator.handleCalculate toStringLarge st)
        = Some zeroDoseText
        /\ Calculator.error (Calculator.handleCalculate toStringLarge st) = None).
Proof.
  intros H.
  destruct (H largeOmitted (Calculator.weightDoseForm "70" "kg" "0" "0" "0" "mg_kg")
              eq_refl eq_refl eq_refl) as [Hr _].
  discriminate Hr.
Qed.

(** ** What the handlers pass on, and worked examples *)

(** On a query that is not blank [handleSearch] shows the items of the
    library's results, as they come, for the options of the page (threshold
    0.4; weights 0.6, 0.5 and 0.2 for name, id and content). *)
Lemma handleSearch_relays (protocolsList : list SearchPage.Protocol)
      (search : Fuse.Options -> list SearchPage.Protocol -> string
                -> list (Fuse.Result SearchPage.Protocol))
      (st : SearchPage.State) :
  Js.allWhiteSpace (SearchPage.searchTerm st) = false ->
  SearchPage.searchResults (fst (SearchPage.handleSearch protocolsList search st))
  = map Fuse.item (search Fuse.fuseOptions protocolsList (SearchPage.searchTerm st))
  /\ snd (SearchPage.handleSearch protocolsList search st) = [SearchPage.searchTerm st].
Proof.
  intros Hq. unfold SearchPage.handleSearch.
  destruct (Js.truthy (Js.trim (SearchPage.searchTerm st))) eqn:Ht.
  - split; reflexivity.
  - apply trim_blank in Ht. congruence.
Qed.

(** The pool of the quiz route is the ANY-match filter of the corpus. *)
Lemma selectPool_Proceed (allProtocols pool : list QuizRoute.Protocol)
      (selected : list string) :
  QuizRoute.selectPool allProtocols selected = QuizRoute.Proceed pool ->
  pool = CategoryFilter.filterAny QuizRoute.categories selected allProtocols
  /\ pool <> [].
Proof.
  unfold QuizRoute.selectPool.
  destruct (CategoryFilter.filterAny QuizRoute.categories selected allProtocols)
    as [|p ps]; simpl; [discriminate|].
  intros [= <-]. split; [reflexivity | discriminate].
Qed.

Example cardiac_arrest_example :
  Chat.queryKeywords "what is cardiac arrest" = ["what"; "cardiac"; "arrest"]%string
  /\ Chat.scoreOf "what is cardiac arrest" cardiacArrest = 8
  /\ Chat.findRelevantProtocols [cardiacArrest] "what is cardiac arrest" = [cardiacArrest].
Proof. repeat split. Qed.

Example drip_rate_example :
  Calculator.dripRate largeOmitted "1000" "60" "60"
  = Calculator.Ok "Drip Rate: 1000 gtts/min."%string.
Proof. reflexivity. Qed.

(* ================================================================== *)
(** * Further properties of the code *)

(** ** Toggling filters and categories *)

Lemma neqb_filter_In (x y : string) (l : list string) :
  In y (filter (fun i => negb (String.eqb i x)) l) <-> y <> x /\ In y l.
Proof.
  rewrite filter_In. destruct (String.eqb_spec y x) as [->|Hne]; simpl.
  - split; [intros [_ H]; discriminate | intros [H _]; congruence].
  - tauto.
Qed.

Lemma neqb_filter_absent (x : string) (l : list string) :
  ~ In x l -> filter (fun i => negb (String.eqb i x)) l = l.
Proof.
  induction l as [|y l IH]; simpl; intros Hx; [reflexivity|].
  destruct (String.eqb_spec y x) as [->|Hne]; simpl.
  - exfalso. apply Hx. now left.
  - rewrite IH; [reflexivity | tauto].
Qed.

Lemma toggle_NoDup (id : string) (prev : list string) :
  NoDup prev -> NoDup (CategoryFilter.toggle id prev).
Proof.
  intros Hnd. unfold CategoryFilter.toggle.
  destruct (Js.arrayIncludes prev id) eqn:E; [now apply NoDup_filter|].
  apply NoDup_app; [assumption | repeat constructor; intros [] |].
  intros a Ha [<-|[]]. apply arrayIncludes_In in Ha. congruence.
Qed.

(** X1.  A click on a filter button flips the membership of that filter in
    the active list and of no other, and a list without duplicates stays
    without duplicates. *)
Theorem toggle_flips (id : string) (prev : list string) :
  NoDup prev ->
  NoDup (CategoryFilter.toggle id prev)
  /\ (In id (CategoryFilter.toggle id prev) <-> ~ In id prev)
  /\ (forall other, other <> id ->
        (In other (CategoryFilter.toggle id prev) <-> In other prev)).
Proof.
  intros Hnd. unfold CategoryFilter.toggle.
  destruct (Js.arrayIncludes prev id) eqn:E.
  - apply arrayIncludes_In in E. split; [now apply NoDup_filter|]. split.
    + rewrite neqb_filter_In. tauto.
    + intros other Hne. rewrite neqb_filter_In. tauto.
  - assert (Hout : ~ In id prev).
    { intros Hin. apply arrayIncludes_In in Hin. congruence. }
    split; [|split].
    + apply NoDup_app; [assumption | repeat constructor; intros [] |].
      intros a Ha [<-|[]]. contradiction.
    + rewrite in_app_iff. simpl. tauto.
    + intros other Hne. rewrite in_app_iff. simpl. split; [|tauto].
      intros [H|[H|[]]]; [assumption | congruence].
Qed.

Lemma toggle_flips_witness :
  NoDup ["adult"; "trauma"]%string
  /\ NoDup (CategoryFilter.toggle "adult" ["adult"; "trauma"]%string)
  /\ CategoryFilter.toggle "adult" ["adult"; "trauma"]%string = ["trauma"%string].
Proof.
  assert (Hnd : NoDup ["adult"; "trauma"]%string).
  { constructor; [intros [H|[]]; discriminate|].
    constructor; [intros []|constructor]. }
  split; [exact Hnd|]. split; [|reflexivity].
  exact (proj1 (toggle_flips "adult" ["adult"; "trauma"]%string Hnd)).
Defined.

(** X2.  Two clicks on a filter that was not active leave the active list as
    it was; two clicks on an active one leave the same filters active, the
    clicked one moved to the end. *)
Theorem toggle_twice (id : string) (prev : list string) :
  (~ In id prev -> CategoryFilter.toggle id (CategoryFilter.toggle id prev) = prev)
  /\ (In id prev ->
      CategoryFilter.toggle id (CategoryFilter.toggle id prev)
      = filter (fun i => negb (String.eqb i id)) prev ++ [id])
  /\ (forall x, In x (CategoryFilter.toggle id (CategoryFilter.toggle id prev))
                <-> In x prev).
Proof.
  assert (Hin : In id prev ->
                CategoryFilter.toggle id (CategoryFilter.toggle id prev)
                = filter (fun i => negb (String.eqb i id)) prev ++ [id]).
  { intros H.
    assert (E1 : Js.arrayIncludes prev id = true) by now apply arrayIncludes_In.
    unfold CategoryFilter.toggle. rewrite E1.
    destruct (Js.arrayIncludes (filter (fun i => negb (String.eqb i id)) prev) id)
      eqn:E2; [|reflexivity].
    apply arrayIncludes_In, neqb_filter_In in E2. tauto. }
  assert (Hout : ~ In id prev ->
                 CategoryFilter.toggle id (CategoryFilter.toggle id prev) = prev).
  { intros H.
    assert (E : Js.arrayIncludes prev id = false).
    { destruct (Js.arrayIncludes prev id) eqn:E; [|reflexivity].
      apply arrayIncludes_In in E. contradiction. }
    unfold CategoryFilter.toggle. rewrite E.
    assert (E' : Js.arrayIncludes (prev ++ [id]) id = true).
    { apply arrayIncludes_In, in_or_app. right. now left. }
    rewrite E', filter_app, (neqb_filter_absent _ _ H). simpl.
    rewrite String.eqb_refl. simpl. apply app_nil_r. }
  split; [exact Hout|]. split; [exact Hin|].
  intros x. destruct (in_dec string_dec id prev) as [H|H].
  - rewrite (Hin H), in_app_iff, neqb_filter_In. simpl.
    destruct (string_dec x id) as [->|Hne]; [tauto|].
    split; [intros [[_ Hx]|[Hx|[]]]; [assumption | congruence] | tauto].
  - now rewrite (Hout H).
Qed.

(** ** The ALL-match and ANY-match filters *)

Lemma filterAll_filter {T : Type} (categories : T -> option (list string))
      (fs : list string) (l : list T) :
  CategoryFilter.filterAll categories fs l
  = filter (fun p => forallb (fun f => CategoryFilter.hasCategory categories p f) fs) l.
Proof.
  unfold CategoryFilter.filterAll. destruct fs as [|f fs]; simpl; [|reflexivity].
  induction l as [|p l IH]; simpl; congruence.
Qed.

Lemma filterAny_filter {T : Type} (categories : T -> option (list string))
      (sel : list string) (l : list T) :
  sel <> [] ->
  CategoryFilter.filterAny categories sel l
  = filter (fun p => existsb (fun c => CategoryFilter.hasCategory categories p c) sel) l.
Proof.
  intros Hsel. unfold CategoryFilter.filterAny.
  destruct sel as [|s sel]; [congruence|]. cbn [List.length Nat.eqb negb].
  apply filter_ext. intros p. unfold CategoryFilter.hasCategory.
  destruct (categories p) as [cs|].
  - apply eq_true_iff_eq. rewrite !existsb_exists. split.
    + intros [c [Hc Hin]]. apply arrayIncludes_In in Hin.
      exists c. split; [assumption | now apply arrayIncludes_In].
    + intros [c [Hc Hin]]. apply arrayIncludes_In in Hin.
      exists c. split; [assumption | now apply arrayIncludes_In].
  - symmetry. apply not_true_is_false. rewrite existsb_exists.
    intros [c [_ H]]. discriminate.
Qed.

(** X3.  The ALL-match filter composes: filtering by two lists of filters at
    once is filtering by the first and then by the second; so one more
    active filter narrows the list shown to those of its protocols that carry
    that filter. *)
Theorem filterAll_app {T : Type} (categories : T -> option (list string))
        (fs gs : list string) (l : list T) :
  CategoryFilter.filterAll categories (fs ++ gs) l
  = CategoryFilter.filterAll categories gs (CategoryFilter.filterAll categories fs l)
  /\ (forall f,
        CategoryFilter.filterAll categories (fs ++ [f]) l
        = filter (fun p => CategoryFilter.hasCategory categories p f)
                 (CategoryFilter.filterAll categories fs l)).
Proof.
  assert (H : forall hs,
             CategoryFilter.filterAll categories (fs ++ hs) l
             = CategoryFilter.filterAll categories hs
                 (CategoryFilter.filterAll categories fs l)).
  { intros hs. rewrite !filterAll_filter, filter_filter.
    apply filter_ext. intros p. apply forallb_app. }
  split; [apply H|].
  intros f. rewrite H, filterAll_filter. apply filter_ext. intros p.
  simpl. apply andb_true_r.
Qed.

(** X4.  The ALL-match filter looks at which filters are active only, not at
    their order nor at repetitions in the list. *)
Theorem filterAll_same_filters {T : Type} (categories : T -> option (list string))
        (fs gs : list string) (l : list T) :
  (forall f, In f fs <-> In f gs) ->
  CategoryFilter.filterAll categories fs l = CategoryFilter.filterAll categories gs l.
Proof.
  intros Hsame. rewrite !filterAll_filter. apply filter_ext. intros p.
  apply eq_true_iff_eq. rewrite !forallb_forall.
  split; intros H f Hf; apply H, Hsame, Hf.
Qed.

Lemma filterAll_same_filters_witness :
  CategoryFilter.filterAll Home.categories ["pediatric"; "adult"; "adult"]%string
                           [pediatricAirway; crushInjury]
  = CategoryFilter.filterAll Home.categories ["adult"; "pediatric"]%string
                             [pediatricAirway; crushInjury].
Proof.
  apply (filterAll_same_filters Home.categories).
  intros f. simpl. tauto.
Defined.

(** X5.  For a selection that is not empty, what the ALL-match filter keeps
    the ANY-match filter keeps too: the ALL-match result is the ALL-match
    filter of the ANY-match result; and both keep the corpus order, each
    result being the corpus with some protocols left out. *)
Theorem filterAll_within_filterAny {T : Type} (categories : T -> option (list string))
        (sel : list string) (l : list T) :
  CategoryFilter.filterAll categories sel (CategoryFilter.filterAny categories sel l)
  = CategoryFilter.filterAll categories sel l
  /\ (exists keep, CategoryFilter.filterAll categories sel l = filter keep l)
  /\ (exists keep, CategoryFilter.filterAny categories sel l = filter keep l).
Proof.
  destruct sel as [|s sel].
  { split; [reflexivity|]. split; exists (fun _ => true); simpl;
      symmetry; apply forallb_filter_id; now apply forallb_forall. }
  assert (Hne : s :: sel <> []) by discriminate.
  split; [|split].
  - rewrite (filterAny_filter _ _ _ Hne), !filterAll_filter, filter_filter.
    apply filter_ext. intros p. simpl.
    destruct (CategoryFilter.hasCategory categories p s); simpl;
      [reflexivity | apply andb_false_r].
  - eexists. apply filterAll_filter.
  - eexists. apply (filterAny_filter _ _ _ Hne).
Qed.

Lemma toggle_twice_witness :
  CategoryFilter.toggle "adult" (CategoryFilter.toggle "adult" ["trauma"%string])
  = ["trauma"%string]
  /\ CategoryFilter.toggle "adult"
       (CategoryFilter.toggle "adult" ["adult"; "trauma"]%string)
     = ["trauma"; "adult"]%string.
Proof.
  split.
  - apply (proj1 (toggle_twice "adult" ["trauma"%string])).
    intros [H|[]]. discriminate.
  - apply (proj1 (proj2 (toggle_twice "adult" ["adult"; "trauma"]%string))).
    now left.
Defined.

(** ** The page with category filters as a whole *)

(** The effect leaves the page showing what [shown] says, and never leaves
    the spinner on. *)
Lemma runEffect_shown (protocolsList : list Home.Protocol)
      (search : Fuse.Options -> list Home.Protocol -> string
                -> list (Fuse.Result Home.Protocol))
      (st : Home.State) :
  Home.isSearching st = false ->
  Home.runEffect protocolsList search st
  = Home.setSearchResults
      (shown protocolsList search (Home.searchTerm st) (Home.activeFilters st)) st.
Proof.
  intros Hs. unfold Home.runEffect, Home.applyFiltersAndSearch, shown.
  destruct (Js.truthy (Js.trim (Home.searchTerm st))) eqn:Ht; simpl.
  - destruct (Js.allWhiteSpace (Home.searchTerm st)) eqn:Hw.
    { apply trim_blank in Hw. congruence. }
    destruct st as [q r i c a o]. simpl in *. subst i. reflexivity.
  - pose proof Ht as Hw. apply trim_blank in Hw. rewrite Hw. reflexivity.
Qed.

Lemma step_inSync (protocolsList : list Home.Protocol)
      (search : Fuse.Options -> list Home.Protocol -> string
                -> list (Fuse.Result Home.Protocol))
      (st : Home.State) (ev : Home.Event) :
  inSync protocolsList search st ->
  inSync protocolsList search (Home.step protocolsList search st ev).
Proof.
  intros [Hnd [Hs Hr]]. destruct ev as [value|filterId| | | |]; simpl.
  - destruct (String.eqb value (Home.searchTerm st)); [now repeat split|].
    rewrite runEffect_shown by exact Hs. now repeat split.
  - rewrite runEffect_shown by exact Hs. repeat split; simpl; try assumption.
    now apply toggle_NoDup.
  - rewrite runEffect_shown by exact Hs. repeat split; simpl; try assumption.
    constructor.
  - now repeat split.
  - now repeat split.
  - now repeat split.
Qed.

(** X6.  Whatever the user does on the page with category filters (typing,
    toggling filters, clearing them, switching to the chat, opening the
    calculator), the page then shows what its search term and active filters
    call for: the corpus narrowed by the filters when the term is blank, the
    items of the library's results over that narrowed corpus otherwise; the
    list of active filters has no duplicate and the spinner is off. *)
Theorem home_results_in_sync (protocolsList : list Home.Protocol)
        (search : Fuse.Options -> list Home.Protocol -> string
                  -> list (Fuse.Result Home.Protocol))
        (events : list Home.Event) :
  let st := Home.run protocolsList search events in
  NoDup (Home.activeFilters st)
  /\ Home.isSearching st = false
  /\ Home.searchResults st
     = if Js.allWhiteSpace (Home.searchTerm st) then
         CategoryFilter.filterAll Home.categories (Home.activeFilters st) protocolsList
       else
         map Fuse.item
             (search Fuse.fuseOptions
                (CategoryFilter.filterAll Home.categories (Home.activeFilters st)
                                          protocolsList)
                (Home.searchTerm st)).
Proof.
  cbv zeta. unfold Home.run.
  assert (H0 : inSync protocolsList search (Home.mounted protocolsList search)).
  { unfold Home.mounted. rewrite runEffect_shown by reflexivity.
    repeat split. constructor. }
  revert H0. generalize (Home.mounted protocolsList search).
  induction events as [|ev events IH]; intros st Hst; simpl.
  - exact Hst.
  - apply IH, step_inSync, Hst.
Qed.

(** ** The calculator: one press of Calculate *)

(** The four lines after [handleCalculate], by calculation type. *)
Lemma handleCalculate_cases (toStringLarge : Js.number -> string)
      (st : Calculator.State) :
  let out (r : Calculator.Exc string) (place : string -> Calculator.State) :=
    match r with
    | Calculator.Ok text => place text
    | Calculator.Throw message =>
        Calculator.withLines None None None (Some (shownMessage message)) st
    end in
  Calculator.handleCalculate toStringLarge st
  = if String.eqb (Calculator.calculationType st) Calculator.WEIGHT_DOSE then
      out (Calculator.weightDose toStringLarge
             (Calculator.patientWeight st) (Calculator.weightUnit st)
             (Calculator.concMgPerMl st) (Calculator.concMl st)
             (Calculator.doseRequired st) (Calculator.doseUnit st))
          (fun text => Calculator.withLines (Some text) None None None st)
    else if String.eqb (Calculator.calculationType st) Calculator.DRIP_RATE then
      out (Calculator.dripRate toStringLarge (Calculator.totalVolume st)
             (Calculator.totalTime st) (Calculator.dripSet st))
          (fun text => Calculator.withLines None (Some text) None None st)
    else if String.eqb (Calculator.calculationType st) Calculator.CONVERSION_LBS_KG then
      out (Calculator.lbsToKg toStringLarge (Calculator.inputValue st))
          (fun text => Calculator.withLines None None (Some text) None st)
    else if String.eqb (Calculator.calculationType st) Calculator.CONVERSION_KG_LBS then
      out (Calculator.kgToLbs toStringLarge (Calculator.inputValue st))
          (fun text => Calculator.withLines None None (Some text) None st)
    else Calculator.withLines None None None None st.
Proof.
  cbv zeta. unfold Calculator.handleCalculate, Calculator.calculate, Calculator.bind.
  change (Calculator.calculationType (Calculator.clearResults st))
    with (Calculator.calculationType st).
  change (Calculator.patientWeight (Calculator.clearResults st))
    with (Calculator.patientWeight st).
  change (Calculator.weightUnit (Calculator.clearResults st))
    with (Calculator.weightUnit st).
  change (Calculator.concMgPerMl (Calculator.clearResults st))
    with (Calculator.concMgPerMl st).
  change (Calculator.concMl (Calculator.clearResults st))
    with (Calculator.concMl st).
  change (Calculator.doseRequired (Calculator.clearResults st))
    with (Calculator.doseRequired st).
  change (Calculator.doseUnit (Calculator.clearResults st))
    with (Calculator.doseUnit st).
  change (Calculator.totalVolume (Calculator.clearResults st))
    with (Calculator.totalVolume st).
  change (Calculator.totalTime (Calculator.clearResults st))
    with (Calculator.totalTime st).
  change (Calculator.dripSet (Calculator.clearResults st))
    with (Calculator.dripSet st).
  change (Calculator.inputValue (Calculator.clearResults st))
    with (Calculator.inputValue st).
  destruct (String.eqb (Calculator.calculationType st) Calculator.WEIGHT_DOSE).
  { destruct (Calculator.weightDose _ _ _ _ _ _ _); reflexivity. }
  destruct (String.eqb (Calculator.calculationType st) Calculator.DRIP_RATE).
  { destruct (Calculator.dripRate _ _ _ _); reflexivity. }
  destruct (String.eqb (Calculator.calculationType st) Calculator.CONVERSION_LBS_KG).
  { destruct (Calculator.lbsToKg _ _); reflexivity. }
  destruct (String.eqb (Calculator.calculationType st) Calculator.CONVERSION_KG_LBS).
  { destruct (Calculator.kgToLbs _ _); reflexivity. }
  reflexivity.
Qed.

Lemma handleCalculate_withLines (toStringLarge : Js.number -> string)
      (w d c e : option string) (st : Calculator.State) :
  Calculator.handleCalculate toStringLarge (Calculator.withLines w d c e st)
  = Calculator.handleCalculate toStringLarge st.
Proof. reflexivity. Qed.

Lemma handleCalculate_lines (toStringLarge : Js.number -> string)
      (st : Calculator.State) :
  exists w d c e,
    Calculator.handleCalculate toStringLarge st = Calculator.withLines w d c e st.
Proof.
  rewrite handleCalculate_cases. cbv zeta.
  destruct (String.eqb (Calculator.calculationType st) Calculator.WEIGHT_DOSE).
  { destruct (Calculator.weightDose _ _ _ _ _ _ _); repeat eexists. }
  destruct (String.eqb (Calculator.calculationType st) Calculator.DRIP_RATE).
  { destruct (Calculator.dripRate _ _ _ _); repeat eexists. }
  destruct (String.eqb (Calculator.calculationType st) Calculator.CONVERSION_LBS_KG).
  { destruct (Calculator.lbsToKg _ _); repeat eexists. }
  destruct (String.eqb (Calculator.calculationType st) Calculator.CONVERSION_KG_LBS).
  { destruct (Calculator.kgToLbs _ _); repeat eexists. }
  repeat eexists.
Qed.

(** X7.  Calculate changes nothing but the three result lines and the error
    line, and pressing it again without touching the inputs shows the same
    thing. *)
Theorem handleCalculate_idempotent (toStringLarge : Js.number -> string)
        (st : Calculator.State) :
  let st' := Calculator.handleCalculate toStringLarge st in
  Calculator.handleCalculate toStringLarge st' = st'
  /\ st' = Calculator.withLines (Calculator.weightDoseResult st')
             (Calculator.dripRateResult st') (Calculator.conversionResult st')
             (Calculator.error st') st.
Proof.
  cbv zeta. destruct (handleCalculate_lines toStringLarge st) as [w [d [c [e H]]]].
  split.
  - rewrite H at 1. rewrite handleCalculate_withLines. reflexivity.
  - rewrite H. reflexivity.
Qed.

Lemma weightDose_throws (toStringLarge : Js.number -> string)
      (pw wu cmg cml dr du message : string) :
  Calculator.weightDose toStringLarge pw wu cmg cml dr du = Calculator.Throw message ->
  In message [Calculator.invalidInput; Calculator.concVolumeZero;
              Calculator.drugConcZero].
Proof.
  unfold Calculator.weightDose, Calculator.bind.
  destruct (Calculator.parseNum pw) as [w|m] eqn:Hw.
  2:{ intros [= <-]. left. symmetry. exact (parseNum_Throw _ _ Hw). }
  destruct (Calculator.parseNum cmg) as [c|m] eqn:Hc.
  2:{ intros [= <-]. left. symmetry. exact (parseNum_Throw _ _ Hc). }
  destruct (Calculator.parseNum cml) as [v|m] eqn:Hv.
  2:{ intros [= <-]. left. symmetry. exact (parseNum_Throw _ _ Hv). }
  destruct (Js.strictEq v Js.zero).
  { intros [= <-]. right. now left. }
  destruct (Calculator.parseNum dr) as [d|m] eqn:Hd.
  2:{ intros [= <-]. left. symmetry. exact (parseNum_Throw _ _ Hd). }
  destruct (_ && _).
  { intros [= <-]. right. right. now left. }
  destruct (Js.strictEq _ Js.Infinity); discriminate.
Qed.

Lemma dripRate_throws (toStringLarge : Js.number -> string)
      (tv tt ds message : string) :
  Calculator.dripRate toStringLarge tv tt ds = Calculator.Throw message ->
  In message [Calculator.invalidInput; Calculator.timeZero].
Proof.
  unfold Calculator.dripRate, Calculator.bind.
  destruct (Calculator.parseNum tv) as [v|m] eqn:Hv.
  2:{ intros [= <-]. left. symmetry. exact (parseNum_Throw _ _ Hv). }
  destruct (Calculator.parseNum tt) as [t|m] eqn:Ht.
  2:{ intros [= <-]. left. symmetry. exact (parseNum_Throw _ _ Ht). }
  destruct (Calculator.parseNum ds) as [d|m] eqn:Hd.
  2:{ intros [= <-]. left. symmetry. exact (parseNum_Throw _ _ Hd). }
  destruct (Js.strictEq t Js.zero); [|discriminate].
  intros [= <-]. right. now left.
Qed.

Lemma lbsToKg_throws (toStringLarge : Js.number -> string) (iv message : string) :
  Calculator.lbsToKg toStringLarge iv = Calculator.Throw message ->
  message = Calculator.invalidInput.
Proof.
  unfold Calculator.lbsToKg, Calculator.bind.
  destruct (Calculator.parseNum iv) as [v|m] eqn:Hv; [discriminate|].
  intros [= <-]. exact (parseNum_Throw _ _ Hv).
Qed.

Lemma kgToLbs_throws (toStringLarge : Js.number -> string) (iv message : string) :
  Calculator.kgToLbs toStringLarge iv = Calculator.Throw message ->
  message = Calculator.invalidInput.
Proof.
  unfold Calculator.kgToLbs, Calculator.bind.
  destruct (Calculator.parseNum iv) as [v|m] eqn:Hv; [discriminate|].
  intros [= <-]. exact (parseNum_Throw _ _ Hv).
Qed.

(** X8.  After Calculate at most one of the four lines is set.  An error is
    one of the four messages of the code (never the "unexpected error"
    text) and comes with no result; a result line is the one of the
    selected calculation type. *)
Theorem handleCalculate_one_line (toStringLarge : Js.number -> string)
        (st : Calculator.State) :
  let st' := Calculator.handleCalculate toStringLarge st in
  (forall message,
      Calculator.error st' = Some message ->
      In message [Calculator.invalidInput; Calculator.concVolumeZero;
                  Calculator.drugConcZero; Calculator.timeZero]
      /\ Calculator.weightDoseResult st' = None
      /\ Calculator.dripRateResult st' = None
      /\ Calculator.conversionResult st' = None)
  /\ (Calculator.weightDoseResult st' <> None ->
      Calculator.calculationType st = Calculator.WEIGHT_DOSE
      /\ Calculator.dripRateResult st' = None
      /\ Calculator.conversionResult st' = None)
  /\ (Calculator.dripRateResult st' <> None ->
      Calculator.calculationType st = Calculator.DRIP_RATE
      /\ Calculator.weightDoseResult st' = None
      /\ Calculator.conversionResult st' = None)
  /\ (Calculator.conversionResult st' <> None ->
      (Calculator.calculationType st = Calculator.CONVERSION_LBS_KG
       \/ Calculator.calculationType st = Calculator.CONVERSION_KG_LBS)
      /\ Calculator.weightDoseResult st' = None
      /\ Calculator.dripRateResult st' = None).
Proof.
  cbv zeta. rewrite handleCalculate_cases. cbv zeta.
  destruct (String.eqb_spec (Calculator.calculationType st) Calculator.WEIGHT_DOSE)
    as [Ht|_].
  { destruct (Calculator.weightDose _ _ _ _ _ _ _) as [text|m] eqn:E; simpl.
    - repeat split; try discriminate; try congruence; exact Ht.
    - apply weightDose_throws in E.
      repeat split; try congruence.
      injection H as <-. simpl in E.
      destruct E as [ <- | [ <- | [ <- | [] ] ] ]; simpl; tauto. }
  destruct (String.eqb_spec (Calculator.calculationType st) Calculator.DRIP_RATE)
    as [Ht|_].
  { destruct (Calculator.dripRate _ _ _ _) as [text|m] eqn:E; simpl.
    - repeat split; try discriminate; try congruence; exact Ht.
    - apply dripRate_throws in E.
      repeat split; try congruence.
      injection H as <-. simpl in E.
      destruct E as [ <- | [ <- | [] ] ]; simpl; tauto. }
  destruct (String.eqb_spec (Calculator.calculationType st)
                            Calculator.CONVERSION_LBS_KG) as [Ht|_].
  { destruct (Calculator.lbsToKg _ _) as [text|m] eqn:E; simpl.
    - repeat split; try discriminate; try congruence. now left.
    - apply lbsToKg_throws in E. subst m.
      repeat split; try congruence.
      injection H as <-. simpl. tauto. }
  destruct (String.eqb_spec (Calculator.calculationType st)
                            Calculator.CONVERSION_KG_LBS) as [Ht|_].
  { destruct (Calculator.kgToLbs _ _) as [text|m] eqn:E; simpl.
    - repeat split; try discriminate; try congruence. now right.
    - apply kgToLbs_throws in E. subst m.
      repeat split; try congruence.
      injection H as <-. simpl. tauto. }
  simpl. repeat split; try discriminate; try congruence.
Qed.

(** ** The calculator: which inputs give which line *)

(** X9.  The drip rate: a result line exactly when the volume, the time and
    the drip set are all accepted and the time is not zero; "Time cannot be
    zero." exactly when all three are accepted and the time is zero (a zero
    time next to a rejected input is reported as invalid input); and
    "Invalid input" exactly when one of the three is rejected. *)
Theorem dripRate_outcome (toStringLarge : Js.number -> string)
        (totalVolume totalTime dripSet : string) :
  let allAccepted := accepted totalVolume /\ accepted totalTime /\ accepted dripSet in
  let r := Calculator.dripRate toStringLarge totalVolume totalTime dripSet in
  ((exists text, r = Calculator.Ok text)
   <-> allAccepted /\ Js.strictEq (Js.parseFloat totalTime) Js.zero = false)
  /\ (r = Calculator.Throw Calculator.timeZero
      <-> allAccepted /\ Js.strictEq (Js.parseFloat totalTime) Js.zero = true)
  /\ (r = Calculator.Throw Calculator.invalidInput <-> ~ allAccepted).
Proof.
  cbv zeta. unfold Calculator.dripRate, Calculator.bind.
  destruct (accepted_dec totalVolume) as [Hv|Hv].
  2:{ rewrite (parseNum_rejected _ Hv). outcome. }
  destruct (accepted_dec totalTime) as [Ht|Ht].
  2:{ rewrite (parseNum_accepted _ Hv), (parseNum_rejected _ Ht). outcome. }
  destruct (accepted_dec dripSet) as [Hs|Hs].
  2:{ rewrite (parseNum_accepted _ Hv), (parseNum_accepted _ Ht),
        (parseNum_rejected _ Hs). outcome. }
  rewrite (parseNum_accepted _ Hv), (parseNum_accepted _ Ht), (parseNum_accepted _ Hs).
  destruct (Js.strictEq (Js.parseFloat totalTime) Js.zero); outcome.
Qed.

(** X10.  The weight-based dose: "Concentration volume (mL) cannot be zero."
    exactly when the weight and both concentration inputs are accepted and
    the volume is zero, whatever the dose field holds; a result line only
    when all four inputs are accepted and the concentration volume is not
    zero; "Invalid input" exactly when the weight or a concentration input is
    rejected, or the dose is rejected next to a nonzero volume. *)
Theorem weightDose_outcome (toStringLarge : Js.number -> string)
        (patientWeight weightUnit concMgPerMl concMl doseRequired doseUnit : string) :
  let firstThree := accepted patientWeight /\ accepted concMgPerMl /\ accepted concMl in
  let volumeZero := Js.strictEq (Js.parseFloat concMl) Js.zero in
  let r := Calculator.weightDose toStringLarge patientWeight weightUnit concMgPerMl
                                 concMl doseRequired doseUnit in
  (r = Calculator.Throw Calculator.concVolumeZero <-> firstThree /\ volumeZero = true)
  /\ ((exists text, r = Calculator.Ok text) ->
      firstThree /\ volumeZero = false /\ accepted doseRequired)
  /\ (r = Calculator.Throw Calculator.invalidInput
      <-> ~ firstThree \/ (volumeZero = false /\ ~ accepted doseRequired)).
Proof.
  cbv zeta. unfold Calculator.weightDose, Calculator.bind.
  destruct (accepted_dec patientWeight) as [Hw|Hw].
  2:{ rewrite (parseNum_rejected _ Hw). outcome. }
  destruct (accepted_dec concMgPerMl) as [Hc|Hc].
  2:{ rewrite (parseNum_accepted _ Hw), (parseNum_rejected _ Hc). outcome. }
  destruct (accepted_dec concMl) as [Hv|Hv].
  2:{ rewrite (parseNum_accepted _ Hw), (parseNum_accepted _ Hc),
        (parseNum_rejected _ Hv). outcome. }
  rewrite (parseNum_accepted _ Hw), (parseNum_accepted _ Hc), (parseNum_accepted _ Hv).
  destruct (Js.strictEq (Js.parseFloat concMl) Js.zero); [outcome|].
  destruct (accepted_dec doseRequired) as [Hd|Hd].
  2:{ rewrite (parseNum_rejected _ Hd). outcome. }
  rewrite (parseNum_accepted _ Hd).
  destruct (_ && _); [outcome|].
  destruct (Js.strictEq _ Js.Infinity); outcome.
Qed.

(** X11.  The line "Cannot calculate volume: Drug concentration is zero but
    dose is required." is shown only when the concentration is not zero: with
    a zero concentration the error thrown before pre-empts it, and the line
    stands for a division that gave Infinity. *)
Theorem cannotCalculate_only_nonzero (toStringLarge : Js.number -> string)
        (patientWeight weightUnit concMgPerMl concMl doseRequired doseUnit : string) :
  Calculator.weightDose toStringLarge patientWeight weightUnit concMgPerMl concMl
                        doseRequired doseUnit
  = Calculator.Ok Calculator.cannotCalculate ->
  let drugConcPerMl := Js.div (Js.parseFloat concMgPerMl) (Js.parseFloat concMl) in
  let totalDoseNeeded :=
    Calculator.totalDoseNeeded doseUnit
      (Calculator.finalWeightKg weightUnit (Js.parseFloat patientWeight))
      (Js.parseFloat doseRequired) in
  Js.strictEq drugConcPerMl Js.zero = false
  /\ Js.div totalDoseNeeded drugConcPerMl = Js.Infinity.
Proof.
  cbv zeta. unfold Calculator.weightDose, Calculator.bind.
  destruct (Calculator.parseNum patientWeight) as [w|m] eqn:Hw; [|discriminate].
  destruct (Calculator.parseNum concMgPerMl) as [c|m] eqn:Hc; [|discriminate].
  destruct (Calculator.parseNum concMl) as [v|m] eqn:Hv; [|discriminate].
  destruct (Js.strictEq v Js.zero); [discriminate|].
  destruct (Calculator.parseNum doseRequired) as [d|m] eqn:Hd; [|discriminate].
  apply parseNum_Ok in Hw as [-> _]. apply parseNum_Ok in Hc as [-> _].
  apply parseNum_Ok in Hv as [-> _]. apply parseNum_Ok in Hd as [-> _].
  destruct (Js.strictEq (Js.div _ _) Js.zero) eqn:Hz.
  - destruct (Js.strictEq (Calculator.totalDoseNeeded _ _ _) Js.zero) eqn:Ht;
      simpl; [|discriminate].
    unfold Calculator.volumeToAdminister. rewrite Hz, Ht. simpl.
    unfold Calculator.weightDoseText. simpl. discriminate.
  - simpl. unfold Calculator.volumeToAdminister. rewrite Hz.
    destruct (Js.strictEq (Js.div _ _) Js.Infinity) eqn:Hi.
    + intros _. split; [reflexivity|].
      revert Hi. generalize (Js.div (Calculator.totalDoseNeeded doseUnit
                               (Calculator.finalWeightKg weightUnit
                                  (Js.parseFloat patientWeight))
                               (Js.parseFloat doseRequired))
                            (Js.div (Js.parseFloat concMgPerMl) (Js.parseFloat concMl))).
      intros x. destruct x as [s|s| |s m e]; simpl; try discriminate;
        destruct s; try discriminate; reflexivity.
    + unfold Calculator.weightDoseText. simpl. discriminate.
Qed.

Lemma cannotCalculate_only_nonzero_witness :
  Calculator.weightDose largeOmitted "1e308" "kg" "1" "1" "10" "mg_kg"
  = Calculator.Ok Calculator.cannotCalculate
  /\ Js.strictEq (Js.div (Js.parseFloat "1") (Js.parseFloat "1")) Js.zero = false.
Proof.
  split; [reflexivity|].
  exact (proj1 (cannotCalculate_only_nonzero largeOmitted "1e308" "kg" "1" "1" "10"
                  "mg_kg" eq_refl)).
Defined.

(** X12.  After Clear Inputs, and so after a change of the calculation type,
    Calculate in any of the four modes reports "Invalid input" and shows no
    result: the emptied fields do not parse. *)
Theorem calculate_after_clear (toStringLarge : Js.number -> string)
        (st : Calculator.State) :
  In (Calculator.calculationType st)
     [Calculator.WEIGHT_DOSE; Calculator.DRIP_RATE; Calculator.CONVERSION_LBS_KG;
      Calculator.CONVERSION_KG_LBS] ->
  Calculator.handleCalculate toStringLarge (Calculator.clearInputs st)
  = Calculator.setError (Some Calculator.invalidInput) (Calculator.clearInputs st)
  /\ (forall previous,
         Calculator.calculationType previous <> Calculator.calculationType st ->
         Calculator.handleCalculate toStringLarge
           (Calculator.selectCalculationType (Calculator.calculationType st) previous)
         = Calculator.setError (Some Calculator.invalidInput)
             (Calculator.selectCalculationType (Calculator.calculationType st) previous)).
Proof.
  intros Hty.
  assert (H : forall s, Calculator.calculationType s = Calculator.calculationType st ->
                        Calculator.handleCalculate toStringLarge (Calculator.clearInputs s)
                        = Calculator.setError (Some Calculator.invalidInput)
                                              (Calculator.clearInputs s)).
  { intros s Hs. rewrite handleCalculate_cases. cbv zeta.
    change (Calculator.calculationType (Calculator.clearInputs s))
      with (Calculator.calculationType s). rewrite Hs.
    simpl in Hty. destruct Hty as [ <- | [ <- | [ <- | [ <- | [] ] ] ] ]; reflexivity. }
  split; [now apply H|].
  intros previous Hne. unfold Calculator.selectCalculationType.
  destruct (String.eqb_spec (Calculator.calculationType st)
                            (Calculator.calculationType previous)) as [E|_];
    [congruence|].
  now apply H.
Qed.

Lemma calculate_after_clear_witness :
  Calculator.error
    (Calculator.handleCalculate largeOmitted
       (Calculator.clearInputs
          (Calculator.weightDoseForm "70" "kg" "100" "1" "0.5" "mg_kg")))
  = Some Calculator.invalidInput.
Proof.
  rewrite (proj1 (calculate_after_clear largeOmitted
                    (Calculator.weightDoseForm "70" "kg" "100" "1" "0.5" "mg_kg")
                    (or_introl eq_refl))).
  reflexivity.
Defined.

(** ** The keyword-overlap scorer: what is returned and what is not *)

Lemma score_points_bonus (query : string) (p : Chat.Protocol) :
  Chat.scoreOf query p
  = list_sum (map (ChatSpec.points p) (Chat.queryKeywords query))
    + ChatSpec.bonus
        (List.length
           (filter (fun t => Js.includes (Js.toLowerCase (Chat.name p)) t)
                   (Chat.queryKeywords query)))
        (List.length
           (filter (fun t => Js.includes (Js.toLowerCase (Chat.content p)) t)
                   (Chat.queryKeywords query))).
Proof.
  unfold Chat.scoreOf, Chat.scoreProtocol. cbv zeta. simpl Chat.score.
  rewrite forEach_points. unfold ChatSpec.bonus. simpl.
  destruct (1 <? _), (1 <? _); lia.
Qed.

Lemma points_positive (p : Chat.Protocol) (kw : string) :
  0 < ChatSpec.points p kw <-> mentions p kw = true.
Proof.
  unfold ChatSpec.points, mentions.
  destruct (Js.includes (Js.toLowerCase (Chat.name p)) kw),
           (Js.includes (Js.toLowerCase (Chat.content p)) kw); simpl;
    split; intros; try lia; try reflexivity; discriminate.
Qed.

Lemma list_sum_positive {A : Type} (f : A -> nat) (l : list A) :
  0 < list_sum (map f l) <-> exists a, In a l /\ 0 < f a.
Proof.
  induction l as [|x l IH]; simpl.
  - split; [lia | intros [a [[] _]]].
  - split.
    + intros H. destruct (Nat.eq_dec (f x) 0) as [E|E].
      * rewrite E in H. apply IH in H as [a [Ha Hf]]. exists a. tauto.
      * exists x. split; [now left | lia].
    + intros [a [[<-|Ha] Hf]]; [lia|].
      assert (0 < list_sum (map f l)) by (apply IH; now exists a). lia.
Qed.

Lemma filter_length_positive {A : Type} (f : A -> bool) (l : list A) :
  0 < List.length (filter f l) -> exists a, In a l /\ f a = true.
Proof.
  destruct (filter f l) as [|a t] eqn:E; simpl; [lia|]. intros _.
  assert (Ha : In a (filter f l)) by (rewrite E; now left).
  apply filter_In in Ha. now exists a.
Qed.

Lemma score_positive_iff (query : string) (p : Chat.Protocol) :
  0 < Chat.scoreOf query p
  <-> exists kw, In kw (Chat.queryKeywords query) /\ mentions p kw = true.
Proof.
  rewrite score_points_bonus. split.
  - intros H.
    destruct (Nat.eq_dec (list_sum (map (ChatSpec.points p) (Chat.queryKeywords query))) 0)
      as [E|E].
    + rewrite E in H. unfold ChatSpec.bonus in H.
      destruct (1 <? _) eqn:E1 in H.
      * apply Nat.ltb_lt in E1.
        destruct (filter_length_positive _ _ (Nat.lt_trans _ _ _ Nat.lt_0_1 E1))
          as [kw [Hin Hm]].
        exists kw. split; [assumption|]. unfold mentions. now rewrite Hm.
      * destruct (1 <? _) eqn:E2 in H; [|lia].
        apply Nat.ltb_lt in E2.
        destruct (filter_length_positive _ _ (Nat.lt_trans _ _ _ Nat.lt_0_1 E2))
          as [kw [Hin Hm]].
        exists kw. split; [assumption|]. unfold mentions. rewrite Hm. apply orb_true_r.
    + assert (Hpos : 0 < list_sum (map (ChatSpec.points p) (Chat.queryKeywords query)))
        by lia.
      apply list_sum_positive in Hpos as [kw [Hin Hp]].
      exists kw. split; [assumption | now apply points_positive].
  - intros [kw [Hin Hm]].
    assert (0 < list_sum (map (ChatSpec.points p) (Chat.queryKeywords query))).
    { apply list_sum_positive. exists kw. split; [assumption|].
      now apply points_positive. }
    lia.
Qed.

Lemma no_keywords_no_positive (protocols : list Chat.Protocol) :
  filter (fun item => 0 <? Chat.score item) (map (Chat.scoreProtocol []) protocols) = [].
Proof.
  induction protocols as [|p ps IH]; simpl; [reflexivity | exact IH].
Qed.

(** The returned protocols are the protocols of the first (at most five)
    items of the sorted positive items. *)
Lemma relevant_items (protocols : list Chat.Protocol) (query : string) :
  exists top rest,
    Chat.findRelevantProtocols protocols query = map Chat.protocol top
    /\ List.length top = Nat.min 5 (List.length (top ++ rest))
    /\ StronglySorted scoreDesc (top ++ rest)
    /\ Forall (scoredBy (Chat.queryKeywords query)) (top ++ rest)
    /\ (forall it, In it (top ++ rest)
                   <-> In it (filter (fun item => 0 <? Chat.score item)
                                (map (Chat.scoreProtocol (Chat.queryKeywords query))
                                     protocols)))
    /\ List.length (top ++ rest)
       = List.length (filter (fun p => 0 <? Chat.scoreOf query p) protocols).
Proof.
  set (kws := Chat.queryKeywords query).
  set (positive := filter (fun item => 0 <? Chat.score item)
                          (map (Chat.scoreProtocol kws) protocols)).
  set (sorted := Js.sort Chat.byScoreDesc positive).
  assert (Hlen : List.length positive
                 = List.length (filter (fun p => 0 <? Chat.scoreOf query p) protocols)).
  { unfold positive. rewrite <- (length_map Chat.protocol).
    now rewrite filter_map_scoreProtocol. }
  assert (Hzero : kws = [] -> positive = []).
  { intros Hk. unfold positive. rewrite Hk. apply no_keywords_no_positive. }
  exists (firstn 5 sorted), (skipn 5 sorted). rewrite firstn_skipn.
  split; [|split; [|split; [|split; [|split]]]].
  - assert (Hd : {kws = []} + {kws <> []}).
    { unfold kws. destruct (Chat.queryKeywords query);
        [left; reflexivity | right; discriminate]. }
    destruct Hd as [Hk|Hk].
    + unfold Chat.findRelevantProtocols.
      rewrite (no_keyword_run_eq _ _ Hk). unfold sorted.
      rewrite (Hzero Hk). reflexivity.
    + apply ranked_result_eq. exact Hk.
  - apply length_firstn.
  - apply sort_sorted.
  - apply Forall_forall. intros it Hit. apply sort_In, filter_In in Hit as [Hit _].
    pose proof (scoredBy_scoreProtocol kws protocols) as Hall.
    rewrite Forall_forall in Hall. now apply Hall.
  - intros it. apply sort_In.
  - rewrite <- Hlen. symmetry. apply Permutation_length, sort_perm.
Qed.

Lemma StronglySorted_app_order {A : Type} (R : A -> A -> Prop) (l1 l2 : list A) :
  StronglySorted R (l1 ++ l2) -> forall a b, In a l1 -> In b l2 -> R a b.
Proof.
  induction l1 as [|x l1 IH]; simpl; intros Hs a b Ha Hb; [contradiction|].
  inversion Hs as [|? ? Hs' Hx]; subst.
  destruct Ha as [->|Ha].
  - rewrite Forall_forall in Hx. apply Hx, in_or_app. now right.
  - now apply IH.
Qed.

(** X13.  Every protocol the scorer returns is a protocol of the corpus that
    mentions a keyword of the query in its name or content; a protocol that
    mentions none is never returned. *)
Theorem relevant_mention_keyword (protocols : list Chat.Protocol) (query : string)
        (p : Chat.Protocol) :
  In p (Chat.findRelevantProtocols protocols query) ->
  In p protocols
  /\ exists kw, In kw (Chat.queryKeywords query) /\ mentions p kw = true.
Proof.
  intros Hp.
  destruct (relevant_items protocols query)
    as [top [rest [Hout [_ [_ [Hby [Hin _]]]]]]].
  rewrite Hout in Hp. apply in_map_iff in Hp as [it [<- Hit]].
  assert (Hit' : In it (top ++ rest)) by (apply in_or_app; now left).
  rewrite Forall_forall in Hby. pose proof (Hby _ Hit') as Hsc.
  apply Hin, filter_In in Hit' as [Hmap Hpos].
  split.
  - apply in_map_iff in Hmap as [p' [<- Hp']]. exact Hp'.
  - apply score_positive_iff. unfold Chat.scoreOf. rewrite <- Hsc.
    now apply Nat.ltb_lt.
Qed.

Lemma relevant_mention_keyword_witness :
  In cardiacArrest (Chat.findRelevantProtocols [cardiacArrest] "cardiac care")
  /\ exists kw, In kw (Chat.queryKeywords "cardiac care")
                /\ mentions cardiacArrest kw = true.
Proof.
  split; [now left|].
  apply (relevant_mention_keyword [cardiacArrest] "cardiac care" cardiacArrest).
  now left.
Defined.

(** X14.  The five returned are the best five: a protocol of the corpus that
    scores strictly higher than a returned protocol is returned too. *)
Theorem relevant_are_top (protocols : list Chat.Protocol) (query : string)
        (r p : Chat.Protocol) :
  In r (Chat.findRelevantProtocols protocols query) ->
  In p protocols ->
  Chat.scoreOf query r < Chat.scoreOf query p ->
  In p (Chat.findRelevantProtocols protocols query).
Proof.
  intros Hr Hp Hlt.
  destruct (relevant_items protocols query)
    as [top [rest [Hout [_ [Hs [Hby [Hin _]]]]]]].
  rewrite Hout in *. apply in_map_iff in Hr as [it [<- Hit]].
  rewrite Forall_forall in Hby.
  assert (Hsc : Chat.scoreOf query (Chat.protocol it) = Chat.score it).
  { unfold Chat.scoreOf. rewrite <- (Hby it); [reflexivity|].
    apply in_or_app. now left. }
  rewrite Hsc in Hlt.
  assert (Hsp : In (Chat.scoreProtocol (Chat.queryKeywords query) p) (top ++ rest)).
  { apply Hin, filter_In. split; [now apply in_map|].
    apply Nat.ltb_lt. unfold Chat.scoreOf in Hlt. lia. }
  apply in_app_or in Hsp as [Htop|Hrest].
  - apply in_map_iff. exists (Chat.scoreProtocol (Chat.queryKeywords query) p).
    split; [reflexivity | assumption].
  - pose proof (StronglySorted_app_order _ _ _ Hs _ _ Hit Hrest) as Hle.
    unfold scoreDesc, Chat.scoreOf in *. lia.
Qed.

Lemma relevant_are_top_witness :
  In cardiacArrest (Chat.findRelevantProtocols [stroke; cardiacArrest] "cardiac arrest").
Proof.
  apply (relevant_are_top [stroke; cardiacArrest] "cardiac arrest" stroke cardiacArrest).
  - right. now left.
  - right. now left.
  - vm_compute. lia.
Defined.

(** X15.  The scorer returns as many protocols as score above zero, up to
    five; so when at most five protocols score above zero, each of them is
    returned. *)
Theorem relevant_count (protocols : list Chat.Protocol) (query : string) :
  let positive := filter (fun p => 0 <? Chat.scoreOf query p) protocols in
  List.length (Chat.findRelevantProtocols protocols query)
  = Nat.min 5 (List.length positive)
  /\ (List.length positive <= 5 ->
      forall p, In p positive -> In p (Chat.findRelevantProtocols protocols query)).
Proof.
  cbv zeta.
  destruct (relevant_items protocols query)
    as [top [rest [Hout [Htop [_ [_ [Hin Hlen]]]]]]].
  rewrite Hout, length_map, Htop, Hlen. split; [reflexivity|].
  intros Hfew p Hp. apply filter_In in Hp as [Hp Hpos].
  assert (Hrest : rest = []).
  { rewrite Hlen in Htop. rewrite length_app in Hlen.
    destruct rest; [reflexivity|]. simpl in Hlen. lia. }
  subst rest. rewrite app_nil_r in Hin.
  apply in_map_iff. exists (Chat.scoreProtocol (Chat.queryKeywords query) p).
  split; [reflexivity|]. apply Hin, filter_In. split; [now apply in_map | exact Hpos].
Qed.

Lemma relevant_count_witness :
  List.length (filter (fun p => 0 <? Chat.scoreOf "cardiac arrest" p)
                      [stroke; cardiacArrest]) <= 5
  /\ In stroke (Chat.findRelevantProtocols [stroke; cardiacArrest] "cardiac arrest").
Proof.
  assert (Hfew : List.length (filter (fun p => 0 <? Chat.scoreOf "cardiac arrest" p)
                                     [stroke; cardiacArrest]) <= 5)
    by (vm_compute; lia).
  split; [exact Hfew|].
  apply (proj2 (relevant_count [stroke; cardiacArrest] "cardiac arrest") Hfew).
  now left.
Defined.

Lemma lowerChar_idempotent (c : ascii) : Js.lowerChar (Js.lowerChar c) = Js.lowerChar c.
Proof. destruct c as [[] [] [] [] [] [] [] []]; reflexivity. Qed.

Lemma toLowerCase_idempotent (s : string) :
  Js.toLowerCase (Js.toLowerCase s) = Js.toLowerCase s.
Proof.
  induction s as [|c s IH]; simpl; [reflexivity|].
  now rewrite lowerChar_idempotent, IH.
Qed.

(** X16.  The scorer ignores letter case: the query in lower case gives the
    same result as the query as typed, and a protocol scores the same with
    its name and content in lower case. *)
Theorem relevant_case_insensitive (protocols : list Chat.Protocol) (query : string) :
  Chat.findRelevantProtocols protocols (Js.toLowerCase query)
  = Chat.findRelevantProtocols protocols query
  /\ forall p,
       Chat.scoreOf query
         {| Chat.name := Js.toLowerCase (Chat.name p);
            Chat.content := Js.toLowerCase (Chat.content p);
            Chat.source_file := Chat.source_file p |}
       = Chat.scoreOf query p.
Proof.
  split.
  - unfold Chat.findRelevantProtocols, Chat.findRelevantProtocols_run,
      Chat.queryKeywords.
    now rewrite toLowerCase_idempotent.
  - intros p. unfold Chat.scoreOf, Chat.scoreProtocol. simpl.
    now rewrite !toLowerCase_idempotent.
Qed.

(** X26.  The keyword-overlap scorer is deterministic whatever sort the engine
    runs: every run of [findRelevantProtocols] over a sort that orders by
    non-increasing score and keeps the order of equal scores returns the same
    sequence in the same order, the one the executable model computes; and
    there is such a run. *)
Theorem scorer_deterministic (protocols : list Chat.Protocol) (query : string) :
  Chat.FindRelevantProtocols protocols query (Chat.findRelevantProtocols protocols query)
  /\ forall r1 r2,
       Chat.FindRelevantProtocols protocols query r1 ->
       Chat.FindRelevantProtocols protocols query r2 ->
       r1 = r2.
Proof.
  split; [apply findRelevantProtocols_conforms|].
  intros r1 r2 H1 H2. exact (FindRelevantProtocols_unique _ _ _ _ H1 H2).
Qed.

Lemma scorer_deterministic_witness :
  Chat.findRelevantProtocols [stroke; cardiacArrest; syncope] "cardiac arrest"
  = [cardiacArrest; stroke; syncope].
Proof.
  destruct (scorer_deterministic [stroke; cardiacArrest; syncope] "cardiac arrest")
    as [Hrun Huniq].
  apply (Huniq _ _ Hrun).
  pose (kws := Chat.queryKeywords "cardiac arrest").
  apply (Chat.Find_ranked [stroke; cardiacArrest; syncope] "cardiac arrest"
           [Chat.scoreProtocol kws cardiacArrest; Chat.scoreProtocol kws stroke;
            Chat.scoreProtocol kws syncope]).
  - discriminate.
  - change (filter (fun item => 0 <? Chat.score item)
              (map (Chat.scoreProtocol (Chat.queryKeywords "cardiac arrest"))
                   [stroke; cardiacArrest; syncope]))
      with [Chat.scoreProtocol kws stroke; Chat.scoreProtocol kws cardiacArrest;
            Chat.scoreProtocol kws syncope].
    assert (Ha : Chat.score (Chat.scoreProtocol kws cardiacArrest) = 8) by reflexivity.
    assert (Hs : Chat.score (Chat.scoreProtocol kws stroke) = 1) by reflexivity.
    assert (Hy : Chat.score (Chat.scoreProtocol kws syncope) = 1) by reflexivity.
    split.
    + repeat constructor; rewrite ?Ha, ?Hs, ?Hy; lia.
    + intros k. unfold filter. rewrite Ha, Hs, Hy.
      destruct (Nat.eqb_spec 8 k) as [E8|E8]; destruct (Nat.eqb_spec 1 k) as [E1|E1];
        try reflexivity.
      exfalso. lia.
Defined.

(** ** The quiz route *)

Lemma digits2_pos_bounds (m : positive) :
  (2 ^ (Zpos (digits2_pos m) - 1) <= Zpos m < 2 ^ Zpos (digits2_pos m))%Z.
Proof.
  induction m as [m IH|m IH|]; simpl digits2_pos.
  - rewrite Pos2Z.inj_succ, Z.pow_succ_r by lia.
    replace (Z.succ (Zpos (digits2_pos m)) - 1)%Z with (Z.succ (Zpos (digits2_pos m) - 1))%Z
      by lia.
    rewrite Z.pow_succ_r by lia. lia.
  - rewrite Pos2Z.inj_succ, Z.pow_succ_r by lia.
    replace (Z.succ (Zpos (digits2_pos m)) - 1)%Z with (Z.succ (Zpos (digits2_pos m) - 1))%Z
      by lia.
    rewrite Z.pow_succ_r by lia. lia.
  - simpl. lia.
Qed.

Lemma ofZ_1 : Js.ofZ 1 = S754_finite false 4503599627370496 (-52).
Proof. vm_compute. reflexivity. Qed.

Lemma ofZ_20 : Js.ofZ 20 = S754_finite false 5629499534213120 (-48).
Proof. vm_compute. reflexivity. Qed.

Lemma div_pow2_range (m a b k : Z) :
  (0 < k)%Z -> (a * 2 ^ k <= m < b * 2 ^ k)%Z -> (a <= m / 2 ^ k < b)%Z.
Proof.
  intros Hk [Hlo Hhi]. assert (0 < 2 ^ k)%Z by (apply Z.pow_pos_nonneg; lia).
  split; [apply Z.div_le_lower_bound | apply Z.div_lt_upper_bound]; lia.
Qed.

(** A valid number the schema accepts as [length] has an integer part from 1
    to 20. *)
Lemma toInteger_range (n : Js.number) :
  validNumber n ->
  Js.isNaN n || Js.lt n (Js.ofZ 1) || Js.lt (Js.ofZ 20) n = false ->
  1 <= QuizRoute.toInteger n <= 20.
Proof.
  unfold validNumber. intros Hv Hr. rewrite ofZ_1, ofZ_20 in Hr.
  apply orb_false_iff in Hr as [Hr H20]. apply orb_false_iff in Hr as [Hn H1].
  destruct n as [s|s| |s m e].
  - destruct s; discriminate H1.
  - destruct s; [discriminate H1 | discriminate H20].
  - discriminate Hn.
  - destruct s; [discriminate H1|].
    unfold Js.lt, SFltb, SFcompare in H1, H20.
    unfold valid_binary, bounded, canonical_mantissa, fexp, emin, Js.prec, Js.emax in Hv.
    apply andb_true_iff in Hv as [Hc _]. apply Z.eqb_eq in Hc.
    pose proof (digits2_pos_bounds m) as Hd.
    assert (He : (-52 <= e <= -48)%Z).
    { split.
      - destruct (Z.compare_spec e (-52)); [lia | discriminate H1 | lia].
      - destruct (Z.compare_spec (-48) e); [lia | discriminate H20 | lia]. }
    assert (Hdig : Zpos (digits2_pos m) = 53%Z) by lia.
    rewrite Hdig in Hd. change (53 - 1)%Z with 52%Z in Hd.
    assert (Hm : e = (-48)%Z -> (Zpos m <= 5629499534213120)%Z).
    { intros ->. rewrite Z.compare_refl in H20.
      destruct (Pos.compare_cont Eq 5629499534213120 m) eqn:Hcmp;
        [| discriminate H20 |].
      - apply Pos.compare_eq in Hcmp. subst m. reflexivity.
      - change (Pos.compare_cont Eq 5629499534213120 m)
          with (Pos.compare 5629499534213120 m) in Hcmp.
        apply Pos.compare_gt_iff in Hcmp. apply Pos2Z.pos_lt_pos in Hcmp.
        apply Z.lt_le_incl. exact Hcmp. }
    clear H1 H20 Hc Hdig Hn.
    assert (Hcases : e = (-52)%Z \/ e = (-51)%Z \/ e = (-50)%Z \/ e = (-49)%Z
                     \/ e = (-48)%Z) by lia.
    unfold QuizRoute.toInteger.
    destruct Hcases as [ -> | [ -> | [ -> | [ -> | -> ] ] ] ];
      cbn [Z.leb Z.compare Z.opp].
    + pose proof (div_pow2_range (Zpos m) 1 2 52 eq_refl) as H. clear - H Hd. lia.
    + pose proof (div_pow2_range (Zpos m) 2 4 51 eq_refl) as H. clear - H Hd. lia.
    + pose proof (div_pow2_range (Zpos m) 4 8 50 eq_refl) as H. clear - H Hd. lia.
    + pose proof (div_pow2_range (Zpos m) 8 16 49 eq_refl) as H. clear - H Hd. lia.
    + specialize (Hm eq_refl).
      pose proof (div_pow2_range (Zpos m) 16 21 48 eq_refl) as H.
      clear - H Hd Hm. lia.
Qed.

Lemma safeParse_Some (body : Json.value) (categories : option (list string))
      (n : Js.number) :
  QuizRoute.safeParse body = Some (categories, n) ->
  Js.isNaN n || Js.lt n (Js.ofZ 1) || Js.lt (Js.ofZ 20) n = false.
Proof.
  unfold QuizRoute.safeParse. destruct body as [| | | | |fields]; try discriminate.
  destruct (Json.get "categories" fields) as [[| | | |items|]|]; try discriminate.
  - destruct (Json.strings items); [|discriminate].
    destruct (Json.get "length" fields) as [[| |k| | |]|]; try discriminate.
    destruct (Js.isNaN k || Js.lt k (Js.ofZ 1) || Js.lt (Js.ofZ 20) k) eqn:E;
      [discriminate|].
    intros [= _ <-]. exact E.
  - destruct (Json.get "length" fields) as [[| |k| | |]|]; try discriminate.
    destruct (Js.isNaN k || Js.lt k (Js.ofZ 1) || Js.lt (Js.ofZ 20) k) eqn:E;
      [discriminate|].
    intros [= _ <-]. exact E.
Qed.

Lemma questionsFrom_length (openai : option (nat -> QuizRoute.Protocol -> option Json.value))
      (now : nat -> Z) (selected : list QuizRoute.Protocol) (i : nat) :
  List.length (QuizRoute.questionsFrom openai now i selected) = List.length selected.
Proof.
  revert i. induction selected as [|p ps IH]; intros i; simpl; [reflexivity|].
  now rewrite IH.
Qed.

Lemma POST_Questions (allProtocols : list QuizRoute.Protocol)
      (shuffle : list QuizRoute.Protocol -> list QuizRoute.Protocol)
      (openai : option (nat -> QuizRoute.Protocol -> option Json.value))
      (now : nat -> Z) (body : Json.value) (questions : list Json.value) :
  QuizRoute.POST allProtocols shuffle openai now body = QuizRoute.Questions questions ->
  exists categories n,
    QuizRoute.safeParse body = Some (categories, n)
    /\ CategoryFilter.filterAny QuizRoute.categories (requested categories) allProtocols
       <> []
    /\ questions
       = QuizRoute.questionsFrom openai now 0
           (firstn (QuizRoute.toInteger n)
              (shuffle (CategoryFilter.filterAny QuizRoute.categories
                          (requested categories) allProtocols))).
Proof.
  unfold QuizRoute.POST.
  destruct (QuizRoute.safeParse body) as [[categories n]|]; [|discriminate].
  fold (requested categories).
  destruct (QuizRoute.selectPool allProtocols (requested categories)) as [pool|e] eqn:E;
    [|discriminate].
  apply selectPool_Proceed in E as [-> Hne].
  intros [= <-]. exists categories, n. repeat split. exact Hne.
Qed.

(** X17.  When the quiz route answers with questions, it answers with as many
    as the integer part of the requested length, or as many as there are
    protocols for the requested categories if those are fewer: at least one
    and at most twenty. *)
Theorem quiz_question_count (allProtocols : list QuizRoute.Protocol)
        (shuffle : list QuizRoute.Protocol -> list QuizRoute.Protocol)
        (openai : option (nat -> QuizRoute.Protocol -> option Json.value))
        (now : nat -> Z) (body : Json.value) (questions : list Json.value) :
  (forall l, Permutation l (shuffle l)) ->
  (forall categories n, QuizRoute.safeParse body = Some (categories, n) -> validNumber n) ->
  QuizRoute.POST allProtocols shuffle openai now body = QuizRoute.Questions questions ->
  exists categories n,
    QuizRoute.safeParse body = Some (categories, n)
    /\ List.length questions
       = Nat.min (QuizRoute.toInteger n)
           (List.length (CategoryFilter.filterAny QuizRoute.categories
                           (requested categories) allProtocols))
    /\ 1 <= List.length questions <= 20.
Proof.
  intros Hperm Hvalid Hpost.
  apply POST_Questions in Hpost as [categories [n [Hparse [Hne ->]]]].
  exists categories, n. split; [exact Hparse|].
  pose proof (toInteger_range n (Hvalid _ _ Hparse) (safeParse_Some _ _ _ Hparse)) as Hr.
  rewrite questionsFrom_length, length_firstn.
  rewrite <- (Permutation_length (Hperm _)).
  split; [reflexivity|].
  destruct (CategoryFilter.filterAny QuizRoute.categories (requested categories)
              allProtocols) as [|p ps]; [congruence|].
  simpl List.length. lia.
Qed.

Lemma sampleRequest_valid (categories : option (list string)) (n : Js.number) :
  QuizRoute.safeParse sampleRequest = Some (categories, n) -> validNumber n.
Proof. intros H. vm_compute in H. injection H as _ <-. reflexivity. Qed.

Lemma quiz_question_count_witness :
  QuizRoute.POST [airway; burns; seizure] (@rev _) None sampleClock sampleRequest
  = QuizRoute.Questions (QuizRoute.questionsFrom None sampleClock 0 [burns; airway])
  /\ 1 <= List.length (QuizRoute.questionsFrom None sampleClock 0 [burns; airway]) <= 20.
Proof.
  assert (Hpost : QuizRoute.POST [airway; burns; seizure] (@rev _) None sampleClock
                                 sampleRequest
                  = QuizRoute.Questions
                      (QuizRoute.questionsFrom None sampleClock 0 [burns; airway]))
    by reflexivity.
  split; [exact Hpost|].
  destruct (quiz_question_count _ _ _ _ _ _ (@Permutation_rev _) sampleRequest_valid Hpost)
    as [c [n [_ [_ Hb]]]].
  exact Hb.
Defined.

Lemma questionFor_truthy (openai : option (nat -> QuizRoute.Protocol -> option Json.value))
      (now : nat -> Z) (i : nat) (proto : QuizRoute.Protocol) :
  Json.truthy (QuizRoute.questionFor openai now i proto) = true
  /\ (QuizRoute.questionFor openai now i proto
      = QuizRoute.fallbackQuestion (now i) proto
      \/ exists create, openai = Some create
                        /\ create i proto = Some (QuizRoute.questionFor openai now i proto)).
Proof.
  unfold QuizRoute.questionFor. destruct openai as [create|].
  - destruct (create i proto) as [q|] eqn:E.
    + destruct (Json.truthy q) eqn:Hq.
      * split; [exact Hq|]. right. now exists create.
      * split; [reflexivity | now left].
    + split; [reflexivity | now left].
  - split; [reflexivity | now left].
Qed.

Lemma questionsFrom_truthy (openai : option (nat -> QuizRoute.Protocol -> option Json.value))
      (now : nat -> Z) (selected : list QuizRoute.Protocol) (k : nat) :
  Forall (fun q => Json.truthy q = true) (QuizRoute.questionsFrom openai now k selected).
Proof.
  revert k. induction selected as [|p ps IH]; intros k; simpl; [constructor|].
  constructor; [apply questionFor_truthy | apply IH].
Qed.

Lemma questionsFrom_nth (openai : option (nat -> QuizRoute.Protocol -> option Json.value))
      (now : nat -> Z) (selected : list QuizRoute.Protocol) (k i : nat)
      (proto : QuizRoute.Protocol) :
  nth_error selected i = Some proto ->
  nth_error (QuizRoute.questionsFrom openai now k selected) i
  = Some (QuizRoute.questionFor openai now (k + i) proto).
Proof.
  revert k i. induction selected as [|p ps IH]; intros k [|i]; simpl; try discriminate.
  - intros [= ->]. now rewrite Nat.add_0_r.
  - intros H. rewrite (IH (S k) i H). do 2 f_equal. lia.
Qed.

(** X18.  The questions of the quiz route go with protocols chosen from the
    pool without taking any protocol more often than the pool holds it: each
    chosen protocol is in the corpus and, when categories are requested,
    carries one of them; each question is a truthy value, either what the AI
    call gave for that protocol or the fallback stub of that protocol, and
    it is the stub whenever no API key is set. *)
Theorem quiz_questions_from_pool (allProtocols : list QuizRoute.Protocol)
        (shuffle : list QuizRoute.Protocol -> list QuizRoute.Protocol)
        (openai : option (nat -> QuizRoute.Protocol -> option Json.value))
        (now : nat -> Z) (body : Json.value) (questions : list Json.value) :
  (forall l, Permutation l (shuffle l)) ->
  QuizRoute.POST allProtocols shuffle openai now body = QuizRoute.Questions questions ->
  exists categories n selected rest,
    QuizRoute.safeParse body = Some (categories, n)
    /\ Permutation
         (CategoryFilter.filterAny QuizRoute.categories (requested categories) allProtocols)
         (selected ++ rest)
    /\ questionsOf openai now selected questions
    /\ Forall (fun q => Json.truthy q = true) questions
    /\ (openai = None ->
        forall i proto, nth_error selected i = Some proto ->
          nth_error questions i = Some (QuizRoute.fallbackQuestion (now i) proto))
    /\ (forall proto, In proto selected ->
          In proto allProtocols
          /\ (requested categories <> [] ->
              exists c, In c (requested categories)
                        /\ tagged QuizRoute.categories c proto = true)).
Proof.
  intros Hperm Hpost.
  apply POST_Questions in Hpost as [categories [n [Hparse [Hne ->]]]].
  set (pool := CategoryFilter.filterAny QuizRoute.categories (requested categories)
                                        allProtocols) in *.
  exists categories, n, (firstn (QuizRoute.toInteger n) (shuffle pool)),
         (skipn (QuizRoute.toInteger n) (shuffle pool)).
  rewrite firstn_skipn.
  assert (Hnth : forall i proto,
             nth_error (firstn (QuizRoute.toInteger n) (shuffle pool)) i = Some proto ->
             nth_error (QuizRoute.questionsFrom openai now 0
                          (firstn (QuizRoute.toInteger n) (shuffle pool))) i
             = Some (QuizRoute.questionFor openai now i proto)).
  { intros i proto H. exact (questionsFrom_nth _ _ _ 0 i proto H). }
  split; [exact Hparse|]. split; [apply Hperm|].
  split; [split; [apply questionsFrom_length | exact Hnth]|].
  split; [|split].
  - apply questionsFrom_truthy.
  - intros -> i proto H. rewrite (Hnth i proto H). reflexivity.
  - intros proto Hin.
    assert (Hpool : In proto pool).
    { apply (Permutation_in _ (Permutation_sym (Hperm pool))).
      rewrite <- (firstn_skipn (QuizRoute.toInteger n)). apply in_or_app. now left. }
    unfold pool in Hpool. split.
    + unfold CategoryFilter.filterAny in Hpool.
      destruct (negb (List.length (requested categories) =? 0));
        [apply filter_In in Hpool; tauto | exact Hpool].
    + intros Hreq. rewrite (filterAny_filter _ _ _ Hreq) in Hpool.
      apply filter_In in Hpool as [_ Hc]. apply existsb_exists in Hc as [c [Hc Ht]].
      exists c. split; [exact Hc|]. now rewrite <- hasCategory_tagged.
Qed.

Lemma quiz_questions_from_pool_witness :
  QuizRoute.POST [airway; burns; seizure] (@rev _) None sampleClock sampleRequest
  = QuizRoute.Questions
      [QuizRoute.fallbackQuestion 1700000000000 burns;
       QuizRoute.fallbackQuestion 1700000000000 airway]
  /\ Forall (fun q => Json.truthy q = true)
            [QuizRoute.fallbackQuestion 1700000000000 burns;
             QuizRoute.fallbackQuestion 1700000000000 airway].
Proof.
  assert (Hpost : QuizRoute.POST [airway; burns; seizure] (@rev _) None sampleClock
                                 sampleRequest
                  = QuizRoute.Questions
                      [QuizRoute.fallbackQuestion 1700000000000 burns;
                       QuizRoute.fallbackQuestion 1700000000000 airway])
    by reflexivity.
  split; [exact Hpost|].
  destruct (quiz_questions_from_pool _ _ _ _ _ _ (@Permutation_rev _) Hpost)
    as [c [n [sel [rest [_ [_ [_ [Ht _]]]]]]]].
  exact Ht.
Defined.

(** ** The quiz page *)

Lemma clampLength_range (value : string) :
  (1 <= QuizPage.clampLength value <= 20)%Z.
Proof. unfold QuizPage.clampLength. lia. Qed.

Lemma firstn_snoc {A : Type} (l : list A) (i : nat) (x : A) :
  nth_error l i = Some x -> firstn (S i) l = firstn i l ++ [x].
Proof.
  revert i. induction l as [|y l IH]; intros [|i] H; simpl in *; try discriminate.
  - now injection H as ->.
  - now rewrite (IH i H).
Qed.

Lemma quizInv_initial : quizInv QuizPage.initialState.
Proof.
  unfold quizInv, answered; simpl.
  repeat split; try constructor; try lia; discriminate.
Qed.

Lemma quizInv_step (st st' : QuizPage.State) (ev : QuizPage.Event) :
  quizInv st -> QuizPage.enabled st ev = true -> QuizPage.handle st ev = Some st' ->
  quizInv st'.
Proof.
  intros (H1 & H2 & H3 & H4 & H5 & H6) Hen Hh.
  destruct st as [qs cats len questions idx sel fb answers sc loading err].
  unfold quizInv, answered, QuizPage.enabled, QuizPage.screen in *; simpl in *.
  destruct ev as [catId|value| |r|v| | |]; simpl in Hh.
  - injection Hh as <-. simpl. repeat split; try assumption; try lia.
    now apply toggle_NoDup.
  - injection Hh as <-. simpl. pose proof (clampLength_range value).
    repeat split; try assumption; lia.
  - injection Hh as <-. unfold QuizPage.startQuiz; simpl.
    destruct qs; try discriminate;
      [|destruct (nth_error questions idx); discriminate].
    destruct (List.length cats =? 0); simpl; repeat split; try assumption; try lia;
      try tauto.
  - injection Hh as <-. subst loading. specialize (H5 eq_refl). subst qs.
    destruct H6 as [-> ->]. inversion H1; subst.
    destruct r as [newq| |]; simpl.
    + repeat split; try assumption; try lia; try discriminate;
        try (now constructor).
      destruct newq; [right; now repeat split | left; simpl; lia].
    + repeat split; try assumption; try lia; try discriminate; now constructor.
    + repeat split; try assumption; try lia; try discriminate; now constructor.
  - injection Hh as <-. simpl. repeat split; try assumption; lia.
  - destruct qs; try discriminate.
    destruct (nth_error questions idx) as [q|] eqn:Eq; try discriminate.
    destruct fb; try discriminate. simpl in Hen.
    unfold QuizPage.handleAnswerSubmit in Hh; simpl in Hh.
    destruct sel as [selected|]; try discriminate. simpl in Hen.
    rewrite Bool.negb_involutive in Hen. rewrite Hen, Eq in Hh. simpl in Hh.
    injection Hh as <-. simpl.
    assert (Hlt : idx < List.length questions).
    { apply nth_error_Some. congruence. }
    rewrite Nat.add_0_r in H1. rewrite Nat.add_1_r, (firstn_snoc _ _ _ Eq).
    repeat split; try assumption; try lia; try (now left).
    + apply Forall2_app; [assumption|]. constructor; [|constructor].
      split; [reflexivity|]. exists selected. now repeat split.
    + rewrite filter_app, length_app. simpl.
      destruct (String.eqb selected (QuizPage.correctAnswerId q)); simpl; lia.
  - destruct qs; try discriminate.
    destruct (nth_error questions idx) as [q|] eqn:Eq; try discriminate.
    subst fb. injection Hh as <-. unfold QuizPage.handleNextQuestion; simpl.
    assert (Hlt : idx < List.length questions).
    { apply nth_error_Some. congruence. }
    destruct (idx + 1 <? List.length questions) eqn:En; simpl.
    + apply Nat.ltb_lt in En. rewrite Nat.add_0_r.
      repeat split; try assumption; lia.
    + apply Nat.ltb_ge in En.
      assert (E : List.length questions = idx + 1) by lia.
      rewrite E. repeat split; try assumption; try lia.
      intros Hl. discriminate (H5 Hl).
  - injection Hh as <-. simpl.
    repeat split; try assumption; try lia; now constructor.
Qed.

Lemma reachable_quizInv (st : QuizPage.State) :
  QuizPage.Reachable st -> quizInv st.
Proof.
  induction 1 as [|st st' ev _ IH Hen Hh]; [exact quizInv_initial|].
  exact (quizInv_step st st' ev IH Hen Hh).
Qed.

Lemma play_Reachable (evs : list QuizPage.Event) (st st' : QuizPage.State) :
  QuizPage.Reachable st -> play evs st = Some st' -> QuizPage.Reachable st'.
Proof.
  revert st. induction evs as [|ev evs IH]; simpl; intros st Hr Hp.
  - now injection Hp as <-.
  - destruct (QuizPage.enabled st ev) eqn:Hen; [|discriminate].
    destruct (QuizPage.handle st ev) as [st1|] eqn:Hh; [|discriminate].
    exact (IH st1 (QuizPage.Reachable_step st st1 ev Hr Hen Hh) Hp).
Qed.

Lemma sampleQuiz_Reachable : QuizPage.Reachable (played sampleQuiz).
Proof.
  apply (play_Reachable sampleQuiz QuizPage.initialState);
    [exact QuizPage.Reachable_initial | reflexivity].
Qed.

Lemma sampleSetup_Reachable : QuizPage.Reachable (played sampleSetup).
Proof.
  apply (play_Reachable sampleSetup QuizPage.initialState);
    [exact QuizPage.Reachable_initial | reflexivity].
Qed.

(** X19.  Whatever the user does on the quiz page, the recorded answers are
    the answers to the questions shown so far, one for each and in their
    order: each carries the id of its question and the option that was
    selected, and is marked correct when that option is the correct answer of
    the question and only then.  Once the quiz is completed every question has
    its answer. *)
Theorem quiz_answers_graded (st : QuizPage.State) :
  QuizPage.Reachable st ->
  Forall2 graded (firstn (answered st) (QuizPage.questions st)) (QuizPage.userAnswers st)
  /\ (QuizPage.quizState st = QuizPage.Completed ->
      Forall2 graded (QuizPage.questions st) (QuizPage.userAnswers st)).
Proof.
  intros Hr. destruct (reachable_quizInv st Hr) as [H _]. split; [exact H|].
  intros Hc. unfold answered in H. rewrite Hc, firstn_all in H. exact H.
Qed.

Lemma quiz_answers_graded_witness :
  QuizPage.quizState (played sampleQuiz) = QuizPage.Completed
  /\ Forall2 graded [firstStep; secondStep] (QuizPage.userAnswers (played sampleQuiz)).
Proof.
  split; [reflexivity|].
  exact (proj2 (quiz_answers_graded (played sampleQuiz) sampleQuiz_Reachable) eq_refl).
Defined.

(** X20.  Whatever the user does on the quiz page, the score is the number of
    recorded answers that are marked correct, and it exceeds neither the number
    of questions answered so far nor the number of questions of the quiz. *)
Theorem quiz_score_counts_correct (st : QuizPage.State) :
  QuizPage.Reachable st ->
  QuizPage.score st = List.length (filter QuizPage.isCorrect (QuizPage.userAnswers st))
  /\ List.length (QuizPage.userAnswers st) = answered st
  /\ QuizPage.score st <= answered st <= List.length (QuizPage.questions st).
Proof.
  intros Hr. destruct (reachable_quizInv st Hr) as (H1 & H2 & _ & _ & _ & H6).
  split; [exact H2|].
  pose proof (Forall2_length H1) as Hl. rewrite length_firstn in Hl.
  pose proof (filter_length_le QuizPage.isCorrect (QuizPage.userAnswers st)) as Hf.
  assert (Ha : answered st <= List.length (QuizPage.questions st)).
  { unfold answered in *.
    destruct (QuizPage.quizState st); [lia| |lia].
    destruct H6 as [Hlt|(Hq & Hi & Hf')].
    - destruct (QuizPage.showFeedback st); lia.
    - rewrite Hi, Hf'. simpl. lia. }
  lia.
Qed.

Lemma quiz_score_counts_correct_witness :
  QuizPage.score (played sampleQuiz) = 1
  /\ QuizPage.score (played sampleQuiz) <= answered (played sampleQuiz) <= 2.
Proof.
  split; [reflexivity|].
  exact (proj2 (proj2 (quiz_score_counts_correct (played sampleQuiz) sampleQuiz_Reachable))).
Defined.

Lemma strings_map_Str (l : list string) : Json.strings (map Json.Str l) = Some l.
Proof. induction l as [|s l IH]; simpl; [reflexivity|]. now rewrite IH. Qed.

Lemma ofZ_1_20 (z : Z) :
  (1 <= z <= 20)%Z ->
  Js.isNaN (Js.ofZ z) || Js.lt (Js.ofZ z) (Js.ofZ 1) || Js.lt (Js.ofZ 20) (Js.ofZ z) = false
  /\ QuizRoute.toInteger (Js.ofZ z) = Z.to_nat z
  /\ validNumber (Js.ofZ z).
Proof.
  intros H.
  assert (E : (z = 1 \/ z = 2 \/ z = 3 \/ z = 4 \/ z = 5 \/ z = 6 \/ z = 7 \/ z = 8
               \/ z = 9 \/ z = 10 \/ z = 11 \/ z = 12 \/ z = 13 \/ z = 14 \/ z = 15
               \/ z = 16 \/ z = 17 \/ z = 18 \/ z = 19 \/ z = 20)%Z) by lia.
  clear H.
  repeat (destruct E as [->|E]; [vm_compute; repeat split|]).
  subst z. vm_compute. repeat split.
Qed.

Lemma startQuiz_request (st : QuizPage.State) (body : Json.value) :
  snd (QuizPage.startQuiz st) = Some body ->
  body = QuizPage.requestBody st /\ QuizPage.selectedCategories st <> [].
Proof.
  unfold QuizPage.startQuiz.
  destruct (QuizPage.selectedCategories st) as [|c cs] eqn:E; simpl; [discriminate|].
  intros [= <-]. split; [|discriminate].
  unfold QuizPage.requestBody. now rewrite E.
Qed.

Lemma safeParse_requestBody (st : QuizPage.State) :
  (1 <= QuizPage.selectedLength st <= 20)%Z ->
  QuizRoute.safeParse (QuizPage.requestBody st)
  = Some (Some (QuizPage.selectedCategories st), Js.ofZ (QuizPage.selectedLength st)).
Proof.
  intros H. destruct (ofZ_1_20 _ H) as [Hr _].
  unfold QuizRoute.safeParse, QuizPage.requestBody.
  cbn [Json.get String.eqb Ascii.eqb Bool.eqb].
  now rewrite strings_map_Str, Hr.
Qed.

(** X21.  The quiz page never sends the quiz route a request that the route's
    schema rejects: a request is sent only with at least one category
    selected, and the route parses it to the selected categories and the
    selected length, a whole number from 1 to 20. *)
Theorem quiz_request_accepted (st : QuizPage.State) (body : Json.value) :
  QuizPage.Reachable st ->
  snd (QuizPage.startQuiz st) = Some body ->
  QuizRoute.safeParse body
  = Some (Some (QuizPage.selectedCategories st), Js.ofZ (QuizPage.selectedLength st))
  /\ QuizPage.selectedCategories st <> []
  /\ (1 <= QuizPage.selectedLength st <= 20)%Z.
Proof.
  intros Hr Hs. destruct (reachable_quizInv st Hr) as (_ & _ & H3 & _).
  apply startQuiz_request in Hs as [-> Hne].
  split; [now apply safeParse_requestBody|]. now split.
Qed.

Lemma quiz_request_accepted_witness :
  QuizRoute.safeParse (QuizPage.requestBody (played sampleSetup))
  = Some (Some ["adult"%string], Js.ofZ 20).
Proof.
  exact (proj1 (quiz_request_accepted (played sampleSetup)
                  (QuizPage.requestBody (played sampleSetup))
                  sampleSetup_Reachable eq_refl)).
Defined.

(** X22.  A quiz started from the quiz page and answered by the quiz route
    with questions has as many questions as the selected length, or as many
    as there are protocols in the selected categories if those are fewer: at
    least one, and never more than were asked for. *)
Theorem quiz_page_question_count (allProtocols : list QuizRoute.Protocol)
        (shuffle : list QuizRoute.Protocol -> list QuizRoute.Protocol)
        (openai : option (nat -> QuizRoute.Protocol -> option Json.value))
        (now : nat -> Z) (st : QuizPage.State) (body : Json.value)
        (questions : list Json.value) :
  (forall l, Permutation l (shuffle l)) ->
  QuizPage.Reachable st ->
  snd (QuizPage.startQuiz st) = Some body ->
  QuizRoute.POST allProtocols shuffle openai now body = QuizRoute.Questions questions ->
  List.length questions
  = Nat.min (Z.to_nat (QuizPage.selectedLength st))
      (List.length (CategoryFilter.filterAny QuizRoute.categories
                      (QuizPage.selectedCategories st) allProtocols))
  /\ 1 <= List.length questions <= Z.to_nat (QuizPage.selectedLength st).
Proof.
  intros Hperm Hr Hs Hpost.
  destruct (reachable_quizInv st Hr) as (_ & _ & H3 & _).
  apply startQuiz_request in Hs as [-> _].
  apply POST_Questions in Hpost as [categories [n [Hparse [Hne ->]]]].
  rewrite (safeParse_requestBody st H3) in Hparse. injection Hparse as <- <-.
  destruct (ofZ_1_20 _ H3) as (_ & Hi & _).
  rewrite questionsFrom_length, length_firstn, Hi.
  rewrite <- (Permutation_length (Hperm _)). simpl requested.
  split; [reflexivity|].
  simpl requested in Hne.
  destruct (CategoryFilter.filterAny QuizRoute.categories
              (QuizPage.selectedCategories st) allProtocols) as [|p ps]; [congruence|].
  simpl List.length. lia.
Qed.

Lemma quiz_page_question_count_witness :
  List.length (QuizRoute.questionsFrom None sampleClock 0 [airway]) = 1.
Proof.
  exact (proj1 (quiz_page_question_count [airway; burns; seizure] (@rev _) None sampleClock
                  (played sampleSetup) (QuizPage.requestBody (played sampleSetup))
                  (QuizRoute.questionsFrom None sampleClock 0 [airway])
                  (@Permutation_rev _) sampleSetup_Reachable eq_refl eq_refl)).
Defined.

(** ** The chat route *)

Lemma lastFive_suffix {A : Type} (messages : list A) :
  messages = firstn (List.length messages - 5) messages ++ ChatRoute.lastFive messages.
Proof. unfold ChatRoute.lastFive. now rewrite firstn_skipn. Qed.

Lemma lastFive_length {A : Type} (messages : list A) :
  List.length (ChatRoute.lastFive messages) = Nat.min 5 (List.length messages).
Proof. unfold ChatRoute.lastFive. rewrite length_skipn. lia. Qed.

Lemma lastFive_lastContent (messages : list Json.value) :
  ChatRoute.lastContent (ChatRoute.lastFive messages) = ChatRoute.lastContent messages.
Proof.
  unfold ChatRoute.lastContent. rewrite lastFive_length.
  unfold ChatRoute.lastFive. rewrite nth_error_skipn.
  destruct (Nat.eq_dec (List.length messages) 0) as [E|E].
  - apply length_zero_iff_nil in E. now subst.
  - replace (List.length messages - 5 + (Nat.min 5 (List.length messages) - 1))
      with (List.length messages - 1) by lia.
    reflexivity.
Qed.

Lemma POST_StreamText (protocols : list Chat.Protocol) (mistral : bool)
      (body : Json.value) (system : string) (messages : list Json.value) :
  ChatRoute.POST protocols mistral body = ChatRoute.StreamText system messages ->
  mistral = true
  /\ exists all query,
       asks body all query
       /\ all <> []
       /\ system = ChatRoute.systemPrompt (Chat.findRelevantProtocols protocols query)
       /\ messages = ChatRoute.lastFive all.
Proof.
  unfold ChatRoute.POST. destruct mistral; simpl; [|discriminate].
  destruct body as [| | | | |fields]; try discriminate.
  destruct (Json.get "messages" fields) as [[| | | |all|]|] eqn:Em; try discriminate.
  destruct (List.length all =? 0) eqn:El; [discriminate|].
  destruct (ChatRoute.lastContent all) as [userQuery|] eqn:Ec; [|discriminate].
  destruct (Json.truthy userQuery) eqn:Et; simpl; [|discriminate].
  destruct userQuery as [| | |query| |]; try discriminate.
  intros [= <- <-]. split; [reflexivity|]. exists all, query.
  split; [|split; [|split; reflexivity]].
  - split; [now exists fields|]. split; [exact Ec|]. intros ->. discriminate.
  - intros ->. discriminate.
Qed.

Lemma asks_POST (protocols : list Chat.Protocol) (body : Json.value)
      (all : list Json.value) (query : string) :
  asks body all query ->
  ChatRoute.POST protocols true body
  = ChatRoute.StreamText
      (ChatRoute.systemPrompt (Chat.findRelevantProtocols protocols query))
      (ChatRoute.lastFive all).
Proof.
  intros [[fields [-> Hm]] [Hc Hq]]. unfold ChatRoute.POST. simpl. rewrite Hm.
  destruct all as [|m ms]; [discriminate|]. simpl List.length. simpl Nat.eqb.
  rewrite Hc. simpl. destruct query; [congruence | reflexivity].
Qed.

(** X23.  The chat route calls the model only for a conversation whose last
    message carries a text that is not empty.  The model then gets the final
    part of the conversation, at least one and at most five messages ending
    in that last message, and a system prompt built from the protocols found
    for its text. *)
Theorem chat_model_call (protocols : list Chat.Protocol) (mistral : bool)
        (body : Json.value) (system : string) (messages : list Json.value) :
  ChatRoute.POST protocols mistral body = ChatRoute.StreamText system messages ->
  exists all query,
    asks body all query
    /\ system = ChatRoute.systemPrompt (Chat.findRelevantProtocols protocols query)
    /\ (exists earlier, all = earlier ++ messages)
    /\ List.length messages = Nat.min 5 (List.length all)
    /\ 1 <= List.length messages <= 5
    /\ ChatRoute.lastContent messages = Some (Json.Str query).
Proof.
  intros H. apply POST_StreamText in H as [_ [all [query (Ha & Hne & -> & ->)]]].
  exists all, query. split; [exact Ha|]. split; [reflexivity|].
  split; [eexists; apply lastFive_suffix|].
  rewrite lastFive_lastContent, lastFive_length.
  split; [reflexivity|]. split; [|apply Ha].
  destruct all; [congruence | simpl List.length; lia].
Qed.

Lemma chat_model_call_witness :
  ChatRoute.POST [cardiacArrest] true sampleChat
  = ChatRoute.StreamText (ChatRoute.instructions ++ ChatRoute.noProtocols) (tl sampleTurns)
  /\ exists all query,
       asks sampleChat all query
       /\ (ChatRoute.instructions ++ ChatRoute.noProtocols)%string
          = ChatRoute.systemPrompt (Chat.findRelevantProtocols [cardiacArrest] query)
       /\ (exists earlier, all = earlier ++ tl sampleTurns)
       /\ List.length (tl sampleTurns) = Nat.min 5 (List.length all)
       /\ 1 <= List.length (tl sampleTurns) <= 5
       /\ ChatRoute.lastContent (tl sampleTurns) = Some (Json.Str query).
Proof.
  split; [reflexivity|].
  exact (chat_model_call [cardiacArrest] true sampleChat
           (ChatRoute.instructions ++ ChatRoute.noProtocols) (tl sampleTurns) eq_refl).
Defined.

(** X24.  A question made only of short words and stop words still reaches the
    model: the route searches no protocol for it and sends the last five
    messages with a prompt that says no protocol matched. *)
Theorem chat_without_keywords (protocols : list Chat.Protocol) (body : Json.value)
        (all : list Json.value) (query : string) :
  asks body all query ->
  Chat.queryKeywords query = [] ->
  ChatRoute.POST protocols true body
  = ChatRoute.StreamText (ChatRoute.instructions ++ ChatRoute.noProtocols)
      (ChatRoute.lastFive all).
Proof.
  intros Ha Hk. rewrite (asks_POST protocols body all query Ha).
  unfold Chat.findRelevantProtocols. rewrite (no_keyword_run_eq _ _ Hk). reflexivity.
Qed.

Lemma sampleChat_asks : asks sampleChat sampleTurns "is it in".
Proof.
  split; [now exists [("messages", Json.Arr sampleTurns)]%string|].
  split; [reflexivity | discriminate].
Qed.

Lemma chat_without_keywords_witness :
  ChatRoute.POST [cardiacArrest] true sampleChat
  = ChatRoute.StreamText (ChatRoute.instructions ++ ChatRoute.noProtocols)
      (ChatRoute.lastFive sampleTurns).
Proof.
  exact (chat_without_keywords [cardiacArrest] sampleChat sampleTurns "is it in"
           sampleChat_asks eq_refl).
Defined.

Lemma append_empty_r (s : string) : (s ++ "")%string = s.
Proof. induction s as [|c s IH]; simpl; [reflexivity | now rewrite IH]. Qed.

Lemma string_append_assoc (a b c : string) : ((a ++ b) ++ c = a ++ b ++ c)%string.
Proof. induction a as [|x a IH]; simpl; [reflexivity | now rewrite IH]. Qed.

Lemma append_cancel_l (s a b : string) : (s ++ a = s ++ b)%string -> a = b.
Proof. induction s as [|c s IH]; simpl; [tauto|]. intros [= H]. exact (IH H). Qed.

Lemma join_In (sep x : string) (items : list string) :
  In x items ->
  exists before after, ChatRoute.join sep items = (before ++ x ++ after)%string.
Proof.
  induction items as [|y rest IH]; [intros []|].
  intros Hin. simpl ChatRoute.join. destruct rest as [|z rest'].
  - destruct Hin as [->|[]]. exists EmptyString, EmptyString.
    simpl. now rewrite append_empty_r.
  - destruct Hin as [->|Hin].
    + exists EmptyString. eexists. reflexivity.
    + destruct (IH Hin) as [before [after E]]. rewrite E.
      exists (y ++ sep ++ before)%string, after.
      now rewrite !string_append_assoc.
Qed.

Lemma protocolContext_cons (p : Chat.Protocol) (ps : list Chat.Protocol) :
  exists rest, ChatRoute.protocolContext (p :: ps) = String "P" rest.
Proof.
  unfold ChatRoute.protocolContext. simpl.
  destruct (map ChatRoute.protocolBlock ps); eexists; reflexivity.
Qed.

(** X25.  The system prompt of the chat route is the instructions followed by
    a context.  The context carries the whole block of every protocol the
    prompt is given (name, source file and content); and the prompt is the
    instructions followed by the sentence "No specific protocols found
    matching the query." and nothing more exactly when it is given no
    protocol. *)
Theorem chat_prompt_protocols (relevantProtocols : list Chat.Protocol) :
  (relevantProtocols = []
   <-> ChatRoute.systemPrompt relevantProtocols
       = (ChatRoute.instructions ++ ChatRoute.noProtocols)%string)
  /\ (forall p, In p relevantProtocols ->
        exists before after,
          ChatRoute.systemPrompt relevantProtocols
          = (ChatRoute.instructions ++ before ++ ChatRoute.protocolBlock p ++ after)%string).
Proof.
  split; [split|].
  - intros ->. reflexivity.
  - destruct relevantProtocols as [|p ps]; [reflexivity|].
    unfold ChatRoute.systemPrompt.
    destruct (protocolContext_cons p ps) as [rest ->]. simpl Js.truthy. cbv iota.
    intros H. apply append_cancel_l in H. discriminate H.
  - intros p Hin. destruct relevantProtocols as [|q qs]; [destruct Hin|].
    assert (Ht : Js.truthy (ChatRoute.protocolContext (q :: qs)) = true).
    { destruct (protocolContext_cons q qs) as [rest ->]. reflexivity. }
    unfold ChatRoute.systemPrompt. cbv zeta. rewrite Ht.
    destruct (join_In ChatRoute.separator (ChatRoute.protocolBlock p)
                (map ChatRoute.protocolBlock (q :: qs)) (in_map _ _ _ Hin))
      as [before [after Hj]].
    exists before, after. unfold ChatRoute.protocolContext. now rewrite Hj.
Qed.
